(** * CookShare: the request handlers of [app/main.py] over an explicit store

    The handlers of [app/main.py] are embedded as functions over an explicit
    world (database tables, media directory, standard output, entropy
    counter) and an explicit browser session.  Everything the handlers take
    from outside the repository (Pillow, [float()], [uuid], [secrets],
    passlib) is a field of the class [Platform]; a small executable instance
    is given in [Module Reference] to run the handlers on concrete requests.

    Conventions.
    - A Python [str] is a [string]; a character is a code point below 256,
      so the code points 128..255 are the non-ASCII ones.
    - A handler is modelled from the point where FastAPI calls it: the
      arguments have the types of the signature ([csrf_token : str], ...).
      The validation FastAPI does before the call (HTTP 422) is not part of
      the model.
    - A library call that may raise inside a [try] block returns an
      [option]; [None] is the raised exception. *)

From Stdlib Require Import ZArith List String Ascii Bool Lia.
From Stdlib Require Import QArith_base.
From Stdlib Require Import DecimalString.
From Stdlib Require Import Sorting.Sorted.
From Stdlib Require Strings.Byte.
Import ListNotations.

Local Open Scope string_scope.
Local Open Scope Z_scope.

Set Implicit Arguments.

(* ================================================================= *)
(** ** Python values used by the handlers *)

Definition bytes := list Byte.byte.

(** A Python [float]: only its value matters to [int()]. *)
Inductive pyfloat :=
| PFinite (q : Q)
| PInf (negative : bool)
| PNaN.

(** [int(f)]: truncation toward zero; [OverflowError] on an infinity and
    [ValueError] on a NaN. *)
Definition py_int (f : pyfloat) : option Z :=
  match f with
  | PFinite q => Some (Z.quot (Qnum q) (Zpos (Qden q)))
  | PInf _ => None
  | PNaN => None
  end.

(** [str.isspace] on the code points below 256. *)
Definition is_space (c : ascii) : bool :=
  let n := N_of_ascii c in
  (((9 <=? n) && (n <=? 13)) || ((28 <=? n) && (n <=? 32))
   || (n =? 133) || (n =? 160))%N.

Fixpoint lstrip (s : string) : string :=
  match s with
  | EmptyString => EmptyString
  | String c s' => if is_space c then lstrip s' else s
  end.

Fixpoint rstrip (s : string) : string :=
  match s with
  | EmptyString => EmptyString
  | String c s' =>
      match rstrip s' with
      | EmptyString => if is_space c then EmptyString else String c EmptyString
      | r => String c r
      end
  end.

(** [s.strip()] *)
Definition strip (s : string) : string := rstrip (lstrip s).

(** Truthiness of a [str]. *)
Definition truthy (s : string) : bool :=
  match s with EmptyString => false | _ => true end.

(** [v or None] for an [Optional[str]]. *)
Definition or_None (v : option string) : option string :=
  match v with
  | Some s => if truthy s then Some s else None
  | None => None
  end.

(** [s.split(",")] *)
Fixpoint split_comma (s : string) : list string :=
  match s with
  | EmptyString => [EmptyString]
  | String c s' =>
      if Ascii.eqb c ","%char then EmptyString :: split_comma s'
      else match split_comma s' with
           | [] => [String c EmptyString]
           | x :: xs => String c x :: xs
           end
  end.

(** [", ".join(xs)] *)
Fixpoint join_comma_space (xs : list string) : string :=
  match xs with
  | [] => EmptyString
  | [x] => x
  | x :: rest => x ++ ", " ++ join_comma_space rest
  end.

(** [str(n)] for an [int], as an f-string formats it. *)
Definition str_of_int (n : Z) : string := NilZero.string_of_int (Z.to_int n).

Definition is_ascii_char (c : ascii) : bool := (N_of_ascii c <? 128)%N.

Fixpoint is_ascii (s : string) : bool :=
  match s with
  | EmptyString => true
  | String c s' => is_ascii_char c && is_ascii s'
  end.

(** [len(l)] *)
Definition len {A} (l : list A) : Z := Z.of_nat (List.length l).

(** [arr[idx]] guarded by [idx < len(arr)], for [idx >= 0]. *)
Definition at_index {A} (arr : list A) (idx : Z) : option A :=
  if (0 <=? idx) && (idx <? len arr)
  then nth_error arr (Z.to_nat idx) else None.

(** Exceptions that leave a handler. *)
Inductive exn :=
| HTTPException (status_code : Z) (detail : string)
| TypeError
| OverflowError.

Inductive result (A : Type) :=
| Ok (a : A)
| Raise (e : exn).
Arguments Ok {A} a.
Arguments Raise {A} e.

(** SQLite keeps an INTEGER in 64 bits, signed. *)
Definition in_int64 (n : Z) : bool :=
  (-9223372036854775808 <=? n) && (n <=? 9223372036854775807).

(** A Python [int] bound to a parameter of a statement: outside 64 bits
    the [sqlite3] driver raises OverflowError and the statement is not
    run. *)
Definition sqlite_bind (n : Z) : result unit :=
  if in_int64 n then Ok tt else Raise OverflowError.

(* ================================================================= *)
(** ** What the handlers take from outside the repository *)

Class Platform := {
  (** [float(s)]; [None] is [ValueError]. *)
  py_float : string -> option pyfloat;
  (** [uuid.uuid4().hex], [secrets.token_urlsafe(16)] and the bcrypt salt,
      drawn at a given value of the entropy counter. *)
  uuid4_hex : nat -> string;
  token_urlsafe : nat -> string;
  pwd_hash : nat -> string -> string;
  pwd_verify : string -> string -> bool;
  (** Pillow. *)
  image : Type;
  im_width : image -> Z;
  im_height : image -> Z;
  Image_open : bytes -> option image;
  exif_transpose : image -> option image;
  thumbnail : image -> Z * Z -> option image;
  crop : image -> Z * Z * Z * Z -> option image;
  resize : image -> Z * Z -> option image;
  (** [im.save(out, format="WEBP", quality=85)]: the encoded file. *)
  save_webp : image -> option bytes;
}.

(** The part of Pillow's contract the crop properties rest on: a box that
    is not empty and lies inside the image is cropped to its own size, and
    an image that is not empty is resized to the size asked for. *)
Class PillowLaws (P : Platform) : Prop := {
  crop_inside : forall im x0 y0 x1 y1,
    0 <= x0 -> x0 < x1 -> x1 <= im_width im ->
    0 <= y0 -> y0 < y1 -> y1 <= im_height im ->
    exists im', crop im (x0, y0, x1, y1) = Some im'
                /\ im_width im' = x1 - x0 /\ im_height im' = y1 - y0;
  resize_size : forall im w h,
    0 < im_width im -> 0 < im_height im -> 0 < w -> 0 < h ->
    exists im', resize im (w, h) = Some im'
                /\ im_width im' = w /\ im_height im' = h;
}.

(* ================================================================= *)
(** ** Models (tables) *)

Module User.
Record t := mk { id : Z; email : string; password_hash : string }.
End User.

Module Recipe.
Record t := mk {
  id : Z;
  title : string;
  description : string;
  main_image : option string;
  author_id : option Z;
  view_count : Z }.
End Recipe.

Module Ingredient.
Record t := mk {
  id : Z;
  recipe_id : Z;
  name : string;
  amount : option string;
  unit : option string;
  order_no : Z }.
End Ingredient.

Module Step.
Record t := mk {
  id : Z;
  recipe_id : Z;
  body : string;
  order_no : Z;
  image_path : option string }.
End Step.

Module Tag.
Record t := mk { id : Z; name : string }.
End Tag.

Module RecipeTag.
Record t := mk { recipe_id : Z; tag_id : Z }.
End RecipeTag.

Module Favorite.
Record t := mk { user_id : Z; recipe_id : Z }.
End Favorite.

(** The database: every table in rowid order.  [recipe_seq] is the
    [sqlite_sequence] entry of [recipe] ([sqlite_autoincrement]). *)
Record DB := mkDB {
  users : list User.t;
  recipes : list Recipe.t;
  recipe_seq : Z;
  ingredients : list Ingredient.t;
  steps : list Step.t;
  tags : list Tag.t;
  recipe_tags : list RecipeTag.t;
  favorites : list Favorite.t }.

Definition empty_db : DB := mkDB [] [] 0 [] [] [] [] [].

(** The world a request runs in. *)
Record World := mkWorld {
  db : DB;
  media : list (string * bytes);   (* app/media: latest write first *)
  stdout : list string;            (* lines printed, oldest first *)
  entropy : nat }.

(** [request.session] *)
Record Session := mkSession {
  sess_user_id : option Z;
  sess_csrf_token : option string }.

Definition empty_session : Session := mkSession None None.

Record UploadFile := mkUpload { filename : string; content : bytes }.

(** What a template is rendered with. *)
Inductive Page :=
| signup_html (error : option string) (csrf_token : option string)
    (current_user : option User.t)
| login_html (error : option string) (csrf_token : option string)
    (current_user : option User.t)
| recipe_new_html (csrf_token : option string) (current_user : User.t)
| recipe_detail_html (recipe : Recipe.t) (ingredients : list Ingredient.t)
    (steps : list Step.t) (tags : list Tag.t) (current_user : option User.t)
    (fav : option (Z * bool))
| recipe_edit_html (recipe : Recipe.t) (ingredients : list Ingredient.t)
    (steps : list Step.t) (tags_csv : string) (csrf_token : option string)
    (current_user : User.t)
| favorites_html (recipes : list Recipe.t) (current_user : User.t)
    (order : string).

(** What a handler hands back to the framework: a response object, or an
    exception it did not catch. *)
Inductive Response :=
| RedirectResponse (url : string) (status_code : Z)
| TemplateResponse (page : Page)
| HTMLResponse (content : string) (status_code : Z)
| Uncaught (e : exn).

(** The HTTP status the client sees. *)
Definition status_of (r : Response) : Z :=
  match r with
  | RedirectResponse _ c => c
  | TemplateResponse _ => 200
  | HTMLResponse _ c => c
  | Uncaught (HTTPException c _) => c
  | Uncaught TypeError => 500
  | Uncaught OverflowError => 500
  end.

(* ================================================================= *)
(** ** The store *)

(** The rowid SQLite gives a new row: one more than the largest in use. *)
Definition next_rowid (ids : list Z) : Z := fold_right Z.max 0 ids + 1.

Definition set_users (d : DB) (v : list User.t) : DB :=
  mkDB v (recipes d) (recipe_seq d) (ingredients d) (steps d) (tags d)
       (recipe_tags d) (favorites d).
Definition set_recipes (d : DB) (v : list Recipe.t) (sq : Z) : DB :=
  mkDB (users d) v sq (ingredients d) (steps d) (tags d)
       (recipe_tags d) (favorites d).
Definition set_ingredients (d : DB) (v : list Ingredient.t) : DB :=
  mkDB (users d) (recipes d) (recipe_seq d) v (steps d) (tags d)
       (recipe_tags d) (favorites d).
Definition set_steps (d : DB) (v : list Step.t) : DB :=
  mkDB (users d) (recipes d) (recipe_seq d) (ingredients d) v (tags d)
       (recipe_tags d) (favorites d).
Definition set_tags (d : DB) (v : list Tag.t) : DB :=
  mkDB (users d) (recipes d) (recipe_seq d) (ingredients d) (steps d) v
       (recipe_tags d) (favorites d).
Definition set_recipe_tags (d : DB) (v : list RecipeTag.t) : DB :=
  mkDB (users d) (recipes d) (recipe_seq d) (ingredients d) (steps d) (tags d)
       v (favorites d).
Definition set_favorites (d : DB) (v : list Favorite.t) : DB :=
  mkDB (users d) (recipes d) (recipe_seq d) (ingredients d) (steps d) (tags d)
       (recipe_tags d) v.

Definition set_db (w : World) (d : DB) : World :=
  mkWorld d (media w) (stdout w) (entropy w).

(** [s.add(User(...)); s.commit(); s.refresh(u)] *)
Definition add_user (d : DB) (email password_hash : string) : DB * User.t :=
  let u := User.mk (next_rowid (map User.id (users d))) email password_hash in
  (set_users d (users d ++ [u]), u).

(** [s.add(Recipe(...)); s.commit(); s.refresh(r)]; the table is
    AUTOINCREMENT, so the new id also exceeds every id used before. *)
Definition add_recipe (d : DB) (title description : string)
    (main_image : option string) (author_id : option Z) : DB * Recipe.t :=
  let rid := Z.max (next_rowid (map Recipe.id (recipes d))) (recipe_seq d + 1) in
  let r := Recipe.mk rid title description main_image author_id 0 in
  (set_recipes d (recipes d ++ [r]) rid, r).

Definition add_ingredient (d : DB) (recipe_id : Z) (name : string)
    (amount unit : option string) (order_no : Z) : DB :=
  set_ingredients d
    (ingredients d ++
     [Ingredient.mk (next_rowid (map Ingredient.id (ingredients d)))
                    recipe_id name amount unit order_no]).

Definition add_step (d : DB) (recipe_id : Z) (body : string) (order_no : Z)
    (image_path : option string) : DB :=
  set_steps d
    (steps d ++
     [Step.mk (next_rowid (map Step.id (steps d)))
              recipe_id body order_no image_path]).

Definition add_tag (d : DB) (name : string) : DB * Tag.t :=
  let t := Tag.mk (next_rowid (map Tag.id (tags d))) name in
  (set_tags d (tags d ++ [t]), t).

Definition add_recipe_tag (d : DB) (recipe_id tag_id : Z) : DB :=
  set_recipe_tags d (recipe_tags d ++ [RecipeTag.mk recipe_id tag_id]).

Definition add_favorite (d : DB) (user_id recipe_id : Z) : DB :=
  set_favorites d (favorites d ++ [Favorite.mk user_id recipe_id]).

(** [s.get(User, uid)], for the [uid] the application wrote to the signed
    session. *)
Definition get_user (d : DB) (uid : Z) : option User.t :=
  find (fun u => User.id u =? uid) (users d).

(** [s.get(Recipe, rid)], for the [rid] of the request path: the SELECT
    binds [rid]. *)
Definition get_recipe (d : DB) (rid : Z) : result (option Recipe.t) :=
  match sqlite_bind rid with
  | Raise e => Raise e
  | Ok _ => Ok (find (fun r => Recipe.id r =? rid) (recipes d))
  end.

(** [ORDER BY key] and [ORDER BY key DESC]: rows with equal keys keep the
    table order. *)
Fixpoint insert_by {A} (before : A -> A -> bool) (x : A) (l : list A) : list A :=
  match l with
  | [] => [x]
  | y :: l' => if before x y then x :: l else y :: insert_by before x l'
  end.

Definition order_by {A} (key : A -> Z) (l : list A) : list A :=
  fold_right (insert_by (fun a b => key a <=? key b)) [] l.

Definition order_by_desc {A} (key : A -> Z) (l : list A) : list A :=
  fold_right (insert_by (fun a b => key b <=? key a)) [] l.

(** [select(Ingredient).where(recipe_id == rid).order_by(order_no)] *)
Definition select_ingredients (d : DB) (rid : Z) : list Ingredient.t :=
  order_by Ingredient.order_no
    (filter (fun i => Ingredient.recipe_id i =? rid) (ingredients d)).

(** [select(Step).where(recipe_id == rid).order_by(order_no)] *)
Definition select_steps (d : DB) (rid : Z) : list Step.t :=
  order_by Step.order_no (filter (fun s => Step.recipe_id s =? rid) (steps d)).

(** [select(Tag).join(RecipeTag, tag_id == Tag.id).where(recipe_id == rid)] *)
Definition select_tags (d : DB) (rid : Z) : list Tag.t :=
  flat_map
    (fun t =>
       map (fun _ => t)
           (filter (fun rt => (RecipeTag.tag_id rt =? Tag.id t)
                              && (RecipeTag.recipe_id rt =? rid))
                   (recipe_tags d)))
    (tags d).

Definition _is_favorited (d : DB) (user_id recipe_id : Z) : bool :=
  existsb (fun f => (Favorite.user_id f =? user_id)
                    && (Favorite.recipe_id f =? recipe_id)) (favorites d).

Definition _fav_count (d : DB) (recipe_id : Z) : Z :=
  len (filter (fun f => Favorite.recipe_id f =? recipe_id) (favorites d)).

(* ================================================================= *)
(** ** Request forms *)

Module CreateForm.
Record t := mk {
  title : string;
  description : string;
  image : option UploadFile;
  ingredients_name : list string;
  ingredients_amount : list string;
  ingredients_unit : list string;
  steps_body : list string;
  steps_image : list UploadFile;
  steps_crop_x : option (list string);
  steps_crop_y : option (list string);
  steps_crop_w : option (list string);
  steps_crop_h : option (list string);
  tags_csv : string;
  crop_x : option string;
  crop_y : option string;
  crop_w : option string;
  crop_h : option string;
  csrf_token : string }.
End CreateForm.

(** The edit form: it has no per-ingredient unit and no per-step crop. *)
Module UpdateForm.
Record t := mk {
  title : string;
  csrf_token : string;
  description : string;
  image : option UploadFile;
  ingredients_name : option (list string);
  ingredients_amount : option (list string);
  steps_body : option (list string);
  steps_existing_image : option (list string);
  steps_image : option (list UploadFile);
  tags_csv : string;
  crop_x : option string;
  crop_y : option string;
  crop_w : option string;
  crop_h : option string }.
End UpdateForm.

(** [v or []] for an [Optional[List]]. *)
Definition or_empty {A} (v : option (list A)) : list A :=
  match v with Some l => l | None => [] end.

(** Truthiness of an [Optional[str]]. *)
Definition truthy_opt (v : option string) : bool :=
  match v with Some s => truthy s | None => false end.

Notation "x <- e ;; k" := (match e with Some x => k | None => None end)
  (at level 61, e at next level, right associativity, only parsing).

Section Handlers.

Context {P : Platform}.

(* ----------------------------------------------------------------- *)
(** *** Auth helpers *)

Definition get_current_user (d : DB) (sess : Session) : option User.t :=
  match sess_user_id sess with
  | None => None
  | Some uid => if uid =? 0 then None else get_user d uid
  end.

Definition _ensure_csrf (w : World) (sess : Session) : World * Session :=
  if truthy_opt (sess_csrf_token sess) then (w, sess)
  else (mkWorld (db w) (media w) (stdout w) (S (entropy w)),
        mkSession (sess_user_id sess) (Some (token_urlsafe (entropy w)))).

(** [secrets.compare_digest] on two [str]: it refuses non-ASCII text. *)
Definition compare_digest (a b : string) : result bool :=
  if is_ascii a && is_ascii b then Ok (String.eqb a b) else Raise TypeError.

Definition verify_csrf (sess : Session) (token : string) : result unit :=
  let invalid := Raise (HTTPException 400 "Invalid CSRF token") in
  match sess_csrf_token sess with
  | None => invalid
  | Some sess_token =>
      if negb (truthy sess_token) then invalid
      else if negb (truthy token) then invalid
      else match compare_digest sess_token token with
           | Ok true => Ok tt
           | Ok false => invalid
           | Raise e => Raise e
           end
  end.

Definition _require_login (d : DB) (sess : Session) : result User.t :=
  match get_current_user d sess with
  | None => Raise (HTTPException 401 "Login required")
  | Some user => Ok user
  end.

Definition _get_recipe_or_404 (d : DB) (rid : Z) : result Recipe.t :=
  match get_recipe d rid with
  | Raise e => Raise e
  | Ok None => Raise (HTTPException 404 "Not found")
  | Ok (Some r) => Ok r
  end.

Definition opt_Z_eqb (a : option Z) (b : Z) : bool :=
  match a with Some x => x =? b | None => false end.

Definition _require_owner (d : DB) (sess : Session) (rid : Z)
  : result (Recipe.t * User.t) :=
  match _require_login d sess with
  | Raise e => Raise e
  | Ok user =>
      match _get_recipe_or_404 d rid with
      | Raise e => Raise e
      | Ok r =>
          if negb (opt_Z_eqb (Recipe.author_id r) (User.id user))
          then Raise (HTTPException 403 "Forbidden")
          else Ok (r, user)
      end
  end.

(* ----------------------------------------------------------------- *)
(** *** Images *)

Definition _to_float_or_none (v : option string) : option pyfloat :=
  match v with
  | None => None
  | Some s => if truthy s then py_float s else None
  end.

Definition _to_int_or_none (v : option string) : option Z :=
  match v with
  | None => None
  | Some s => if truthy s then (f <- py_float s ;; py_int f) else None
  end.

Definition _crop_tuple_at (idx : Z) (xs ys ws hs : option (list string))
  : option (Z * Z * Z * Z) :=
  let pick (arr : option (list string)) :=
    _to_int_or_none (match arr with
                     | Some l => at_index l idx
                     | None => None
                     end) in
  match pick xs, pick ys, pick ws, pick hs with
  | Some x, Some y, Some w, Some h =>
      Some (Z.max 0 x, Z.max 0 y, Z.max 1 w, Z.max 1 h)
  | _, _, _, _ => None
  end.

(** [out.write_bytes(data)] *)
Definition write_bytes (w : World) (fname : string) (data : bytes) : World :=
  mkWorld (db w) ((fname, data) :: media w) (stdout w) (entropy w).

Definition print (w : World) (line : string) : World :=
  mkWorld (db w) (media w) (stdout w ++ [line]) (entropy w).

Definition read_media (w : World) (fname : string) : option bytes :=
  option_map snd (find (fun e => String.eqb (fst e) fname) (media w)).

(** [Image.open], [exif_transpose], [thumbnail((1600, 1600))] *)
Definition open_downscaled (data : bytes) : option image :=
  im0 <- Image_open data ;;
  im <- exif_transpose im0 ;;
  thumbnail im (1600, 1600).

(** [im.crop((x, y, x + w, y + h))] then [resize((1200, 675), LANCZOS)] *)
Definition crop_resize (im : image) (x y w h : Z) : option image :=
  im1 <- crop im (x, y, x + w, y + h) ;;
  resize im1 (1200, 675).

(** [im.save(out, ...)] closes the [try] block: the file is opened for
    writing, so an encoder that raises leaves it empty.  The boolean tells
    whether the block ended without an exception. *)
Definition save_or_keep (w : World) (fname : string) (im : option image)
  : World * bool :=
  match im with
  | None => (w, false)
  | Some im1 =>
      match save_webp im1 with
      | Some enc => (write_bytes w fname enc, true)
      | None => (write_bytes w fname [], false)
      end
  end.

(** The rectangle the main-image block crops to, for an image of the given
    size and the four integers read from the form. *)
Definition main_crop_rect (width height ix iy iw ih : Z) : Z * Z * Z * Z :=
  let x := Z.max 0 ix in
  let y := Z.max 0 iy in
  let w := Z.max 1 iw in
  let h := Z.max 1 ih in
  let w := Z.min w (width - x) in
  let h := Z.min h (height - y) in
  (x, y, w, h).

(** The body of the [try] block of the main image, up to [im.save]. *)
Definition main_image_try (data : bytes) (cx cy cw ch : option pyfloat)
  : option image :=
  im <- open_downscaled data ;;
  match cx, cy, cw, ch with
  | Some fx, Some fy, Some fw, Some fh =>
      ix <- py_int fx ;;
      iy <- py_int fy ;;
      iw <- py_int fw ;;
      ih <- py_int fh ;;
      let '(x, y, w, h) :=
        main_crop_rect (im_width im) (im_height im) ix iy iw ih in
      crop_resize im x y w h
  | _, _, _, _ => Some im
  end.

(** The main-image block of [recipe_create] and of [recipe_update] (the
    two handlers hold the same lines): the new world and the stored path. *)
Definition save_main_image (w : World) (up : UploadFile)
    (cx cy cw ch : option pyfloat) : World * string :=
  let fname := uuid4_hex (entropy w) ++ ".webp" in
  let w := mkWorld (db w) (media w) (stdout w) (S (entropy w)) in
  let w := write_bytes w fname (content up) in
  let '(w, _) := save_or_keep w fname (main_image_try (content up) cx cy cw ch) in
  (w, "/media/" ++ fname ++ "+").

(** The body of the [try] block of [save_step_image], up to [im.save]. *)
Definition step_image_try (data : bytes) (crop_x crop_y crop_w crop_h : option Z)
  : option image :=
  im <- open_downscaled data ;;
  match crop_x, crop_y, crop_w, crop_h with
  | Some x, Some y, Some w, Some h =>
      let w := Z.min w (im_width im - x) in
      let h := Z.min h (im_height im - y) in
      crop_resize im x y w h
  | _, _, _, _ => Some im
  end.

(** [save_step_image]; the line printed in the [except] branch stands
    without the text of the exception. *)
Definition save_step_image (w : World) (upload : option UploadFile)
    (crop_x crop_y crop_w crop_h : option Z) : World * option string :=
  match upload with
  | None => (w, None)
  | Some up =>
      if negb (truthy (filename up)) then (w, None)
      else
        let fname := uuid4_hex (entropy w) ++ ".webp" in
        let w := mkWorld (db w) (media w) (stdout w) (S (entropy w)) in
        let w := write_bytes w fname (content up) in
        let '(w, ok) :=
          save_or_keep w fname
            (step_image_try (content up) crop_x crop_y crop_w crop_h) in
        let w := if ok then w else print w "step image save error:" in
        (w, Some ("/media/" ++ fname))
  end.

(* ----------------------------------------------------------------- *)
(** *** Signup, login, logout *)

(** The two error texts are Japanese in the source; they stand here in
    English. *)
Definition msg_email_taken : string := "email already registered".
Definition msg_bad_login : string := "wrong email or password".

Definition find_user_by_email (d : DB) (email : string) : option User.t :=
  find (fun u => String.eqb (User.email u) email) (users d).

Definition signup (w : World) (sess : Session) (email password csrf_token : string)
  : World * Session * Response :=
  match verify_csrf sess csrf_token with
  | Raise e => (w, sess, Uncaught e)
  | Ok _ =>
      match find_user_by_email (db w) email with
      | Some _ =>
          let '(w1, sess1) := _ensure_csrf w sess in
          (w1, sess1,
           TemplateResponse
             (signup_html (Some msg_email_taken) (sess_csrf_token sess1)
                          (get_current_user (db w1) sess1)))
      | None =>
          let hash := pwd_hash (entropy w) password in
          let '(d, u) := add_user (db w) email hash in
          (mkWorld d (media w) (stdout w) (S (entropy w)),
           mkSession (Some (User.id u)) (sess_csrf_token sess),
           RedirectResponse "/" 303)
      end
  end.

Definition login (w : World) (sess : Session) (email password csrf_token : string)
  : World * Session * Response :=
  match verify_csrf sess csrf_token with
  | Raise e => (w, sess, Uncaught e)
  | Ok _ =>
      let rejected :=
        let '(w1, sess1) := _ensure_csrf w sess in
        (w1, sess1,
         TemplateResponse
           (login_html (Some msg_bad_login) (sess_csrf_token sess1)
                       (get_current_user (db w1) sess1))) in
      match find_user_by_email (db w) email with
      | None => rejected
      | Some u =>
          if negb (pwd_verify password (User.password_hash u)) then rejected
          else (w, mkSession (Some (User.id u)) (sess_csrf_token sess),
                RedirectResponse "/" 303)
      end
  end.

Definition logout (w : World) (sess : Session) (csrf_token : string)
  : World * Session * Response :=
  match verify_csrf sess csrf_token with
  | Raise e => (w, sess, Uncaught e)
  | Ok _ => (w, empty_session, RedirectResponse "/" 303)
  end.

(* ----------------------------------------------------------------- *)
(** *** Recipes: new, create *)

Definition recipe_new (w : World) (sess : Session) : World * Session * Response :=
  match get_current_user (db w) sess with
  | None => (w, sess, RedirectResponse "/login" 303)
  | Some current_user =>
      let '(w1, sess1) := _ensure_csrf w sess in
      (w1, sess1,
       TemplateResponse (recipe_new_html (sess_csrf_token sess1) current_user))
  end.

(** The loop over [enumerate(ingredients_name)] of [recipe_create]. *)
Fixpoint create_ingredients (d : DB) (rid : Z) (amounts units : list string)
    (idx : Z) (names : list string) : DB :=
  match names with
  | [] => d
  | name :: rest =>
      let name := strip name in
      if negb (truthy name) then create_ingredients d rid amounts units (idx + 1) rest
      else
        let amount := or_None (at_index amounts idx) in
        let unit := or_None (at_index units idx) in
        create_ingredients
          (add_ingredient d rid name (option_map strip amount)
                          (option_map strip unit) idx)
          rid amounts units (idx + 1) rest
  end.

(** One turn of the loop over [range(max_len)] of [recipe_create].  The
    crop tuple is computed and [save_step_image] is called with the upload
    alone. *)
Definition create_step (w : World) (rid : Z) (f : CreateForm.t) (idx : Z) : World :=
  let body :=
    strip (match at_index (CreateForm.steps_body f) idx with
           | Some b => b
           | None => ""
           end) in
  let '(w, img_path) :=
    match at_index (CreateForm.steps_image f) idx with
    | Some up =>
        if truthy (filename up) then
          let crop := _crop_tuple_at idx (CreateForm.steps_crop_x f)
                        (CreateForm.steps_crop_y f) (CreateForm.steps_crop_w f)
                        (CreateForm.steps_crop_h f) in
          save_step_image w (Some up) None None None None
        else (w, None)
    | None => (w, None)
    end in
  if negb (truthy body) && negb (truthy_opt img_path) then w
  else set_db w (add_step (db w) rid body idx img_path).

Fixpoint create_steps (w : World) (rid : Z) (f : CreateForm.t) (idx : Z) (n : nat)
  : World :=
  match n with
  | O => w
  | S n' => create_steps (create_step w rid f idx) rid f (idx + 1) n'
  end.

Definition find_tag (d : DB) (tname : string) : option Tag.t :=
  find (fun t => String.eqb (Tag.name t) tname) (tags d).

Definition has_recipe_tag (d : DB) (rid tid : Z) : bool :=
  existsb (fun rt => (RecipeTag.recipe_id rt =? rid) && (RecipeTag.tag_id rt =? tid))
          (recipe_tags d).

(** The loop over [tags_csv.split(",")], the same in create and edit. *)
Fixpoint attach_tags (d : DB) (rid : Z) (raws : list string) : DB :=
  match raws with
  | [] => d
  | raw :: rest =>
      let tname := strip raw in
      if negb (truthy tname) then attach_tags d rid rest
      else
        let '(d, t) :=
          match find_tag d tname with
          | Some t => (d, t)
          | None => add_tag d tname
          end in
        let d := if has_recipe_tag d rid (Tag.id t) then d
                 else add_recipe_tag d rid (Tag.id t) in
        attach_tags d rid rest
  end.

Definition recipe_create (w : World) (sess : Session) (f : CreateForm.t)
  : World * Session * Response :=
  match get_current_user (db w) sess with
  | None => (w, sess, RedirectResponse "/login" 303)
  | Some current_user =>
      match verify_csrf sess (CreateForm.csrf_token f) with
      | Raise e => (w, sess, Uncaught e)
      | Ok _ =>
          let cx := _to_float_or_none (CreateForm.crop_x f) in
          let cy := _to_float_or_none (CreateForm.crop_y f) in
          let cw := _to_float_or_none (CreateForm.crop_w f) in
          let ch := _to_float_or_none (CreateForm.crop_h f) in
          let '(w, saved_path) :=
            match CreateForm.image f with
            | Some up =>
                if truthy (filename up) then
                  let '(w, p) := save_main_image w up cx cy cw ch in (w, Some p)
                else (w, None)
            | None => (w, None)
            end in
          let '(d, r) :=
            add_recipe (db w) (CreateForm.title f) (CreateForm.description f)
                       saved_path (Some (User.id current_user)) in
          let d := create_ingredients d (Recipe.id r)
                     (CreateForm.ingredients_amount f)
                     (CreateForm.ingredients_unit f) 0
                     (CreateForm.ingredients_name f) in
          let max_len := Nat.max (List.length (CreateForm.steps_body f))
                                 (List.length (CreateForm.steps_image f)) in
          let w := create_steps (set_db w d) (Recipe.id r) f 0 max_len in
          let d := attach_tags (db w) (Recipe.id r)
                     (split_comma (CreateForm.tags_csv f)) in
          let w := set_db w d in
          let ings := select_ingredients d (Recipe.id r) in
          let steps := select_steps d (Recipe.id r) in
          let tags := select_tags d (Recipe.id r) in
          (w, sess,
           TemplateResponse
             (recipe_detail_html r ings steps tags (Some current_user) None))
      end
  end.

(* ----------------------------------------------------------------- *)
(** *** Recipes: detail, edit, delete *)

(** [s.add(r); s.commit()] for a row already in the table. *)
Definition update_recipe (d : DB) (r : Recipe.t) : DB :=
  set_recipes d
    (map (fun r0 => if Recipe.id r0 =? Recipe.id r then r else r0) (recipes d))
    (recipe_seq d).

Definition recipe_detail (w : World) (sess : Session) (rid : Z)
  : World * Session * Response :=
  let '(w, sess) := _ensure_csrf w sess in
  let current_user := get_current_user (db w) sess in
  match get_recipe (db w) rid with
  | Raise e => (w, sess, Uncaught e)
  | Ok None => (w, sess, HTMLResponse "Not found" 404)
  | Ok (Some r) =>
      let r := Recipe.mk (Recipe.id r) (Recipe.title r) (Recipe.description r)
                 (Recipe.main_image r) (Recipe.author_id r)
                 (Recipe.view_count r + 1) in
      let d := update_recipe (db w) r in
      let ings := select_ingredients d rid in
      let steps := select_steps d rid in
      let tags := select_tags d rid in
      let fav_count := _fav_count d rid in
      let is_fav :=
        match current_user with
        | Some u => _is_favorited d (User.id u) rid
        | None => false
        end in
      (set_db w d, sess,
       TemplateResponse
         (recipe_detail_html r ings steps tags current_user
                             (Some (fav_count, is_fav))))
  end.

Definition recipe_edit_form (w : World) (sess : Session) (rid : Z)
  : World * Session * Response :=
  let '(w, sess) := _ensure_csrf w sess in
  match _require_owner (db w) sess rid with
  | Raise e => (w, sess, Uncaught e)
  | Ok (r, user) =>
      let ings := select_ingredients (db w) rid in
      let steps := select_steps (db w) rid in
      let tags := select_tags (db w) rid in
      let tags_csv := join_comma_space (map Tag.name tags) in
      (w, sess,
       TemplateResponse
         (recipe_edit_html r ings steps tags_csv (sess_csrf_token sess) user))
  end.

(** The loop over [enumerate(names)] of [recipe_update]: [unit=None]. *)
Fixpoint update_ingredients (d : DB) (rid : Z) (amounts : list string)
    (idx : Z) (names : list string) : DB :=
  match names with
  | [] => d
  | name :: rest =>
      let name := strip name in
      if negb (truthy name) then update_ingredients d rid amounts (idx + 1) rest
      else
        let amount := or_None (at_index amounts idx) in
        update_ingredients
          (add_ingredient d rid name (option_map strip amount) None idx)
          rid amounts (idx + 1) rest
  end.

(** One turn of the loop over [range(max_len)] of [recipe_update]. *)
Definition update_step (w : World) (rid : Z) (bodies olds : list string)
    (imgs : list UploadFile) (idx : Z) : World :=
  let body :=
    strip (match at_index bodies idx with Some b => b | None => "" end) in
  let keep := or_None (at_index olds idx) in
  let '(w, img_path) :=
    match at_index imgs idx with
    | Some up =>
        if truthy (filename up)
        then save_step_image w (Some up) None None None None
        else (w, None)
    | None => (w, None)
    end in
  let img_path := if negb (truthy_opt img_path) then keep else img_path in
  if negb (truthy body) && negb (truthy_opt img_path) then w
  else set_db w (add_step (db w) rid body idx img_path).

Fixpoint update_steps (w : World) (rid : Z) (bodies olds : list string)
    (imgs : list UploadFile) (idx : Z) (n : nat) : World :=
  match n with
  | O => w
  | S n' =>
      update_steps (update_step w rid bodies olds imgs idx)
                   rid bodies olds imgs (idx + 1) n'
  end.

Definition recipe_update (w : World) (sess : Session) (rid : Z) (f : UpdateForm.t)
  : World * Session * Response :=
  match get_current_user (db w) sess with
  | None => (w, sess, RedirectResponse "/login" 303)
  | Some current_user =>
      match verify_csrf sess (UpdateForm.csrf_token f) with
      | Raise e => (w, sess, Uncaught e)
      | Ok _ =>
          let cx := _to_float_or_none (UpdateForm.crop_x f) in
          let cy := _to_float_or_none (UpdateForm.crop_y f) in
          let cw := _to_float_or_none (UpdateForm.crop_w f) in
          let ch := _to_float_or_none (UpdateForm.crop_h f) in
          match get_recipe (db w) rid with
          | Raise e => (w, sess, Uncaught e)
          | Ok None => (w, sess, HTMLResponse "Not found" 404)
          | Ok (Some r) =>
              if negb (opt_Z_eqb (Recipe.author_id r) (User.id current_user))
              then (w, sess, HTMLResponse "Forbidden" 403)
              else
                let '(w, main_image) :=
                  match UpdateForm.image f with
                  | Some up =>
                      if truthy (filename up) then
                        let '(w, p) := save_main_image w up cx cy cw ch in
                        (w, Some p)
                      else (w, Recipe.main_image r)
                  | None => (w, Recipe.main_image r)
                  end in
                let r := Recipe.mk (Recipe.id r) (UpdateForm.title f)
                           (UpdateForm.description f) main_image
                           (Recipe.author_id r) (Recipe.view_count r) in
                let d := update_recipe (db w) r in
                let d := set_ingredients d
                           (filter (fun i => negb (Ingredient.recipe_id i =? rid))
                                   (ingredients d)) in
                let names := or_empty (UpdateForm.ingredients_name f) in
                let amounts := or_empty (UpdateForm.ingredients_amount f) in
                let d := update_ingredients d rid amounts 0 names in
                let d := set_steps d
                           (filter (fun s => negb (Step.recipe_id s =? rid))
                                   (steps d)) in
                let bodies := or_empty (UpdateForm.steps_body f) in
                let olds := or_empty (UpdateForm.steps_existing_image f) in
                let imgs := or_empty (UpdateForm.steps_image f) in
                let max_len := Nat.max (List.length bodies)
                                 (Nat.max (List.length olds) (List.length imgs)) in
                let w := update_steps (set_db w d) rid bodies olds imgs 0 max_len in
                let d := attach_tags (db w) rid
                           (split_comma (UpdateForm.tags_csv f)) in
                (set_db w d, sess,
                 RedirectResponse ("/recipes/" ++ str_of_int rid) 303)
          end
      end
  end.

Definition recipe_delete (w : World) (sess : Session) (rid : Z) (csrf_token : string)
  : World * Session * Response :=
  match verify_csrf sess csrf_token with
  | Raise e => (w, sess, Uncaught e)
  | Ok _ =>
      match _require_owner (db w) sess rid with
      | Raise e => (w, sess, Uncaught e)
      | Ok (r, user) =>
          let d := db w in
          let d := set_ingredients d
                     (filter (fun i => negb (Ingredient.recipe_id i =? rid))
                             (ingredients d)) in
          let d := set_steps d
                     (filter (fun s => negb (Step.recipe_id s =? rid)) (steps d)) in
          let d := set_recipe_tags d
                     (filter (fun rt => negb (RecipeTag.recipe_id rt =? rid))
                             (recipe_tags d)) in
          let d := set_favorites d
                     (filter (fun fv => negb (Favorite.recipe_id fv =? rid))
                             (favorites d)) in
          let d := set_recipes d
                     (filter (fun r0 => negb (Recipe.id r0 =? Recipe.id r))
                             (recipes d))
                     (recipe_seq d) in
          (set_db w d, sess, RedirectResponse "/" 303)
      end
  end.

(* ----------------------------------------------------------------- *)
(** *** Favorites *)

Definition favorite_recipe (w : World) (sess : Session) (rid : Z) (csrf_token : string)
  : World * Session * Response :=
  match get_current_user (db w) sess with
  | None => (w, sess, RedirectResponse "/login" 303)
  | Some user =>
      match verify_csrf sess csrf_token with
      | Raise e => (w, sess, Uncaught e)
      | Ok _ =>
          (* the SELECT for the existing row binds [rid] *)
          match sqlite_bind rid with
          | Raise e => (w, sess, Uncaught e)
          | Ok _ =>
              let d := if _is_favorited (db w) (User.id user) rid then db w
                       else add_favorite (db w) (User.id user) rid in
              (set_db w d, sess,
               RedirectResponse ("/recipes/" ++ str_of_int rid) 303)
          end
      end
  end.

Definition unfavorite_recipe (w : World) (sess : Session) (rid : Z) (csrf_token : string)
  : World * Session * Response :=
  match get_current_user (db w) sess with
  | None => (w, sess, RedirectResponse "/login" 303)
  | Some user =>
      match verify_csrf sess csrf_token with
      | Raise e => (w, sess, Uncaught e)
      | Ok _ =>
          (* the DELETE binds [rid] *)
          match sqlite_bind rid with
          | Raise e => (w, sess, Uncaught e)
          | Ok _ =>
              let d := set_favorites (db w)
                         (filter (fun fv =>
                                    negb ((Favorite.user_id fv =? User.id user)
                                          && (Favorite.recipe_id fv =? rid)))
                                 (favorites (db w))) in
              (set_db w d, sess,
               RedirectResponse ("/recipes/" ++ str_of_int rid) 303)
          end
      end
  end.

Definition favorites_page (w : World) (sess : Session) (order : string)
  : World * Session * Response :=
  let '(w, sess) := _ensure_csrf w sess in
  match _require_login (db w) sess with
  | Raise e => (w, sess, Uncaught e)
  | Ok user =>
      let fav_rids :=
        map Favorite.recipe_id
            (filter (fun fv => Favorite.user_id fv =? User.id user)
                    (favorites (db w))) in
      let rows :=
        filter (fun r => existsb (Z.eqb (Recipe.id r)) fav_rids)
               (recipes (db w)) in
      let recipes :=
        if String.eqb order "old" then order_by Recipe.id rows
        else if String.eqb order "views" then order_by_desc Recipe.view_count rows
        else order_by_desc Recipe.id rows in
      (w, sess, TemplateResponse (favorites_html recipes user order))
  end.

End Handlers.

(* ================================================================= *)
(** ** A reference platform, to run the handlers *)

(** Images are a width and a height; an image file is four bytes, the two
    dimensions in big-endian.  [float()] reads decimal integers, ["nan"]
    and ["inf"].  Cropping to a reversed box raises, as Pillow's [crop]
    does. *)
Module Reference.

Definition byte_val (b : Byte.byte) : Z := Z.of_N (Byte.to_N b).

Definition byte_of (n : Z) : Byte.byte :=
  match Byte.of_N (Z.to_N (n mod 256)) with
  | Some b => b
  | None => Byte.x00
  end.

Definition ref_open (data : bytes) : option (Z * Z) :=
  match data with
  | [a; b; c; d] =>
      let w := 256 * byte_val a + byte_val b in
      let h := 256 * byte_val c + byte_val d in
      if (0 <? w) && (0 <? h) then Some (w, h) else None
  | _ => None
  end.

Definition ref_save (im : Z * Z) : option bytes :=
  let '(w, h) := im in
  Some [byte_of (w / 256); byte_of w; byte_of (h / 256); byte_of h].

Definition ref_thumbnail (im : Z * Z) (size : Z * Z) : option (Z * Z) :=
  let '(w, h) := im in
  let '(mw, mh) := size in
  if (w <=? mw) && (h <=? mh) then Some im
  else if h * mw <=? w * mh then Some (mw, Z.max 1 (h * mw / w))
  else Some (Z.max 1 (w * mh / h), mh).

Definition ref_crop (im : Z * Z) (box : Z * Z * Z * Z) : option (Z * Z) :=
  let '(x0, y0, x1, y1) := box in
  if (x1 <? x0) || (y1 <? y0) then None else Some (x1 - x0, y1 - y0).

Definition ref_resize (im : Z * Z) (size : Z * Z) : option (Z * Z) :=
  let '(w, h) := im in
  let '(tw, th) := size in
  if (0 <? w) && (0 <? h) && (0 <? tw) && (0 <? th) then Some size else None.

Fixpoint digits_value (s : string) (acc : Z) : option Z :=
  match s with
  | EmptyString => Some acc
  | String c s' =>
      let n := Z.of_N (N_of_ascii c) in
      if (48 <=? n) && (n <=? 57) then digits_value s' (10 * acc + (n - 48))
      else None
  end.

Definition ref_float (s : string) : option pyfloat :=
  if String.eqb s "nan" then Some PNaN
  else if String.eqb s "inf" then Some (PInf false)
  else match s with
       | EmptyString => None
       | String "-" EmptyString => None
       | String "-" s' =>
           option_map (fun z => PFinite (Qmake (- z) 1)) (digits_value s' 0)
       | _ => option_map (fun z => PFinite (Qmake z 1)) (digits_value s 0)
       end.

Definition hex_digit (n : nat) : string :=
  String.substring (n mod 16) 1 "0123456789abcdef".

Definition ref_uuid (n : nat) : string :=
  "0000000000000000000000000000000" ++ hex_digit n.

#[export] Instance platform : Platform := {|
  py_float := ref_float;
  uuid4_hex := ref_uuid;
  token_urlsafe := fun n => "token-" ++ hex_digit n;
  pwd_hash := fun _ pw => "$2b$" ++ pw;
  pwd_verify := fun pw h => String.eqb h ("$2b$" ++ pw);
  image := Z * Z;
  im_width := fst;
  im_height := snd;
  Image_open := ref_open;
  exif_transpose := fun im => Some im;
  thumbnail := ref_thumbnail;
  crop := ref_crop;
  resize := ref_resize;
  save_webp := ref_save;
|}.

(** A 100x80 picture, and bytes that are no picture. *)
Definition picture : bytes := [Byte.x00; Byte.x64; Byte.x00; Byte.x50].
Definition garbage : bytes := [Byte.x47; Byte.x49; Byte.x46].

(** A database with one user, logged in with a session token. *)
Definition alice : User.t := User.mk 1 "alice@example.com" "$2b$secret".
Definition db1 : DB := mkDB [alice] [] 0 [] [] [] [] [].
Definition world1 : World := mkWorld db1 [] [] 0.
Definition session1 : Session := mkSession (Some 1) (Some "token-0").

Definition blank_form : CreateForm.t :=
  CreateForm.mk "Omelette" "" None [] [] [] [] [] None None None None ""
                None None None None "token-0".

End Reference.

(* ================================================================= *)
(** ** The state-mutating routes, as one request type *)

Inductive Mutation :=
| POST_signup (email password csrf_token : string)
| POST_login (email password csrf_token : string)
| POST_logout (csrf_token : string)
| POST_recipes (f : CreateForm.t)
| POST_recipe_edit (rid : Z) (f : UpdateForm.t)
| POST_recipe_delete (rid : Z) (csrf_token : string)
| POST_favorite (rid : Z) (csrf_token : string)
| POST_unfavorite (rid : Z) (csrf_token : string).

Definition csrf_token_of (m : Mutation) : string :=
  match m with
  | POST_signup _ _ t | POST_login _ _ t | POST_logout t => t
  | POST_recipes f => CreateForm.csrf_token f
  | POST_recipe_edit _ f => UpdateForm.csrf_token f
  | POST_recipe_delete _ t | POST_favorite _ t | POST_unfavorite _ t => t
  end.

(** The routes whose handler looks for the current user before it verifies
    the token. *)
Definition user_checked_first (m : Mutation) : bool :=
  match m with
  | POST_recipes _ | POST_recipe_edit _ _
  | POST_favorite _ _ | POST_unfavorite _ _ => true
  | _ => false
  end.

Definition dispatch {P : Platform} (w : World) (sess : Session) (m : Mutation)
  : World * Session * Response :=
  match m with
  | POST_signup e p t => signup w sess e p t
  | POST_login e p t => login w sess e p t
  | POST_logout t => logout w sess t
  | POST_recipes f => recipe_create w sess f
  | POST_recipe_edit rid f => recipe_update w sess rid f
  | POST_recipe_delete rid t => recipe_delete w sess rid t
  | POST_favorite rid t => favorite_recipe w sess rid t
  | POST_unfavorite rid t => unfavorite_recipe w sess rid t
  end.

Definition is_None {A} (o : option A) : bool :=
  match o with None => true | Some _ => false end.

(* ================================================================= *)
(** ** Notions the properties are stated with *)

(** The positions, counted from [idx], of the entries that are kept. *)
Fixpoint kept_positions (idx : Z) (keep : list bool) : list Z :=
  match keep with
  | [] => []
  | b :: rest =>
      if b then idx :: kept_positions (idx + 1) rest
      else kept_positions (idx + 1) rest
  end.

(** [0, 1, ..., n-1] counted from [idx]. *)
Fixpoint count_from (idx : Z) (n : nat) : list Z :=
  match n with
  | O => []
  | S n' => idx :: count_from (idx + 1) n'
  end.

(** No row refers to a recipe id above the AUTOINCREMENT counter. *)
Definition db_wf (d : DB) : Prop :=
  Forall (fun r => Recipe.id r <= recipe_seq d) (recipes d) /\
  Forall (fun i => Ingredient.recipe_id i <= recipe_seq d) (ingredients d) /\
  Forall (fun s => Step.recipe_id s <= recipe_seq d) (steps d).

(** A rectangle with sides of at least one pixel inside a [width] by
    [height] image. *)
Definition rect_inside (width height : Z) (rect : Z * Z * Z * Z) : Prop :=
  let '(x, y, w, h) := rect in
  0 <= x /\ 0 <= y /\ 1 <= w /\ 1 <= h /\ x + w <= width /\ y + h <= height.

(** The create form with other main-image crop fields. *)
Definition with_crop (f : CreateForm.t) (x y w h : option string) : CreateForm.t :=
  CreateForm.mk (CreateForm.title f) (CreateForm.description f)
    (CreateForm.image f) (CreateForm.ingredients_name f)
    (CreateForm.ingredients_amount f) (CreateForm.ingredients_unit f)
    (CreateForm.steps_body f) (CreateForm.steps_image f)
    (CreateForm.steps_crop_x f) (CreateForm.steps_crop_y f)
    (CreateForm.steps_crop_w f) (CreateForm.steps_crop_h f)
    (CreateForm.tags_csv f) x y w h (CreateForm.csrf_token f).

(** The create form with other step crop fields. *)
Definition with_steps_crop (f : CreateForm.t) (xs ys ws hs : option (list string))
  : CreateForm.t :=
  CreateForm.mk (CreateForm.title f) (CreateForm.description f)
    (CreateForm.image f) (CreateForm.ingredients_name f)
    (CreateForm.ingredients_amount f) (CreateForm.ingredients_unit f)
    (CreateForm.steps_body f) (CreateForm.steps_image f)
    xs ys ws hs
    (CreateForm.tags_csv f) (CreateForm.crop_x f) (CreateForm.crop_y f)
    (CreateForm.crop_w f) (CreateForm.crop_h f) (CreateForm.csrf_token f).

(** The edit form with other main-image crop fields. *)
Definition update_with_crop (f : UpdateForm.t) (x y w h : option string)
  : UpdateForm.t :=
  UpdateForm.mk (UpdateForm.title f) (UpdateForm.csrf_token f)
    (UpdateForm.description f) (UpdateForm.image f)
    (UpdateForm.ingredients_name f) (UpdateForm.ingredients_amount f)
    (UpdateForm.steps_body f) (UpdateForm.steps_existing_image f)
    (UpdateForm.steps_image f) (UpdateForm.tags_csv f) x y w h.

(** Two databases that differ at most in one table. *)
Definition same_but_ingredients (d d' : DB) : Prop :=
  users d' = users d /\ recipes d' = recipes d /\ recipe_seq d' = recipe_seq d
  /\ steps d' = steps d /\ tags d' = tags d
  /\ recipe_tags d' = recipe_tags d /\ favorites d' = favorites d.

Definition same_but_steps (d d' : DB) : Prop :=
  users d' = users d /\ recipes d' = recipes d /\ recipe_seq d' = recipe_seq d
  /\ ingredients d' = ingredients d /\ tags d' = tags d
  /\ recipe_tags d' = recipe_tags d /\ favorites d' = favorites d.

Definition same_but_tags (d d' : DB) : Prop :=
  users d' = users d /\ recipes d' = recipes d /\ recipe_seq d' = recipe_seq d
  /\ ingredients d' = ingredients d /\ steps d' = steps d
  /\ favorites d' = favorites d.

(** The world and the path after the main-image block of [recipe_create]. *)
Definition create_main_image {P : Platform} (w : World) (f : CreateForm.t)
  : World * option string :=
  match CreateForm.image f with
  | Some up =>
      if truthy (filename up) then
        let '(w, p) :=
          save_main_image w up (_to_float_or_none (CreateForm.crop_x f))
            (_to_float_or_none (CreateForm.crop_y f))
            (_to_float_or_none (CreateForm.crop_w f))
            (_to_float_or_none (CreateForm.crop_h f)) in
        (w, Some p)
      else (w, None)
  | None => (w, None)
  end.

(** The recipe row [recipe_create] inserts, given the stored path. *)
Definition created_recipe (d : DB) (f : CreateForm.t) (saved_path : option string)
    (author : User.t) : Recipe.t :=
  snd (add_recipe d (CreateForm.title f) (CreateForm.description f) saved_path
                  (Some (User.id author))).

(** A step of the create form is kept when its body is not blank or a file
    was uploaded for it. *)
Definition step_kept (f : CreateForm.t) (idx : Z) : bool :=
  truthy (strip (match at_index (CreateForm.steps_body f) idx with
                 | Some b => b
                 | None => ""
                 end))
  || match at_index (CreateForm.steps_image f) idx with
     | Some up => truthy (filename up)
     | None => false
     end.

(** The body stored for the step at [idx]. *)
Definition step_body_at (f : CreateForm.t) (idx : Z) : string :=
  strip (match at_index (CreateForm.steps_body f) idx with
         | Some b => b
         | None => ""
         end).

(** The world and the path after the main-image block of [recipe_update],
    for the stored row [r0]. *)
Definition update_main_image {P : Platform} (w : World) (f : UpdateForm.t)
    (r0 : Recipe.t) : World * option string :=
  match UpdateForm.image f with
  | Some up =>
      if truthy (filename up) then
        let '(w, p) :=
          save_main_image w up (_to_float_or_none (UpdateForm.crop_x f))
            (_to_float_or_none (UpdateForm.crop_y f))
            (_to_float_or_none (UpdateForm.crop_w f))
            (_to_float_or_none (UpdateForm.crop_h f)) in
        (w, Some p)
      else (w, Recipe.main_image r0)
  | None => (w, Recipe.main_image r0)
  end.

(** The recipe row [recipe_update] writes back. *)
Definition updated_recipe (f : UpdateForm.t) (r0 : Recipe.t)
    (main_image : option string) : Recipe.t :=
  Recipe.mk (Recipe.id r0) (UpdateForm.title f) (UpdateForm.description f)
            main_image (Recipe.author_id r0) (Recipe.view_count r0).

(** The rows of a recipe carry no unit. *)
Definition no_unit_for (rid : Z) (i : Ingredient.t) : Prop :=
  Ingredient.recipe_id i = rid -> Ingredient.unit i = None.

(** The lists a rendered detail page shows. *)
Definition page_ingredients (r : Response) : list Ingredient.t :=
  match r with
  | TemplateResponse (recipe_detail_html _ ings _ _ _ _) => ings
  | _ => []
  end.

Definition page_steps (r : Response) : list Step.t :=
  match r with
  | TemplateResponse (recipe_detail_html _ _ steps _ _ _) => steps
  | _ => []
  end.

Definition page_recipe (r : Response) : option Recipe.t :=
  match r with
  | TemplateResponse (recipe_detail_html recipe _ _ _ _ _) => Some recipe
  | _ => None
  end.

(* ================================================================= *)
(** ** Sample requests on the reference platform *)

Module Sample.
Import Reference.

Definition photo : UploadFile := mkUpload "photo.png" picture.
Definition broken : UploadFile := mkUpload "photo.png" garbage.

(** A 3200x1600 picture, which the pipeline downscales to 1600x800. *)
Definition big_photo : UploadFile :=
  mkUpload "big.png" [Byte.x0c; Byte.x80; Byte.x06; Byte.x40].

(** A create form with a main image. *)
Definition with_photo (up : UploadFile) : CreateForm.t :=
  CreateForm.mk "Omelette" "" (Some up) [] [] [] [] [] None None None None ""
                None None None None "token-0".

(** A create form whose first ingredient row was left blank. *)
Definition blank_first : CreateForm.t :=
  CreateForm.mk "Omelette" "" None ["  "; "egg"] [""; "2"] [""; "pcs"]
                ["beat eggs"] [] None None None None "breakfast,quick"
                None None None None "token-0".

(** The spec's scenario, with a second ingredient and a second step. *)
Definition omelette : CreateForm.t :=
  CreateForm.mk "Omelette" "" None ["egg"; "butter"] ["2"; "10"] ["pcs"; "g"]
                ["beat eggs"; "fry"] [] None None None None "breakfast,quick"
                None None None None "token-0".

(** A create form with one step picture and a full crop rectangle for it. *)
Definition step_with_crop : CreateForm.t :=
  CreateForm.mk "Omelette" "" None [] [] [] ["beat eggs"] [photo]
                (Some ["0"]) (Some ["0"]) (Some ["50"]) (Some ["50"]) ""
                None None None None "token-0".

(** A database where alice owns recipe 1, with an ingredient that has a
    unit. *)
Definition db2 : DB :=
  mkDB [alice] [Recipe.mk 1 "Omelette" "" None (Some 1) 0] 1
       [Ingredient.mk 1 1 "egg" (Some "2") (Some "pcs") 0] [] [] [] [].
Definition world2 : World := mkWorld db2 [] [] 0.

Definition edit_form (image : option UploadFile) : UpdateForm.t :=
  UpdateForm.mk "Omelette" "token-0" "" image (Some ["egg"; "salt"])
                (Some ["3"; "1"]) (Some ["beat eggs"]) None None ""
                None None None None.

End Sample.

(* ================================================================= *)
(** ** The other routes of [app/main.py] and the maintenance tools *)

From Stdlib Require Import Sorting.Permutation.

(** What the templates of the remaining routes are rendered with. *)
Inductive ListingPage :=
| index_html (recipes : list Recipe.t) (q tag order : string)
    (current_user : option User.t)
| account_html (current_user : option User.t) (csrf_token : option string)
| offline_html (current_user : option User.t).

(** The ORDER BY of the two listings. *)
Definition order_recipes (order : string) (rows : list Recipe.t) : list Recipe.t :=
  if String.eqb order "old" then order_by Recipe.id rows
  else if String.eqb order "views" then order_by_desc Recipe.view_count rows
  else order_by_desc Recipe.id rows.

(** [select(RecipeTag.recipe_id).where(RecipeTag.tag_id == t.id)] *)
Definition recipe_ids_of_tag (d : DB) (tid : Z) : list Z :=
  map RecipeTag.recipe_id
      (filter (fun rt => RecipeTag.tag_id rt =? tid) (recipe_tags d)).

Section Listing.

Context {P : Platform}.

(** [column.contains(q)], as the database evaluates the LIKE it stands
    for: the column value first, the text looked for second. *)
Variable contains : string -> string -> bool.

(** The WHERE clause [q] adds to the listing. *)
Definition matches_q (q : option string) (r : Recipe.t) : bool :=
  match q with
  | Some s =>
      if truthy s
      then contains (Recipe.title r) s || contains (Recipe.description r) s
      else true
  | None => true
  end.

Definition index (w : World) (sess : Session) (q tag : option string)
    (order : string) : World * Session * ListingPage :=
  let '(w, sess) := _ensure_csrf w sess in
  let current_user := get_current_user (db w) sess in
  let q_shown := match q with Some s => s | None => "" end in
  let listing (sel : Recipe.t -> bool) (tag_shown : string) :=
    (w, sess,
     index_html (order_recipes order (filter sel (recipes (db w))))
                q_shown tag_shown order current_user) in
  match tag with
  | Some tg =>
      if truthy tg then
        match find_tag (db w) (strip tg) with
        | None => (w, sess, index_html [] q_shown tg order current_user)
        | Some t =>
            match recipe_ids_of_tag (db w) (Tag.id t) with
            | [] => (w, sess, index_html [] q_shown tg order current_user)
            | rid_list =>
                listing (fun r => matches_q q r
                                  && existsb (Z.eqb (Recipe.id r)) rid_list) tg
            end
        end
      else listing (matches_q q) ""
  | None => listing (matches_q q) ""
  end.

Definition signup_form (w : World) (sess : Session) : World * Session * Response :=
  let '(w, sess) := _ensure_csrf w sess in
  (w, sess,
   TemplateResponse
     (signup_html None (sess_csrf_token sess) (get_current_user (db w) sess))).

Definition login_form (w : World) (sess : Session) : World * Session * Response :=
  let '(w, sess) := _ensure_csrf w sess in
  (w, sess,
   TemplateResponse
     (login_html None (sess_csrf_token sess) (get_current_user (db w) sess))).

Definition account_page (w : World) (sess : Session)
  : World * Session * ListingPage :=
  let '(w, sess) := _ensure_csrf w sess in
  (w, sess, account_html (get_current_user (db w) sess) (sess_csrf_token sess)).

Definition offline_page (w : World) (sess : Session)
  : World * Session * ListingPage :=
  (w, sess, offline_html (get_current_user (db w) sess)).

(** [_parse_crop]: blank or missing components first, then the four
    conversions inside one [try]. *)
Definition _parse_crop (x y w h : option string) : option (Z * Z * Z * Z) :=
  let blank (v : option string) :=
    match v with
    | None => true
    | Some s => negb (truthy (strip s))
    end in
  if blank x || blank y || blank w || blank h then None
  else
    let to_int (v : option string) :=
      match v with
      | Some s => f <- py_float s ;; py_int f
      | None => None
      end in
    xi <- to_int x ;;
    yi <- to_int y ;;
    wi <- to_int w ;;
    hi <- to_int h ;;
    Some (Z.max 0 xi, Z.max 0 yi, Z.max 1 wi, Z.max 1 hi).

(** [recipe_detail] called [n] times in a row with the same session. *)
Fixpoint view_times (n : nat) (w : World) (sess : Session) (rid : Z)
  : World * Session :=
  match n with
  | O => (w, sess)
  | S n' =>
      let '(w1, sess1, _) := recipe_detail w sess rid in
      view_times n' w1 sess1 rid
  end.

End Listing.

(* ----------------------------------------------------------------- *)
(** *** [app/tools/fix_plus_in_paths.py] *)

(** [s.endswith("+")] *)
Fixpoint endswith_plus (s : string) : bool :=
  match s with
  | EmptyString => false
  | String c EmptyString => Ascii.eqb c "+"%char
  | String _ s' => endswith_plus s'
  end.

(** [s[:-1]] *)
Fixpoint drop_last (s : string) : string :=
  match s with
  | EmptyString => EmptyString
  | String _ EmptyString => EmptyString
  | String c s' => String c (drop_last s')
  end.

(** The body of the loop, for one row: the row written back and whether it
    was fixed. *)
Definition fix_row (r : Recipe.t) : Recipe.t * bool :=
  match Recipe.main_image r with
  | Some p =>
      if endswith_plus p
      then (Recipe.mk (Recipe.id r) (Recipe.title r) (Recipe.description r)
                      (Some (drop_last p)) (Recipe.author_id r)
                      (Recipe.view_count r), true)
      else (r, false)
  | None => (r, false)
  end.

(** The script: every recipe row with a main image is visited, the rows
    whose path ends in "+" are written back without it, and the number of
    rows fixed is printed. *)
Definition fix_plus_in_paths (w : World) : World :=
  let rows := map fix_row (recipes (db w)) in
  let fixed := len (filter snd rows) in
  print (set_db w (set_recipes (db w) (map fst rows) (recipe_seq (db w))))
        ("fixed: " ++ str_of_int fixed).

(* ----------------------------------------------------------------- *)
(** *** Column migrations: [_migrate_sqlite] and [add_column.py] *)

(** A table's columns, as [PRAGMA table_info] lists them: the name and the
    declaration it was added with. *)
Definition columns := list (string * string).

Definition has_column (cols : columns) (name : string) : bool :=
  existsb (fun c => String.eqb (fst c) name) cols.

(** [ALTER TABLE ... ADD COLUMN name decl] *)
Definition add_column (cols : columns) (name decl : string) : columns :=
  (cols ++ [(name, decl)])%list.

(** [_migrate_sqlite], on the columns of [recipe]. *)
Definition _migrate_sqlite (recipe_cols : columns) : columns :=
  let cols := if has_column recipe_cols "author_id" then recipe_cols
              else add_column recipe_cols "author_id" "INTEGER" in
  if has_column recipe_cols "view_count" then cols
  else add_column cols "view_count" "INTEGER DEFAULT 0".

(** [add_column.py], on the columns of [step]: the columns and the line
    printed (the two lines are Japanese in the source and stand here in
    English). *)
Definition add_image_path_column (step_cols : columns) : columns * string :=
  if negb (has_column step_cols "image_path")
  then (add_column step_cols "image_path" "TEXT", "added step.image_path")
  else (step_cols, "image_path column already there").

(* ----------------------------------------------------------------- *)
(** *** Notions the further properties are stated with *)

(** Rows in ascending, or descending, order of a key. *)
Definition ascending {A} (key : A -> Z) (l : list A) : Prop :=
  StronglySorted (fun a b => key a <= key b) l.

Definition descending {A} (key : A -> Z) (l : list A) : Prop :=
  StronglySorted (fun a b => key b <= key a) l.

(** The recipes a tag name selects: those linked to the first tag row of
    that name. *)
Definition tagged_with (d : DB) (name : string) (r : Recipe.t) : Prop :=
  exists t, find_tag d name = Some t
            /\ In (RecipeTag.mk (Recipe.id r) (Tag.id t)) (recipe_tags d).

(** A form list that holds a non-empty text at [idx]. *)
Definition has_entry (arr : option (list string)) (idx : Z) : Prop :=
  exists l s, arr = Some l /\ at_index l idx = Some s /\ s <> "".

(** [r'] is [r] with one trailing "+" taken off its main image path, or [r]
    itself when the path has none. *)
Definition plus_removed (r r' : Recipe.t) : Prop :=
  Recipe.id r' = Recipe.id r /\ Recipe.title r' = Recipe.title r
  /\ Recipe.description r' = Recipe.description r
  /\ Recipe.author_id r' = Recipe.author_id r
  /\ Recipe.view_count r' = Recipe.view_count r
  /\ match Recipe.main_image r with
     | None => Recipe.main_image r' = None
     | Some p =>
         (exists p', p = p' ++ "+" /\ Recipe.main_image r' = Some p')
         \/ (endswith_plus p = false /\ Recipe.main_image r' = Some p)
     end.

(** Whether the main image path of a row ends in "+". *)
Definition has_plus (r : Recipe.t) : bool :=
  match Recipe.main_image r with
  | Some p => endswith_plus p
  | None => false
  end.

(** Whether the edit form uploads a file for the step at [idx]. *)
Definition uploaded_at (imgs : list UploadFile) (idx : Z) : bool :=
  match at_index imgs idx with
  | Some up => truthy (filename up)
  | None => false
  end.

(** The body stored by an edit for the step at [idx]. *)
Definition edit_body_at (bodies : list string) (idx : Z) : string :=
  strip (match at_index bodies idx with Some b => b | None => "" end).

(** A step of the edit form is kept when its body is not blank, a file was
    uploaded for it, or it names an existing image. *)
Definition edit_step_kept (bodies olds : list string) (imgs : list UploadFile)
    (idx : Z) : bool :=
  truthy (edit_body_at bodies idx) || uploaded_at imgs idx
  || truthy_opt (or_None (at_index olds idx)).

(** The [tags_csv] an edit form is rendered with. *)
Definition page_tags_csv (r : Response) : string :=
  match r with
  | TemplateResponse (recipe_edit_html _ _ _ tags_csv _ _) => tags_csv
  | _ => ""
  end.

Fixpoint has_comma (s : string) : bool :=
  match s with
  | EmptyString => false
  | String c s' => Ascii.eqb c ","%char || has_comma s'
  end.

(** A tag name as the tag loop stores it: not empty, without a comma, with
    no white space around it. *)
Definition tag_name_ok (n : string) : bool :=
  truthy n && negb (has_comma n) && String.eqb (strip n) n.

(** No two Tag rows share a name, and every name is one the tag loop can
    have stored. *)
Definition tags_wf (d : DB) : Prop :=
  NoDup (map Tag.name (tags d))
  /\ Forall (fun t => tag_name_ok (Tag.name t) = true) (tags d).

(** The tags a rendered detail page shows. *)
Definition page_tags (r : Response) : list Tag.t :=
  match r with
  | TemplateResponse (recipe_detail_html _ _ _ tags _ _) => tags
  | _ => []
  end.

(** The tag names a [tags_csv] field submits: the pieces between commas,
    stripped, without the empty ones. *)
Definition submitted_tag_names (tags_csv : string) : list string :=
  filter truthy (map strip (split_comma tags_csv)).

(** The requests that write recipe data. *)
Definition writes_recipe_data (m : Mutation) : bool :=
  match m with
  | POST_recipes _ | POST_recipe_edit _ _ | POST_recipe_delete _ _
  | POST_favorite _ _ | POST_unfavorite _ _ => true
  | _ => false
  end.

(** More sample data on the reference platform. *)
Module Sample2.
Import Reference.

(** Recipe 1 of alice with a view count of 5, recipe 2 of nobody, tagged
    and favorited. *)
Definition bob : User.t := User.mk 2 "bob@example.com" "$2b$hunter2".
Definition db3 : DB :=
  mkDB [alice; bob]
       [Recipe.mk 1 "Omelette" "eggs" (Some "/media/a.webp+") (Some 1) 5;
        Recipe.mk 2 "Toast" "bread" None (Some 2) 9]
       2
       [Ingredient.mk 1 1 "egg" (Some "2") (Some "pcs") 0;
        Ingredient.mk 2 2 "bread" None None 0]
       [Step.mk 1 1 "beat eggs" 0 None; Step.mk 2 2 "toast it" 0 None]
       [Tag.mk 1 "breakfast"]
       [RecipeTag.mk 1 1; RecipeTag.mk 2 1]
       [Favorite.mk 1 2].
Definition world3 : World := mkWorld db3 [] [] 0.
Definition session_bob : Session := mkSession (Some 2) (Some "token-0").

(** A session with a token and no user. *)
Definition session_anon : Session := mkSession None (Some "token-1").

(** An edit form whose first ingredient row is blank and whose second step
    has no body but keeps its picture. *)
Definition edit_keep (tags_csv : string) : UpdateForm.t :=
  UpdateForm.mk "Omelette" "token-0" "" None (Some ["  "; "egg"])
                (Some [""; "3"]) (Some ["beat eggs"; ""])
                (Some [""; "/media/old.webp"]) None tags_csv
                None None None None.

(** A LIKE that finds a text only in itself. *)
Definition same_text (column needle : string) : bool := String.eqb column needle.

End Sample2.


(* ================================================================= *)
(** ** Properties *)

Unset Implicit Arguments.

Section Properties.

Context {P : Platform}.

(* ----------------------------------------------------------------- *)
(** *** The token check *)

Lemma truthy_false_iff (s : string) : truthy s = false <-> s = "".
Proof. destruct s; simpl; split; congruence. Qed.

Lemma truthy_true_iff (s : string) : truthy s = true <-> s <> "".
Proof. destruct s; simpl; split; congruence. Qed.

Lemma verify_csrf_accepts (sess : Session) (tok : string) :
  sess_csrf_token sess = Some tok -> tok <> "" -> is_ascii tok = true ->
  verify_csrf sess tok = Ok tt.
Proof.
  intros Hs Hne Ha. unfold verify_csrf, compare_digest. rewrite Hs.
  apply truthy_true_iff in Hne. rewrite Hne, Ha, String.eqb_refl. reflexivity.
Qed.

Lemma verify_csrf_rejects (sess : Session) (tok : string) :
  tok = "" \/ sess_csrf_token sess <> Some tok ->
  exists e, verify_csrf sess tok = Raise e /\
    (e = HTTPException 400 "Invalid CSRF token"
     \/ (e = TypeError /\ tok <> "" /\
         exists st, sess_csrf_token sess = Some st /\ st <> ""
                    /\ is_ascii st && is_ascii tok = false)).
Proof.
  intros H. unfold verify_csrf, compare_digest.
  destruct (sess_csrf_token sess) as [st|] eqn:Hs; [|eauto].
  destruct (truthy st) eqn:Hst; simpl; [|eauto].
  destruct (truthy tok) eqn:Htok; simpl; [|eauto].
  destruct (is_ascii st && is_ascii tok) eqn:Hasc.
  - destruct (String.eqb st tok) eqn:Heq; [|eauto].
    apply String.eqb_eq in Heq. subst st.
    destruct H as [H|H]; [|congruence].
    subst tok. discriminate.
  - exists TypeError. split; [reflexivity|]. right.
    repeat split; try (apply truthy_true_iff; assumption).
    exists st. repeat split; try assumption. apply truthy_true_iff; assumption.
Qed.

Lemma verify_csrf_Ok_inv (sess : Session) (tok : string) (u : unit) :
  verify_csrf sess tok = Ok u ->
  sess_csrf_token sess = Some tok /\ tok <> "" /\ is_ascii tok = true.
Proof.
  unfold verify_csrf, compare_digest.
  destruct (sess_csrf_token sess) as [st|]; [|discriminate].
  destruct (truthy st) eqn:Hst; simpl; [|discriminate].
  destruct (truthy tok) eqn:Htok; simpl; [|discriminate].
  destruct (is_ascii st && is_ascii tok) eqn:Hasc; [|discriminate].
  destruct (String.eqb st tok) eqn:Heq; [|discriminate].
  apply String.eqb_eq in Heq. subst st. intros _.
  apply andb_prop in Hasc. destruct Hasc as [_ Ha].
  repeat split; try assumption. apply truthy_true_iff; assumption.
Qed.

Lemma sqlite_bind_in_range (n : Z) : in_int64 n = true -> sqlite_bind n = Ok tt.
Proof. unfold sqlite_bind. intros H. rewrite H. reflexivity. Qed.

Lemma get_recipe_in_range (d : DB) (rid : Z) :
  in_int64 rid = true ->
  get_recipe d rid = Ok (find (fun r => Recipe.id r =? rid) (recipes d)).
Proof. unfold get_recipe, sqlite_bind. intros H. rewrite H. reflexivity. Qed.

Lemma get_recipe_Ok_inv (d : DB) (rid : Z) (o : option Recipe.t) :
  get_recipe d rid = Ok o ->
  in_int64 rid = true /\ find (fun r => Recipe.id r =? rid) (recipes d) = o.
Proof.
  unfold get_recipe, sqlite_bind. destruct (in_int64 rid); [|discriminate].
  intros H. injection H as H. auto.
Qed.

(** For tokens of ASCII text, as [secrets.token_urlsafe] draws them and as
    a form carries them, a token that is empty or is not the session's is
    refused with HTTP 400. *)
Lemma verify_csrf_rejects_ascii (sess : Session) (tok : string) :
  tok = "" \/ sess_csrf_token sess <> Some tok ->
  is_ascii tok = true ->
  (forall st, sess_csrf_token sess = Some st -> is_ascii st = true) ->
  verify_csrf sess tok = Raise (HTTPException 400 "Invalid CSRF token").
Proof.
  intros H Ha Hs.
  destruct (verify_csrf_rejects sess tok H) as [e [He [Hk|[_ [_ [st [Hst [_ Hasc]]]]]]]].
  - rewrite He, Hk. reflexivity.
  - rewrite (Hs st Hst), Ha in Hasc. discriminate.
Qed.

(** C2 (as amended).  A mutating request whose token, ASCII text like the
    session's, is empty or is not the session's token changes nothing: the
    world (database, media, output) and the session come back as they
    were.  Signup, login, logout and recipe delete raise HTTP 400; recipe
    create, edit, favorite and unfavorite raise HTTP 400 for a logged-in
    user and redirect an anonymous one to /login with 303. *)
Theorem csrf_rejection_changes_nothing :
  forall (w : World) (sess : Session) (m : Mutation),
    csrf_token_of m = "" \/ sess_csrf_token sess <> Some (csrf_token_of m) ->
    is_ascii (csrf_token_of m) = true ->
    (forall st, sess_csrf_token sess = Some st -> is_ascii st = true) ->
    verify_csrf sess (csrf_token_of m)
      = Raise (HTTPException 400 "Invalid CSRF token")
    /\ dispatch w sess m =
        (w, sess,
         if user_checked_first m && is_None (get_current_user (db w) sess)
         then RedirectResponse "/login" 303
         else Uncaught (HTTPException 400 "Invalid CSRF token"))
    /\ status_of (snd (dispatch w sess m))
       = (if user_checked_first m && is_None (get_current_user (db w) sess)
          then 303 else 400).
Proof.
  intros w sess m H Ha Hs.
  pose proof (verify_csrf_rejects_ascii sess _ H Ha Hs) as He.
  split; [exact He|].
  assert (Hd : dispatch w sess m =
               (w, sess,
                if user_checked_first m && is_None (get_current_user (db w) sess)
                then RedirectResponse "/login" 303
                else Uncaught (HTTPException 400 "Invalid CSRF token"))).
  { destruct m; simpl in *;
      unfold signup, login, logout, recipe_create, recipe_update, recipe_delete,
             favorite_recipe, unfavorite_recipe;
      try (rewrite He; reflexivity);
      destruct (get_current_user (db w) sess); simpl; rewrite ?He; reflexivity. }
  split; [exact Hd|]. rewrite Hd. simpl snd.
  destruct (user_checked_first m && is_None (get_current_user (db w) sess));
    reflexivity.
Qed.

(* ----------------------------------------------------------------- *)
(** *** Login guard *)

Lemma ensure_csrf_db (w : World) (sess : Session) :
  db (fst (_ensure_csrf w sess)) = db w
  /\ sess_user_id (snd (_ensure_csrf w sess)) = sess_user_id sess.
Proof.
  unfold _ensure_csrf. destruct (truthy_opt (sess_csrf_token sess)); simpl; auto.
Qed.

(** C8 (what the code does).  With no user identifier in the session, GET
    /favorites raises HTTP 401 "Login required" and is no redirect, while
    GET /recipes/new answers the same session with the 303 redirect to
    /login. *)
Theorem favorites_page_anonymous_is_401 :
  forall (w : World) (sess : Session) (order : string),
    sess_user_id sess = None ->
    snd (favorites_page w sess order)
      = Uncaught (HTTPException 401 "Login required")
    /\ status_of (snd (favorites_page w sess order)) = 401
    /\ (forall url c, snd (favorites_page w sess order) <> RedirectResponse url c)
    /\ snd (recipe_new w sess) = RedirectResponse "/login" 303.
Proof.
  intros w sess order Hanon.
  assert (E : snd (favorites_page w sess order)
              = Uncaught (HTTPException 401 "Login required")).
  { unfold favorites_page.
    destruct (ensure_csrf_db w sess) as [Hd Hu].
    destruct (_ensure_csrf w sess) as [w1 sess1]. simpl in *.
    unfold _require_login, get_current_user. rewrite Hu, Hanon. reflexivity. }
  rewrite E. repeat split.
  - intros url c. discriminate.
  - unfold recipe_new, get_current_user. rewrite Hanon. reflexivity.
Qed.

(* ----------------------------------------------------------------- *)
(** *** Favorites *)

Lemma set_db_same (w : World) : set_db w (db w) = w.
Proof. destruct w; reflexivity. Qed.

Lemma is_favorited_In (d : DB) (uid rid : Z) :
  _is_favorited d uid rid = true -> In (Favorite.mk uid rid) (favorites d).
Proof.
  unfold _is_favorited. intros H. apply existsb_exists in H.
  destruct H as [[u r] [Hin Heq]]. simpl in Heq.
  apply andb_prop in Heq. destruct Heq as [Hu Hr].
  apply Z.eqb_eq in Hu. apply Z.eqb_eq in Hr. subst. exact Hin.
Qed.

(** C10.  For a logged-in user and any recipe id (a value of the INTEGER
    id column: 64 bits, signed), POST /recipes/{rid}/favorite with the
    session's token redirects with 303 to the recipe and leaves a
    Favorite(user, rid) row: it appends the row when none exists and
    changes nothing when one does.  The recipe table is neither read nor
    changed, so the row is written also when no recipe has that id. *)
Theorem favorite_recipe_inserts_without_recipe_check :
  forall (w : World) (sess : Session) (rid : Z) (tok : string) (user : User.t),
    get_current_user (db w) sess = Some user ->
    sess_csrf_token sess = Some tok -> tok <> "" -> is_ascii tok = true ->
    in_int64 rid = true ->
    exists w',
      favorite_recipe w sess rid tok
        = (w', sess, RedirectResponse ("/recipes/" ++ str_of_int rid) 303)
      /\ In (Favorite.mk (User.id user) rid) (favorites (db w'))
      /\ (_is_favorited (db w) (User.id user) rid = false ->
          favorites (db w')
            = (favorites (db w) ++ [Favorite.mk (User.id user) rid])%list)
      /\ (_is_favorited (db w) (User.id user) rid = true -> w' = w)
      /\ recipes (db w') = recipes (db w).
Proof.
  intros w sess rid tok user Hu Hs Hne Ha Hrid.
  unfold favorite_recipe.
  rewrite Hu, (verify_csrf_accepts sess tok Hs Hne Ha), (sqlite_bind_in_range rid Hrid).
  eexists. split; [reflexivity|].
  destruct (_is_favorited (db w) (User.id user) rid) eqn:Hfav; simpl.
  - repeat split; try discriminate.
    + apply is_favorited_In; assumption.
    + intros _. apply set_db_same.
  - repeat split; try discriminate.
    apply in_or_app. right. left. reflexivity.
Qed.

(* ----------------------------------------------------------------- *)
(** *** What each loop leaves alone *)

Ltac frame_trans IH :=
  let H := fresh in
  pose proof IH as H; unfold same_but_ingredients, same_but_steps, same_but_tags in *;
  simpl in *; intuition congruence.

Lemma create_ingredients_frame (d : DB) (rid : Z) (amounts units names : list string)
    (idx : Z) :
  same_but_ingredients d (create_ingredients d rid amounts units idx names).
Proof.
  revert d idx. induction names as [|name rest IH]; intros d idx; simpl.
  - unfold same_but_ingredients; intuition.
  - destruct (truthy (strip name)); simpl.
    + frame_trans (IH (add_ingredient d rid (strip name)
                         (option_map strip (or_None (at_index amounts idx)))
                         (option_map strip (or_None (at_index units idx))) idx)
                      (idx + 1)).
    + apply IH.
Qed.

Lemma update_ingredients_frame (d : DB) (rid : Z) (amounts names : list string)
    (idx : Z) :
  same_but_ingredients d (update_ingredients d rid amounts idx names).
Proof.
  revert d idx. induction names as [|name rest IH]; intros d idx; simpl.
  - unfold same_but_ingredients; intuition.
  - destruct (truthy (strip name)); simpl.
    + frame_trans (IH (add_ingredient d rid (strip name)
                         (option_map strip (or_None (at_index amounts idx)))
                         None idx)
                      (idx + 1)).
    + apply IH.
Qed.

Lemma save_or_keep_db (w : World) (fname : string) (im : option image) :
  db (fst (save_or_keep w fname im)) = db w.
Proof.
  unfold save_or_keep. destruct im as [im1|]; [|reflexivity].
  destruct (save_webp im1); reflexivity.
Qed.

Lemma save_step_image_db (w : World) (upload : option UploadFile)
    (a b c d : option Z) :
  db (fst (save_step_image w upload a b c d)) = db w.
Proof.
  unfold save_step_image. destruct upload as [up|]; [|reflexivity].
  destruct (truthy (filename up)); simpl; [|reflexivity].
  match goal with |- context [save_or_keep ?w0 ?n ?i] =>
    pose proof (save_or_keep_db w0 n i) as H;
    destruct (save_or_keep w0 n i) as [w1 ok] end.
  simpl in *. destruct ok; simpl; assumption.
Qed.

Lemma save_main_image_db (w : World) (up : UploadFile) (cx cy cw ch : option pyfloat) :
  db (fst (save_main_image w up cx cy cw ch)) = db w.
Proof.
  unfold save_main_image.
  match goal with |- context [save_or_keep ?w0 ?n ?i] =>
    pose proof (save_or_keep_db w0 n i) as H;
    destruct (save_or_keep w0 n i) as [w1 ok] end.
  simpl in *. assumption.
Qed.

Lemma create_step_frame (w : World) (rid : Z) (f : CreateForm.t) (idx : Z) :
  same_but_steps (db w) (db (create_step w rid f idx)).
Proof.
  unfold create_step.
  destruct (at_index (CreateForm.steps_image f) idx) as [up|].
  - destruct (truthy (filename up)).
    + pose proof (save_step_image_db w (Some up) None None None None) as H.
      destruct (save_step_image w (Some up) None None None None) as [w1 p].
      simpl in H.
      destruct (negb (truthy _) && negb (truthy_opt p)); simpl;
        unfold same_but_steps; rewrite ?H; simpl; intuition.
    + destruct (negb (truthy _) && negb (truthy_opt None)); simpl;
        unfold same_but_steps; simpl; intuition.
  - destruct (negb (truthy _) && negb (truthy_opt None)); simpl;
      unfold same_but_steps; simpl; intuition.
Qed.

Lemma create_steps_frame (w : World) (rid : Z) (f : CreateForm.t) (idx : Z) (n : nat) :
  same_but_steps (db w) (db (create_steps w rid f idx n)).
Proof.
  revert w idx. induction n as [|n IH]; intros w idx; simpl.
  - unfold same_but_steps; intuition.
  - pose proof (create_step_frame w rid f idx) as H1.
    frame_trans (IH (create_step w rid f idx) (idx + 1)).
Qed.

Lemma update_step_frame (w : World) (rid : Z) (bodies olds : list string)
    (imgs : list UploadFile) (idx : Z) :
  same_but_steps (db w) (db (update_step w rid bodies olds imgs idx)).
Proof.
  unfold update_step.
  assert (G : forall (w1 : World) (p : option string),
             db w1 = db w ->
             same_but_steps (db w)
               (db (let img_path :=
                      if negb (truthy_opt p) then or_None (at_index olds idx) else p in
                    if negb (truthy (strip match at_index bodies idx with
                                           | Some b => b | None => "" end))
                       && negb (truthy_opt img_path)
                    then w1
                    else set_db w1 (add_step (db w1) rid
                                      (strip match at_index bodies idx with
                                             | Some b => b | None => "" end)
                                      idx img_path)))).
  { intros w1 p H. simpl.
    destruct (negb (truthy _) && negb (truthy_opt _)); simpl;
      unfold same_but_steps; rewrite ?H; simpl; intuition. }
  destruct (at_index imgs idx) as [up|].
  - destruct (truthy (filename up)).
    + pose proof (save_step_image_db w (Some up) None None None None) as H.
      destruct (save_step_image w (Some up) None None None None) as [w1 p].
      apply G. exact H.
    + apply G. reflexivity.
  - apply G. reflexivity.
Qed.

Lemma update_steps_frame (w : World) (rid : Z) (bodies olds : list string)
    (imgs : list UploadFile) (idx : Z) (n : nat) :
  same_but_steps (db w) (db (update_steps w rid bodies olds imgs idx n)).
Proof.
  revert w idx. induction n as [|n IH]; intros w idx; simpl.
  - unfold same_but_steps; intuition.
  - pose proof (update_step_frame w rid bodies olds imgs idx) as H1.
    frame_trans (IH (update_step w rid bodies olds imgs idx) (idx + 1)).
Qed.

Lemma attach_tags_frame (d : DB) (rid : Z) (raws : list string) :
  same_but_tags d (attach_tags d rid raws).
Proof.
  revert d. induction raws as [|raw rest IH]; intros d; simpl.
  - unfold same_but_tags; intuition.
  - destruct (truthy (strip raw)); simpl; [|apply IH].
    destruct (find_tag d (strip raw)) as [t|]; simpl.
    + destruct (has_recipe_tag d rid (Tag.id t)).
      * apply IH.
      * frame_trans (IH (add_recipe_tag d rid (Tag.id t))).
    + destruct (has_recipe_tag _ rid _).
      * frame_trans (IH (set_tags d (tags d ++ [Tag.mk (next_rowid (map Tag.id (tags d))) (strip raw)]))).
      * frame_trans (IH (add_recipe_tag
                           (set_tags d (tags d ++ [Tag.mk (next_rowid (map Tag.id (tags d))) (strip raw)]))
                           rid (next_rowid (map Tag.id (tags d))))).
Qed.

(* ----------------------------------------------------------------- *)
(** *** The shape of a successful create *)

Lemma create_main_image_db (w : World) (f : CreateForm.t) :
  db (fst (create_main_image w f)) = db w.
Proof.
  unfold create_main_image. destruct (CreateForm.image f) as [up|]; [|reflexivity].
  destruct (truthy (filename up)); [|reflexivity].
  match goal with |- context [save_main_image ?a ?b ?c ?d ?e ?g] =>
    pose proof (save_main_image_db a b c d e g) as H;
    destruct (save_main_image a b c d e g) as [w1 p] end.
  exact H.
Qed.

Lemma recipe_create_runs (w : World) (sess : Session) (f : CreateForm.t) (cu : User.t) :
  get_current_user (db w) sess = Some cu ->
  verify_csrf sess (CreateForm.csrf_token f) = Ok tt ->
  let w1 := fst (create_main_image w f) in
  let r := created_recipe (db w) f (snd (create_main_image w f)) cu in
  let d2 := create_ingredients
              (fst (add_recipe (db w) (CreateForm.title f) (CreateForm.description f)
                      (snd (create_main_image w f)) (Some (User.id cu))))
              (Recipe.id r) (CreateForm.ingredients_amount f)
              (CreateForm.ingredients_unit f) 0 (CreateForm.ingredients_name f) in
  let w2 := create_steps (set_db w1 d2) (Recipe.id r) f 0
              (Nat.max (List.length (CreateForm.steps_body f))
                       (List.length (CreateForm.steps_image f))) in
  exists w',
    recipe_create w sess f
      = (w', sess,
         TemplateResponse
           (recipe_detail_html r (select_ingredients (db w') (Recipe.id r))
              (select_steps (db w') (Recipe.id r))
              (select_tags (db w') (Recipe.id r)) (Some cu) None))
    /\ recipes (db w') = (recipes (db w) ++ [r])%list
    /\ ingredients (db w') = ingredients d2
    /\ steps (db w') = steps (db w2)
    /\ users (db w') = users (db w)
    /\ recipe_seq (db w') = Recipe.id r.
Proof.
  intros Hu Hv w1 r d2 w2.
  pose proof (create_main_image_db w f) as Hdb.
  assert (Heq : recipe_create w sess f =
    let '(w1, saved_path) := create_main_image w f in
    let '(d, r) :=
      add_recipe (db w1) (CreateForm.title f) (CreateForm.description f)
                 saved_path (Some (User.id cu)) in
    let d := create_ingredients d (Recipe.id r)
               (CreateForm.ingredients_amount f)
               (CreateForm.ingredients_unit f) 0
               (CreateForm.ingredients_name f) in
    let w := create_steps (set_db w1 d) (Recipe.id r) f 0
               (Nat.max (List.length (CreateForm.steps_body f))
                        (List.length (CreateForm.steps_image f))) in
    let d := attach_tags (db w) (Recipe.id r)
               (split_comma (CreateForm.tags_csv f)) in
    (set_db w d, sess,
     TemplateResponse
       (recipe_detail_html r (select_ingredients d (Recipe.id r))
          (select_steps d (Recipe.id r)) (select_tags d (Recipe.id r))
          (Some cu) None))).
  { unfold recipe_create, create_main_image. rewrite Hu, Hv. reflexivity. }
  exists (fst (fst (recipe_create w sess f))).
  rewrite Heq. clear Heq.
  subst w2 d2 r w1. unfold created_recipe.
  destruct (create_main_image w f) as [w1 p].
  simpl in Hdb. simpl fst; simpl snd. rewrite Hdb.
  unfold add_recipe. cbv beta zeta iota. simpl fst; simpl snd.
  split; [reflexivity|].
  simpl db.
  match goal with |- context [attach_tags (db ?W) ?R ?L] =>
    pose proof (attach_tags_frame (db W) R L) as Ht;
    match W with create_steps ?W0 ?R0 ?F ?I ?N =>
      pose proof (create_steps_frame W0 R0 F I N) as Hs
    end
  end.
  match type of Hs with same_but_steps (db (set_db _ ?D)) _ =>
    match D with create_ingredients ?D0 ?R0 ?A ?U ?I ?N =>
      pose proof (create_ingredients_frame D0 R0 A U N I) as Hi
    end
  end.
  unfold same_but_tags, same_but_steps, same_but_ingredients in *.
  simpl in *.
  repeat split; intuition congruence.
Qed.

(* ----------------------------------------------------------------- *)
(** *** The shape of a successful edit *)

Lemma update_main_image_db (w : World) (f : UpdateForm.t) (r0 : Recipe.t) :
  db (fst (update_main_image w f r0)) = db w.
Proof.
  unfold update_main_image. destruct (UpdateForm.image f) as [up|]; [|reflexivity].
  destruct (truthy (filename up)); [|reflexivity].
  match goal with |- context [save_main_image ?a ?b ?c ?d ?e ?g] =>
    pose proof (save_main_image_db a b c d e g) as H;
    destruct (save_main_image a b c d e g) as [w1 p] end.
  exact H.
Qed.

Lemma update_ingredients_rows (d : DB) (rid : Z) (amounts names : list string)
    (idx : Z) :
  exists rows,
    ingredients (update_ingredients d rid amounts idx names)
      = (ingredients d ++ rows)%list
    /\ Forall (fun i => Ingredient.recipe_id i = rid) rows.
Proof.
  revert d idx. induction names as [|name rest IH]; intros d idx; simpl.
  - exists []. rewrite app_nil_r. split; [reflexivity|constructor].
  - destruct (truthy (strip name)); simpl; [|apply IH].
    destruct (IH (add_ingredient d rid (strip name)
                    (option_map strip (or_None (at_index amounts idx))) None idx)
                 (idx + 1)) as [rows [Hi Hr]].
    eexists (_ :: rows). simpl in Hi. rewrite Hi, <- app_assoc. simpl.
    split; [reflexivity|]. constructor; [reflexivity|exact Hr].
Qed.

Lemma update_ingredients_rows_full (d : DB) (rid : Z) (amounts names : list string)
    (idx : Z) :
  exists rows,
    ingredients (update_ingredients d rid amounts idx names)
      = (ingredients d ++ rows)%list
    /\ Forall (fun i => Ingredient.recipe_id i = rid) rows
    /\ Forall (fun i => Ingredient.unit i = None) rows
    /\ map Ingredient.name rows = filter truthy (map strip names)
    /\ map Ingredient.order_no rows
       = kept_positions idx (map (fun n => truthy (strip n)) names).
Proof.
  revert d idx. induction names as [|name rest IH]; intros d idx; simpl.
  - exists []. rewrite app_nil_r. repeat split; constructor.
  - destruct (truthy (strip name)) eqn:E; simpl; [|apply IH].
    destruct (IH (add_ingredient d rid (strip name)
                    (option_map strip (or_None (at_index amounts idx))) None idx)
                 (idx + 1)) as [rows [Hi [Hr [Hu [Hn Ho]]]]].
    eexists (_ :: rows). simpl in Hi. rewrite Hi, <- app_assoc. simpl.
    split; [reflexivity|]. split; [constructor; [reflexivity|exact Hr]|].
    split; [constructor; [reflexivity|exact Hu]|].
    rewrite Hn, Ho. split; reflexivity.
Qed.

Lemma update_step_rows (w : World) (rid : Z) (bodies olds : list string)
    (imgs : list UploadFile) (idx : Z) :
  exists rows,
    steps (db (update_step w rid bodies olds imgs idx)) = (steps (db w) ++ rows)%list
    /\ Forall (fun s => Step.recipe_id s = rid) rows.
Proof.
  unfold update_step.
  assert (G : forall (w1 : World) (p : option string),
             db w1 = db w ->
             exists rows,
               steps (db (let img_path :=
                            if negb (truthy_opt p) then or_None (at_index olds idx)
                            else p in
                          if negb (truthy (strip match at_index bodies idx with
                                                 | Some b => b | None => "" end))
                             && negb (truthy_opt img_path)
                          then w1
                          else set_db w1 (add_step (db w1) rid
                                 (strip match at_index bodies idx with
                                        | Some b => b | None => "" end)
                                 idx img_path)))
                 = (steps (db w) ++ rows)%list
               /\ Forall (fun s => Step.recipe_id s = rid) rows).
  { intros w1 p H. cbv zeta.
    destruct (negb (truthy _) && negb (truthy_opt _)); simpl; rewrite ?H.
    - exists []. rewrite app_nil_r. split; [reflexivity|constructor].
    - eexists [_]. split; [reflexivity|].
      constructor; [reflexivity|constructor]. }
  destruct (at_index imgs idx) as [up|].
  - destruct (truthy (filename up)).
    + pose proof (save_step_image_db w (Some up) None None None None) as H.
      destruct (save_step_image w (Some up) None None None None) as [w1 p].
      apply G. exact H.
    + apply G. reflexivity.
  - apply G. reflexivity.
Qed.

Lemma update_steps_rows (w : World) (rid : Z) (bodies olds : list string)
    (imgs : list UploadFile) (idx : Z) (n : nat) :
  exists rows,
    steps (db (update_steps w rid bodies olds imgs idx n))
      = (steps (db w) ++ rows)%list
    /\ Forall (fun s => Step.recipe_id s = rid) rows.
Proof.
  revert w idx. induction n as [|n IH]; intros w idx; simpl.
  - exists []. rewrite app_nil_r. split; [reflexivity|constructor].
  - destruct (update_step_rows w rid bodies olds imgs idx) as [r1 [H1 F1]].
    destruct (IH (update_step w rid bodies olds imgs idx) (idx + 1))
      as [r2 [H2 F2]].
    exists (r1 ++ r2)%list. rewrite H2, H1, <- app_assoc.
    split; [reflexivity|]. apply Forall_app; split; assumption.
Qed.

Lemma recipe_update_runs (w : World) (sess : Session) (rid : Z) (f : UpdateForm.t)
    (cu : User.t) (r0 : Recipe.t) :
  get_current_user (db w) sess = Some cu ->
  verify_csrf sess (UpdateForm.csrf_token f) = Ok tt ->
  get_recipe (db w) rid = Ok (Some r0) ->
  opt_Z_eqb (Recipe.author_id r0) (User.id cu) = true ->
  let w1 := fst (update_main_image w f r0) in
  let r := updated_recipe f r0 (snd (update_main_image w f r0)) in
  let d1 := update_recipe (db w) r in
  let d2 := update_ingredients
              (set_ingredients d1
                 (filter (fun i => negb (Ingredient.recipe_id i =? rid))
                         (ingredients d1)))
              rid (or_empty (UpdateForm.ingredients_amount f)) 0
              (or_empty (UpdateForm.ingredients_name f)) in
  exists w',
    recipe_update w sess rid f
      = (w', sess, RedirectResponse ("/recipes/" ++ str_of_int rid) 303)
    /\ recipes (db w') = recipes d1
    /\ ingredients (db w') = ingredients d2
    /\ recipe_seq (db w') = recipe_seq (db w)
    /\ exists srows,
         steps (db w')
           = (filter (fun s => negb (Step.recipe_id s =? rid)) (steps (db w))
              ++ srows)%list
         /\ Forall (fun s => Step.recipe_id s = rid) srows.
Proof.
  intros Hu Hv Hr Ho w1 r d1 d2.
  pose proof (update_main_image_db w f r0) as Hdb.
  exists (fst (fst (recipe_update w sess rid f))).
  assert (Heq : recipe_update w sess rid f =
    let '(w1, main_image) := update_main_image w f r0 in
    let r := updated_recipe f r0 main_image in
    let d := update_recipe (db w1) r in
    let d := set_ingredients d
               (filter (fun i => negb (Ingredient.recipe_id i =? rid))
                       (ingredients d)) in
    let d := update_ingredients d rid (or_empty (UpdateForm.ingredients_amount f))
               0 (or_empty (UpdateForm.ingredients_name f)) in
    let d := set_steps d
               (filter (fun s => negb (Step.recipe_id s =? rid)) (steps d)) in
    let bodies := or_empty (UpdateForm.steps_body f) in
    let olds := or_empty (UpdateForm.steps_existing_image f) in
    let imgs := or_empty (UpdateForm.steps_image f) in
    let w := update_steps (set_db w1 d) rid bodies olds imgs 0
               (Nat.max (List.length bodies)
                        (Nat.max (List.length olds) (List.length imgs))) in
    let d := attach_tags (db w) rid (split_comma (UpdateForm.tags_csv f)) in
    (set_db w d, sess, RedirectResponse ("/recipes/" ++ str_of_int rid) 303)).
  { unfold recipe_update, update_main_image, updated_recipe.
    rewrite Hu, Hv, Hr, Ho. reflexivity. }
  rewrite Heq. clear Heq.
  subst d2 d1 r w1.
  destruct (update_main_image w f r0) as [w1 p].
  simpl in Hdb. simpl fst; simpl snd. rewrite Hdb.
  cbv beta zeta.
  split; [reflexivity|].
  simpl fst. simpl db.
  match goal with |- context [attach_tags (db ?W) ?R ?L] =>
    pose proof (attach_tags_frame (db W) R L) as Ht;
    match W with update_steps ?W0 ?R0 ?B ?O ?I ?X ?N =>
      pose proof (update_steps_frame W0 R0 B O I X N) as Hs
    end
  end.
  match goal with |- context [update_ingredients ?D ?R ?A ?I ?N] =>
    pose proof (update_ingredients_frame D R A N I) as Hi
  end.
  match type of Hs with same_but_steps (db ?W0) (db (update_steps ?W0 ?R0 ?B ?O ?I ?X ?N)) =>
    destruct (update_steps_rows W0 R0 B O I X N) as [srows [Hrows Frows]]
  end.
  unfold same_but_tags, same_but_steps, same_but_ingredients in *.
  destruct Ht as [_ [Ht1 [Ht2 [Ht3 [Ht4 _]]]]].
  destruct Hs as [_ [Hs1 [Hs2 [Hs3 _]]]].
  destruct Hi as [_ [Hi1 [Hi2 [Hi3 _]]]].
  split; [rewrite Ht1, Hs1; exact Hi1|].
  split; [rewrite Ht3, Hs3; reflexivity|].
  split; [rewrite Ht2, Hs2; exact Hi2|].
  exists srows. split; [|exact Frows].
  rewrite Ht4, Hrows. f_equal. simpl db. simpl steps at 1.
  f_equal. exact Hi3.
Qed.

Lemma recipe_update_success_inv (w w' : World) (sess sess' : Session) (rid : Z)
    (f : UpdateForm.t) :
  recipe_update w sess rid f
    = (w', sess', RedirectResponse ("/recipes/" ++ str_of_int rid) 303) ->
  exists cu r0,
    get_current_user (db w) sess = Some cu
    /\ verify_csrf sess (UpdateForm.csrf_token f) = Ok tt
    /\ get_recipe (db w) rid = Ok (Some r0)
    /\ opt_Z_eqb (Recipe.author_id r0) (User.id cu) = true.
Proof.
  unfold recipe_update.
  destruct (get_current_user (db w) sess) as [cu|]; [|simpl; discriminate].
  destruct (verify_csrf sess (UpdateForm.csrf_token f)) as [[]|e]; [|discriminate].
  destruct (get_recipe (db w) rid) as [[r0|]|e]; [|discriminate|discriminate].
  destruct (opt_Z_eqb (Recipe.author_id r0) (User.id cu)) eqn:Ho; [|discriminate].
  intros _. exists cu, r0. repeat split. exact Ho.
Qed.

(* ----------------------------------------------------------------- *)
(** *** The stored path of the main image *)

Lemma save_main_image_path (w : World) (up : UploadFile) (cx cy cw ch : option pyfloat) :
  snd (save_main_image w up cx cy cw ch)
    = "/media/" ++ (uuid4_hex (entropy w) ++ ".webp") ++ "+".
Proof.
  unfold save_main_image.
  destruct (save_or_keep _ _ _) as [w1 ok]. reflexivity.
Qed.

Lemma find_map_replace (rid : Z) (r : Recipe.t) (l : list Recipe.t) (r0 : Recipe.t) :
  Recipe.id r = rid ->
  find (fun x => Recipe.id x =? rid) l = Some r0 ->
  find (fun x => Recipe.id x =? rid)
       (map (fun x => if Recipe.id x =? Recipe.id r then r else x) l) = Some r.
Proof.
  intros Hid. induction l as [|x l IH]; simpl; [discriminate|].
  rewrite Hid. destruct (Recipe.id x =? rid) eqn:E.
  - intros _. rewrite Hid, Z.eqb_refl. reflexivity.
  - rewrite E. rewrite Hid in IH. exact IH.
Qed.

Lemma get_recipe_id (d : DB) (rid : Z) (r0 : Recipe.t) :
  get_recipe d rid = Ok (Some r0) -> Recipe.id r0 = rid.
Proof.
  intros H. apply get_recipe_Ok_inv in H. destruct H as [_ H].
  apply find_some in H. destruct H as [_ H]. apply Z.eqb_eq in H. exact H.
Qed.

Lemma create_with_main_image (w : World) (sess : Session) (cu : User.t)
    (up : UploadFile) (f : CreateForm.t) :
  get_current_user (db w) sess = Some cu ->
  truthy (filename up) = true ->
  verify_csrf sess (CreateForm.csrf_token f) = Ok tt ->
  CreateForm.image f = Some up ->
  exists w' r ings steps tags,
    recipe_create w sess f
      = (w', sess,
         TemplateResponse (recipe_detail_html r ings steps tags (Some cu) None))
    /\ In r (recipes (db w'))
    /\ Recipe.main_image r
       = Some (snd (save_main_image w up
                      (_to_float_or_none (CreateForm.crop_x f))
                      (_to_float_or_none (CreateForm.crop_y f))
                      (_to_float_or_none (CreateForm.crop_w f))
                      (_to_float_or_none (CreateForm.crop_h f)))).
Proof.
  intros Hu Hfn Hv Himg.
  destruct (recipe_create_runs w sess f cu Hu Hv) as [w' [Heq [Hrec _]]].
  exists w'. eexists. eexists. eexists. eexists.
  split; [exact Heq|]. split.
  - rewrite Hrec. apply in_or_app. right. left. reflexivity.
  - unfold created_recipe, create_main_image. rewrite Himg, Hfn.
    destruct (save_main_image w up _ _ _ _) as [w1 p]. reflexivity.
Qed.

Lemma update_with_main_image (w : World) (sess : Session) (cu : User.t)
    (up : UploadFile) (rid : Z) (f : UpdateForm.t) (r0 : Recipe.t) :
  get_current_user (db w) sess = Some cu ->
  truthy (filename up) = true ->
  verify_csrf sess (UpdateForm.csrf_token f) = Ok tt ->
  get_recipe (db w) rid = Ok (Some r0) ->
  opt_Z_eqb (Recipe.author_id r0) (User.id cu) = true ->
  UpdateForm.image f = Some up ->
  exists w' r,
    recipe_update w sess rid f
      = (w', sess, RedirectResponse ("/recipes/" ++ str_of_int rid) 303)
    /\ get_recipe (db w') rid = Ok (Some r)
    /\ Recipe.main_image r
       = Some (snd (save_main_image w up
                      (_to_float_or_none (UpdateForm.crop_x f))
                      (_to_float_or_none (UpdateForm.crop_y f))
                      (_to_float_or_none (UpdateForm.crop_w f))
                      (_to_float_or_none (UpdateForm.crop_h f)))).
Proof.
  intros Hu Hfn Hv Hr Ho Himg.
  destruct (recipe_update_runs w sess rid f cu r0 Hu Hv Hr Ho)
    as [w' [Heq [Hrec _]]].
  exists w', (updated_recipe f r0 (snd (update_main_image w f r0))).
  split; [exact Heq|]. split.
  - destruct (get_recipe_Ok_inv _ _ _ Hr) as [Hrange Hf].
    rewrite (get_recipe_in_range _ _ Hrange). f_equal.
    rewrite Hrec. unfold update_recipe. simpl.
    apply (find_map_replace rid
             (updated_recipe f r0 (snd (update_main_image w f r0)))
             (recipes (db w)) r0).
    + simpl. apply (get_recipe_id (db w)). exact Hr.
    + exact Hf.
  - unfold updated_recipe, update_main_image. rewrite Himg, Hfn.
    destruct (save_main_image w up _ _ _ _) as [w1 p]. reflexivity.
Qed.

(** C1 (what the code does).  A create or an edit by a logged-in user with
    a valid token that uploads a main image stores, in the recipe row, the
    path /media/<hex>.webp followed by the character "+". *)
Theorem main_image_path_has_trailing_plus :
  forall (w : World) (sess : Session) (cu : User.t) (up : UploadFile),
    get_current_user (db w) sess = Some cu ->
    truthy (filename up) = true ->
    let stored := Some ("/media/" ++ (uuid4_hex (entropy w) ++ ".webp") ++ "+") in
    (forall f : CreateForm.t,
        verify_csrf sess (CreateForm.csrf_token f) = Ok tt ->
        CreateForm.image f = Some up ->
        exists w' r ings steps tags,
          recipe_create w sess f
            = (w', sess,
               TemplateResponse
                 (recipe_detail_html r ings steps tags (Some cu) None))
          /\ In r (recipes (db w'))
          /\ Recipe.main_image r = stored)
    /\ (forall (rid : Z) (f : UpdateForm.t) (r0 : Recipe.t),
        verify_csrf sess (UpdateForm.csrf_token f) = Ok tt ->
        get_recipe (db w) rid = Ok (Some r0) ->
        opt_Z_eqb (Recipe.author_id r0) (User.id cu) = true ->
        UpdateForm.image f = Some up ->
        exists w' r,
          recipe_update w sess rid f
            = (w', sess, RedirectResponse ("/recipes/" ++ str_of_int rid) 303)
          /\ get_recipe (db w') rid = Ok (Some r)
          /\ Recipe.main_image r = stored).
Proof.
  intros w sess cu up Hu Hfn stored. split.
  - intros f Hv Himg.
    destruct (create_with_main_image w sess cu up f Hu Hfn Hv Himg)
      as [w' [r [ings [steps [tags [Heq [Hin Hp]]]]]]].
    exists w', r, ings, steps, tags. repeat split; try assumption.
    rewrite Hp, save_main_image_path. reflexivity.
  - intros rid f r0 Hv Hr Ho Himg.
    destruct (update_with_main_image w sess cu up rid f r0 Hu Hfn Hv Hr Ho Himg)
      as [w' [r [Heq [Hget Hp]]]].
    exists w', r. repeat split; try assumption.
    rewrite Hp, save_main_image_path. reflexivity.
Qed.

(* ----------------------------------------------------------------- *)
(** *** The units of an edited recipe *)

Lemma update_ingredients_no_unit (d : DB) (rid : Z) (amounts names : list string)
    (idx : Z) :
  Forall (no_unit_for rid) (ingredients d) ->
  Forall (no_unit_for rid) (ingredients (update_ingredients d rid amounts idx names)).
Proof.
  revert d idx. induction names as [|name rest IH]; intros d idx H; simpl.
  - exact H.
  - destruct (truthy (strip name)); simpl; [|apply IH; exact H].
    apply IH. simpl. apply Forall_app. split; [exact H|].
    constructor; [|constructor]. intros _. reflexivity.
Qed.

(** C9.  After every successful edit of a recipe (the handler answers with
    the 303 redirect to the recipe), the Ingredient table holds the rows of
    the other recipes as they were, followed by the recreated rows of the
    edited recipe: one row for each submitted name that is not blank, in
    the order submitted, with the stripped name, the position of the name
    as order_no, the id of the recipe and a null unit.  So every Ingredient
    row of the recipe has a null unit, whatever units its rows had before;
    the edit form has no unit field. *)
Theorem edit_recreates_ingredients_without_unit :
  forall (w w' : World) (sess sess' : Session) (rid : Z) (f : UpdateForm.t),
    recipe_update w sess rid f
      = (w', sess', RedirectResponse ("/recipes/" ++ str_of_int rid) 303) ->
    let names := or_empty (UpdateForm.ingredients_name f) in
    Forall (no_unit_for rid) (ingredients (db w'))
    /\ exists rows,
         ingredients (db w')
           = (filter (fun i => negb (Ingredient.recipe_id i =? rid))
                     (ingredients (db w)) ++ rows)%list
         /\ map Ingredient.name rows = filter truthy (map strip names)
         /\ map Ingredient.order_no rows
            = kept_positions 0 (map (fun n => truthy (strip n)) names)
         /\ Forall (fun i => Ingredient.recipe_id i = rid) rows
         /\ Forall (fun i => Ingredient.unit i = None) rows.
Proof.
  intros w w' sess sess' rid f H names.
  destruct (recipe_update_success_inv w w' sess sess' rid f H)
    as [cu [r0 [Hu [Hv [Hr Ho]]]]].
  destruct (recipe_update_runs w sess rid f cu r0 Hu Hv Hr Ho)
    as [w2 [Heq [_ [Hing _]]]].
  rewrite Heq in H. injection H as Hw _. subst w2.
  split.
  - rewrite Hing. apply update_ingredients_no_unit. simpl.
    apply Forall_forall. intros i Hi. apply filter_In in Hi.
    destruct Hi as [_ Hi]. intros Hrid. rewrite Hrid, Z.eqb_refl in Hi.
    discriminate.
  - match type of Hing with
    | _ = ingredients (update_ingredients ?D ?R ?A ?I ?N) =>
        destruct (update_ingredients_rows_full D R A N I)
          as [rows [Hi [Fr [Fu [Hn Ho']]]]]
    end.
    exists rows. rewrite Hing, Hi. simpl.
    split; [reflexivity|]. split; [exact Hn|]. split; [exact Ho'|].
    split; [exact Fr|exact Fu].
Qed.

(* ----------------------------------------------------------------- *)
(** *** Uploads that do not decode *)

Lemma truthy_media_path (s : string) : truthy ("/media/" ++ s) = true.
Proof. reflexivity. Qed.

(** C3 (as amended).  When the uploaded bytes do not decode as an image,
    the error is swallowed and the upload is kept as it came: the file under
    the new name holds the raw bytes and the path of that file is returned.
    [save_step_image] prints the error and returns /media/<hex>.webp, and
    the step row is stored with that path; the main-image block prints
    nothing and the recipe row is stored with a non-null path.  The create
    and the edit go through. *)
Theorem undecodable_upload_keeps_file_and_path :
  forall (w : World) (up : UploadFile),
    truthy (filename up) = true ->
    Image_open (content up) = None ->
    let fname := uuid4_hex (entropy w) ++ ".webp" in
    let raw := mkWorld (db w) ((fname, content up) :: media w) (stdout w)
                       (S (entropy w)) in
    (forall a b c d : option Z,
        save_step_image w (Some up) a b c d
          = (print raw "step image save error:", Some ("/media/" ++ fname)))
    /\ (forall cx cy cw ch : option pyfloat,
        fst (save_main_image w up cx cy cw ch) = raw)
    /\ (forall (rid : Z) (f : CreateForm.t) (idx : Z),
        at_index (CreateForm.steps_image f) idx = Some up ->
        db (create_step w rid f idx)
          = add_step (db w) rid (step_body_at f idx) idx
                     (Some ("/media/" ++ fname)))
    /\ (forall (sess : Session) (cu : User.t) (f : CreateForm.t),
        get_current_user (db w) sess = Some cu ->
        verify_csrf sess (CreateForm.csrf_token f) = Ok tt ->
        CreateForm.image f = Some up ->
        exists w' r ings steps tags p,
          recipe_create w sess f
            = (w', sess,
               TemplateResponse
                 (recipe_detail_html r ings steps tags (Some cu) None))
          /\ In r (recipes (db w'))
          /\ Recipe.main_image r = Some p)
    /\ (forall (sess : Session) (cu : User.t) (rid : Z) (f : UpdateForm.t)
               (r0 : Recipe.t),
        get_current_user (db w) sess = Some cu ->
        verify_csrf sess (UpdateForm.csrf_token f) = Ok tt ->
        get_recipe (db w) rid = Ok (Some r0) ->
        opt_Z_eqb (Recipe.author_id r0) (User.id cu) = true ->
        UpdateForm.image f = Some up ->
        exists w' r p,
          recipe_update w sess rid f
            = (w', sess, RedirectResponse ("/recipes/" ++ str_of_int rid) 303)
          /\ get_recipe (db w') rid = Ok (Some r)
          /\ Recipe.main_image r = Some p).
Proof.
  intros w up Hfn Hopen fname raw.
  assert (Hstep : forall a b c d : option Z,
             save_step_image w (Some up) a b c d
             = (print raw "step image save error:", Some ("/media/" ++ fname))).
  { intros a b c d. unfold save_step_image, step_image_try, open_downscaled.
    rewrite Hfn, Hopen. reflexivity. }
  split; [exact Hstep|]. split; [|split; [|split]].
  - intros cx cy cw ch.
    unfold save_main_image, main_image_try, open_downscaled.
    rewrite Hopen. reflexivity.
  - intros rid f idx Hat. unfold create_step, step_body_at.
    rewrite Hat, Hfn, Hstep. cbv beta iota zeta.
    unfold truthy_opt. rewrite truthy_media_path, andb_false_r. reflexivity.
  - intros sess cu f Hu Hv Himg.
    destruct (create_with_main_image w sess cu up f Hu Hfn Hv Himg)
      as [w' [r [ings [steps [tags [Heq [Hin Hp]]]]]]].
    exists w', r, ings, steps, tags. eexists. repeat split; eassumption.
  - intros sess cu rid f r0 Hu Hv Hr Ho Himg.
    destruct (update_with_main_image w sess cu up rid f r0 Hu Hfn Hv Hr Ho Himg)
      as [w' [r [Heq [Hget Hp]]]].
    exists w', r. eexists. repeat split; eassumption.
Qed.

(* ----------------------------------------------------------------- *)
(** *** Cropping *)

Lemma main_try_partial (data : bytes) (cx cy cw ch : option pyfloat) :
  cx = None \/ cy = None \/ cw = None \/ ch = None ->
  main_image_try data cx cy cw ch = open_downscaled data.
Proof.
  intros H. unfold main_image_try.
  destruct (open_downscaled data) as [im|]; [|reflexivity].
  destruct cx, cy, cw, ch; try reflexivity.
  intuition discriminate.
Qed.

Lemma step_try_partial (data : bytes) (a b c d : option Z) :
  a = None \/ b = None \/ c = None \/ d = None ->
  step_image_try data a b c d = open_downscaled data.
Proof.
  intros H. unfold step_image_try.
  destruct (open_downscaled data) as [im|]; [|reflexivity].
  destruct a, b, c, d; try reflexivity.
  intuition discriminate.
Qed.

Lemma save_main_image_partial (w : World) (up : UploadFile) (cx cy cw ch : option pyfloat) :
  cx = None \/ cy = None \/ cw = None \/ ch = None ->
  save_main_image w up cx cy cw ch = save_main_image w up None None None None.
Proof.
  intros H. unfold save_main_image.
  rewrite (main_try_partial _ cx cy cw ch H).
  rewrite (main_try_partial _ None None None None (or_introl eq_refl)).
  reflexivity.
Qed.

Lemma create_steps_same_fields (w : World) (rid : Z) (f f' : CreateForm.t)
    (idx : Z) (n : nat) :
  CreateForm.steps_body f = CreateForm.steps_body f' ->
  CreateForm.steps_image f = CreateForm.steps_image f' ->
  create_steps w rid f idx n = create_steps w rid f' idx n.
Proof.
  intros Hb Hi. revert w idx. induction n as [|n IH]; intros w idx; simpl.
  - reflexivity.
  - assert (E : create_step w rid f idx = create_step w rid f' idx).
    { unfold create_step. rewrite Hb, Hi. reflexivity. }
    rewrite E. apply IH.
Qed.

Lemma at_index_nil {A : Type} (idx : Z) : at_index (@nil A) idx = None.
Proof.
  unfold at_index, len. simpl.
  destruct (0 <=? idx) eqn:E1; [|reflexivity].
  destruct (idx <? 0) eqn:E2; [|reflexivity]. lia.
Qed.

Lemma create_steps_no_files (w : World) (rid : Z) (f : CreateForm.t) (idx : Z)
    (n : nat) :
  CreateForm.steps_image f = [] -> media (create_steps w rid f idx n) = media w.
Proof.
  intros Hi. revert w idx. induction n as [|n IH]; intros w idx; simpl.
  - reflexivity.
  - rewrite IH. unfold create_step. rewrite Hi, at_index_nil.
    destruct (negb (truthy _) && negb (truthy_opt None)); reflexivity.
Qed.

(** C6.  When fewer than all four of crop_x, crop_y, crop_w, crop_h are
    present and parse as numbers, the image is stored as with no crop
    fields at all: the [try] block ends with the full downscaled image, and
    the create and the edit handlers return the same world and response as
    for the form without crop fields; [save_step_image] does the same with
    a partial rectangle.  When the upload decodes and the downscaled image
    encodes, the file written last under the new name, the one read back,
    is the encoding of that full downscaled image: no crop and no resize
    to 1200x675 is applied by the main-image block, by [save_step_image],
    or on the way through the create handler. *)
Theorem partial_crop_is_no_crop :
  forall (vx vy vw vh : option string),
    _to_float_or_none vx = None \/ _to_float_or_none vy = None
    \/ _to_float_or_none vw = None \/ _to_float_or_none vh = None ->
    (forall data : bytes,
        main_image_try data (_to_float_or_none vx) (_to_float_or_none vy)
                       (_to_float_or_none vw) (_to_float_or_none vh)
          = open_downscaled data)
    /\ (forall (w : World) (sess : Session) (f : CreateForm.t),
        recipe_create w sess (with_crop f vx vy vw vh)
          = recipe_create w sess (with_crop f None None None None))
    /\ (forall (w : World) (sess : Session) (rid : Z) (f : UpdateForm.t),
        recipe_update w sess rid (update_with_crop f vx vy vw vh)
          = recipe_update w sess rid (update_with_crop f None None None None))
    /\ (forall (w : World) (up : option UploadFile) (a b c d : option Z),
        a = None \/ b = None \/ c = None \/ d = None ->
        save_step_image w up a b c d = save_step_image w up None None None None)
    /\ (forall (w : World) (up : UploadFile) (im : image) (enc : bytes),
        truthy (filename up) = true ->
        open_downscaled (content up) = Some im ->
        save_webp im = Some enc ->
        let fname := uuid4_hex (entropy w) ++ ".webp" in
        let stored :=
          mkWorld (db w) ((fname, enc) :: (fname, content up) :: media w)
                  (stdout w) (S (entropy w)) in
        save_main_image w up (_to_float_or_none vx) (_to_float_or_none vy)
                        (_to_float_or_none vw) (_to_float_or_none vh)
          = (stored, "/media/" ++ fname ++ "+")
        /\ read_media stored fname = Some enc
        /\ (forall a b c d : option Z,
              a = None \/ b = None \/ c = None \/ d = None ->
              save_step_image w (Some up) a b c d
                = (stored, Some ("/media/" ++ fname)))
        /\ (forall (sess : Session) (cu : User.t) (f : CreateForm.t),
              get_current_user (db w) sess = Some cu ->
              verify_csrf sess (CreateForm.csrf_token f) = Ok tt ->
              CreateForm.image f = Some up ->
              CreateForm.steps_image f = [] ->
              read_media (fst (fst (recipe_create w sess
                                      (with_crop f vx vy vw vh)))) fname
                = Some enc)).
Proof.
  intros vx vy vw vh H.
  assert (Hsave : forall (w : World) (up : UploadFile) (im : image) (enc : bytes),
             open_downscaled (content up) = Some im ->
             save_webp im = Some enc ->
             save_main_image w up (_to_float_or_none vx) (_to_float_or_none vy)
                             (_to_float_or_none vw) (_to_float_or_none vh)
             = (mkWorld (db w)
                        ((uuid4_hex (entropy w) ++ ".webp", enc)
                         :: (uuid4_hex (entropy w) ++ ".webp", content up)
                         :: media w)
                        (stdout w) (S (entropy w)),
                "/media/" ++ (uuid4_hex (entropy w) ++ ".webp") ++ "+")).
  { intros w up im enc Hopen Henc. unfold save_main_image.
    rewrite (main_try_partial _ _ _ _ _ H), Hopen. unfold save_or_keep.
    rewrite Henc. reflexivity. }
  split; [|split; [|split; [|split]]].
  - intros data. apply main_try_partial. exact H.
  - intros w sess f. unfold recipe_create. simpl.
    destruct (get_current_user (db w) sess) as [cu|]; [|reflexivity].
    destruct (verify_csrf sess (CreateForm.csrf_token f)); [|reflexivity].
    assert (E : forall w0 rid idx n,
               create_steps w0 rid (with_crop f vx vy vw vh) idx n
               = create_steps w0 rid (with_crop f None None None None) idx n).
    { intros. apply create_steps_same_fields; reflexivity. }
    destruct (CreateForm.image f) as [up|]; [|rewrite E; reflexivity].
    destruct (truthy (filename up)); [|rewrite E; reflexivity].
    rewrite (save_main_image_partial w up _ _ _ _ H).
    destruct (save_main_image w up None None None None) as [w1 p].
    rewrite E. reflexivity.
  - intros w sess rid f. unfold recipe_update. simpl.
    destruct (get_current_user (db w) sess) as [cu|]; [|reflexivity].
    destruct (verify_csrf sess (UpdateForm.csrf_token f)); [|reflexivity].
    destruct (get_recipe (db w) rid) as [[r0|]|e]; [|reflexivity|reflexivity].
    destruct (negb (opt_Z_eqb (Recipe.author_id r0) (User.id cu))); [reflexivity|].
    destruct (UpdateForm.image f) as [up|]; [|reflexivity].
    destruct (truthy (filename up)); [|reflexivity].
    rewrite (save_main_image_partial w up _ _ _ _ H). reflexivity.
  - intros w up a b c d Hp. unfold save_step_image.
    destruct up as [u|]; [|reflexivity].
    destruct (negb (truthy (filename u))); [reflexivity|].
    rewrite (step_try_partial _ a b c d Hp).
    rewrite (step_try_partial _ None None None None (or_introl eq_refl)).
    reflexivity.
  - intros w up im enc Hfn Hopen Henc fname stored.
    split; [exact (Hsave w up im enc Hopen Henc)|].
    split; [unfold read_media; simpl; rewrite String.eqb_refl; reflexivity|].
    split.
    + intros a b c d Hp. unfold save_step_image. rewrite Hfn. simpl negb. cbv iota.
      rewrite (step_try_partial _ a b c d Hp), Hopen. unfold save_or_keep.
      rewrite Henc. reflexivity.
    + intros sess cu f Hu Hv Himg Hsteps.
      unfold recipe_create. simpl CreateForm.csrf_token.
      rewrite Hu, Hv. simpl CreateForm.image. rewrite Himg, Hfn.
      simpl CreateForm.crop_x. simpl CreateForm.crop_y.
      simpl CreateForm.crop_w. simpl CreateForm.crop_h.
      rewrite (Hsave w up im enc Hopen Henc).
      cbv beta iota zeta. simpl fst. unfold read_media.
      simpl media. rewrite create_steps_no_files by exact Hsteps.
      simpl. rewrite String.eqb_refl. reflexivity.
Qed.

(** The rectangle of the main-image block, for an origin inside the image:
    the sides are those of the spec's formula and the rectangle is inside. *)
Lemma main_crop_rect_inside (W H ix iy iw ih : Z) :
  Z.max 0 ix < W -> Z.max 0 iy < H ->
  main_crop_rect W H ix iy iw ih
    = (Z.max 0 ix, Z.max 0 iy,
       Z.max 1 (Z.min iw (W - Z.max 0 ix)), Z.max 1 (Z.min ih (H - Z.max 0 iy)))
  /\ rect_inside W H (main_crop_rect W H ix iy iw ih).
Proof.
  intros Hx Hy. unfold main_crop_rect, rect_inside. split.
  - f_equal; [f_equal|]; lia.
  - lia.
Qed.

(** What [save_step_image] would do with the tuple of [_crop_tuple_at] is
    what the main-image block does with the same four integers. *)
Lemma step_try_agrees_with_main (data : bytes) (fx fy fw fh : pyfloat)
    (ix iy iw ih : Z) :
  py_int fx = Some ix -> py_int fy = Some iy ->
  py_int fw = Some iw -> py_int fh = Some ih ->
  step_image_try data (Some (Z.max 0 ix)) (Some (Z.max 0 iy))
                 (Some (Z.max 1 iw)) (Some (Z.max 1 ih))
  = main_image_try data (Some fx) (Some fy) (Some fw) (Some fh).
Proof.
  intros Hx Hy Hw Hh. unfold step_image_try, main_image_try, main_crop_rect.
  destruct (open_downscaled data) as [im|]; [|reflexivity].
  rewrite Hx, Hy, Hw, Hh. reflexivity.
Qed.

Lemma read_media_written (w : World) (fname : string) (data : bytes) :
  read_media (write_bytes w fname data) fname = Some data.
Proof.
  unfold read_media, write_bytes. simpl. rewrite String.eqb_refl. reflexivity.
Qed.


(** The step crop fields of the create form reach no stored value. *)
Lemma recipe_create_ignores_steps_crop (w : World) (sess : Session)
    (f : CreateForm.t) (xs ys ws hs : option (list string)) :
  recipe_create w sess (with_steps_crop f xs ys ws hs) = recipe_create w sess f.
Proof.
  unfold recipe_create. simpl.
  destruct (get_current_user (db w) sess) as [cu|]; [|reflexivity].
  destruct (verify_csrf sess (CreateForm.csrf_token f)); [|reflexivity].
  assert (E : forall w0 rid idx n,
             create_steps w0 rid (with_steps_crop f xs ys ws hs) idx n
             = create_steps w0 rid f idx n).
  { intros. apply create_steps_same_fields; reflexivity. }
  destruct (CreateForm.image f) as [up|]; [|rewrite E; reflexivity].
  destruct (truthy (filename up)); [|rewrite E; reflexivity].
  destruct (save_main_image w up _ _ _ _) as [w1 p].
  rewrite E. reflexivity.
Qed.

(* ----------------------------------------------------------------- *)
(** *** Order of ingredients and steps *)

Lemma order_by_sorted {A : Type} (key : A -> Z) (l : list A) :
  StronglySorted Z.lt (map key l) -> order_by key l = l.
Proof.
  induction l as [|x l IH]; simpl; intros H; [reflexivity|].
  inversion H as [|? ? Hs Hall]; subst.
  unfold order_by in *. simpl. rewrite (IH Hs).
  destruct l as [|y l']; simpl; [reflexivity|].
  inversion Hall as [|? ? Hxy _]; subst.
  destruct (key x <=? key y) eqn:E; [reflexivity|].
  apply Z.leb_gt in E. lia.
Qed.

Lemma kept_positions_lb (idx : Z) (keep : list bool) :
  Forall (fun p => idx <= p) (kept_positions idx keep).
Proof.
  revert idx. induction keep as [|b rest IH]; intros idx; simpl; [constructor|].
  assert (H : Forall (fun p => idx <= p) (kept_positions (idx + 1) rest)).
  { eapply Forall_impl; [|apply IH]. simpl. intros; lia. }
  destruct b; [constructor; [lia|exact H]|exact H].
Qed.

Lemma kept_positions_sorted (idx : Z) (keep : list bool) :
  StronglySorted Z.lt (kept_positions idx keep).
Proof.
  revert idx. induction keep as [|b rest IH]; intros idx; simpl; [constructor|].
  destruct b; [|apply IH].
  constructor; [apply IH|].
  eapply Forall_impl; [|apply kept_positions_lb]. simpl. intros; lia.
Qed.

Lemma kept_positions_all (idx : Z) (keep : list bool) :
  forallb (fun b => b) keep = true ->
  kept_positions idx keep = count_from idx (List.length keep).
Proof.
  revert idx. induction keep as [|b rest IH]; intros idx; simpl; [reflexivity|].
  destruct b; simpl; [|discriminate].
  intros H. rewrite (IH (idx + 1) H). reflexivity.
Qed.

Lemma create_ingredients_rows (d : DB) (rid : Z) (amounts units names : list string)
    (idx : Z) :
  exists rows,
    ingredients (create_ingredients d rid amounts units idx names)
      = (ingredients d ++ rows)%list
    /\ Forall (fun i => Ingredient.recipe_id i = rid) rows
    /\ map Ingredient.name rows = filter truthy (map strip names)
    /\ map Ingredient.order_no rows
       = kept_positions idx (map (fun n => truthy (strip n)) names).
Proof.
  revert d idx. induction names as [|name rest IH]; intros d idx; simpl.
  - exists []. rewrite app_nil_r. repeat split. constructor.
  - destruct (truthy (strip name)) eqn:E; simpl.
    + destruct (IH (add_ingredient d rid (strip name)
                      (option_map strip (or_None (at_index amounts idx)))
                      (option_map strip (or_None (at_index units idx))) idx)
                   (idx + 1)) as [rows [Hi [Hr [Hn Ho]]]].
      eexists (_ :: rows). simpl in Hi. rewrite Hi, <- app_assoc. simpl.
      split; [reflexivity|]. split; [constructor; [reflexivity|exact Hr]|].
      simpl. rewrite Hn, Ho. split; reflexivity.
    + apply IH.
Qed.

Lemma save_step_image_truthy (w : World) (up : UploadFile) (a b c d : option Z) :
  truthy_opt (snd (save_step_image w (Some up) a b c d)) = truthy (filename up).
Proof.
  unfold save_step_image. destruct (truthy (filename up)); simpl; [|reflexivity].
  destruct (save_or_keep _ _ _) as [w1 ok]. reflexivity.
Qed.

Lemma create_step_rows (w : World) (rid : Z) (f : CreateForm.t) (idx : Z) :
  exists rows,
    steps (db (create_step w rid f idx)) = (steps (db w) ++ rows)%list
    /\ Forall (fun s => Step.recipe_id s = rid) rows
    /\ map Step.order_no rows = (if step_kept f idx then [idx] else [])
    /\ map Step.body rows = (if step_kept f idx then [step_body_at f idx] else []).
Proof.
  unfold create_step, step_kept, step_body_at.
  set (body := strip match at_index (CreateForm.steps_body f) idx with
                     | Some b => b | None => "" end).
  assert (G : forall (w1 : World) (p : option string) (k : bool),
             db w1 = db w -> truthy_opt p = k ->
             exists rows,
               steps (db (if negb (truthy body) && negb (truthy_opt p) then w1
                          else set_db w1 (add_step (db w1) rid body idx p)))
                 = (steps (db w) ++ rows)%list
               /\ Forall (fun s => Step.recipe_id s = rid) rows
               /\ map Step.order_no rows = (if truthy body || k then [idx] else [])
               /\ map Step.body rows = (if truthy body || k then [body] else [])).
  { intros w1 p k Hd Hk. rewrite Hk.
    destruct (truthy body), k; simpl; rewrite ?Hd.
    - eexists [_]. repeat split. constructor; [reflexivity|constructor].
    - eexists [_]. repeat split. constructor; [reflexivity|constructor].
    - eexists [_]. repeat split. constructor; [reflexivity|constructor].
    - exists []. rewrite app_nil_r. repeat split. constructor. }
  destruct (at_index (CreateForm.steps_image f) idx) as [up|].
  - pose proof (save_step_image_truthy w up None None None None) as Ht.
    destruct (truthy (filename up)) eqn:Hfn.
    + pose proof (save_step_image_db w (Some up) None None None None) as Hd.
      destruct (save_step_image w (Some up) None None None None) as [w1 p].
      apply G; assumption.
    + apply G; reflexivity.
  - apply G; reflexivity.
Qed.

Lemma create_steps_rows (w : World) (rid : Z) (f : CreateForm.t) (idx : Z) (n : nat) :
  exists rows,
    steps (db (create_steps w rid f idx n)) = (steps (db w) ++ rows)%list
    /\ Forall (fun s => Step.recipe_id s = rid) rows
    /\ map Step.order_no rows
       = kept_positions idx (map (step_kept f) (count_from idx n))
    /\ map Step.body rows
       = map (step_body_at f)
             (kept_positions idx (map (step_kept f) (count_from idx n))).
Proof.
  revert w idx. induction n as [|n IH]; intros w idx; simpl.
  - exists []. rewrite app_nil_r. repeat split. constructor.
  - destruct (create_step_rows w rid f idx) as [r1 [H1 [F1 [O1 B1]]]].
    destruct (IH (create_step w rid f idx) (idx + 1)) as [r2 [H2 [F2 [O2 B2]]]].
    exists (r1 ++ r2)%list. rewrite H2, H1, <- app_assoc.
    split; [reflexivity|]. split; [apply Forall_app; split; assumption|].
    rewrite !map_app, O1, O2, B1, B2.
    destruct (step_kept f idx); split; reflexivity.
Qed.

Lemma filter_new_rows {A : Type} (key : A -> Z) (rid : Z) (old rows : list A) :
  Forall (fun a => key a < rid) old ->
  Forall (fun a => key a = rid) rows ->
  filter (fun a => key a =? rid) (old ++ rows) = rows.
Proof.
  intros Ho Hr. rewrite filter_app.
  assert (E1 : filter (fun a => key a =? rid) old = []).
  { induction Ho as [|a l Ha _ IH]; simpl; [reflexivity|].
    destruct (key a =? rid) eqn:E; [apply Z.eqb_eq in E; lia|exact IH]. }
  assert (E2 : filter (fun a => key a =? rid) rows = rows).
  { induction Hr as [|a l Ha _ IH]; simpl; [reflexivity|].
    rewrite Ha, Z.eqb_refl, IH. reflexivity. }
  rewrite E1, E2. reflexivity.
Qed.

Lemma next_rowid_gt (ids : list Z) : Forall (fun x => x < next_rowid ids) ids.
Proof.
  unfold next_rowid. induction ids as [|x l IH]; simpl; constructor.
  - lia.
  - eapply Forall_impl; [|exact IH]. simpl. intros; lia.
Qed.

Lemma next_rowid_pos (ids : list Z) : 0 < next_rowid ids.
Proof.
  unfold next_rowid.
  assert (H : 0 <= fold_right Z.max 0 ids) by (induction ids; simpl; lia).
  lia.
Qed.

Lemma next_rowid_le (ids : list Z) (b : Z) :
  Forall (fun x => x <= b) ids -> next_rowid ids <= Z.max 0 b + 1.
Proof.
  unfold next_rowid. induction 1 as [|x l Hx _ IH]; simpl; lia.
Qed.

Lemma find_appended (rid : Z) (r : Recipe.t) (l : list Recipe.t) :
  Forall (fun x => Recipe.id x < rid) l -> Recipe.id r = rid ->
  find (fun x => Recipe.id x =? rid) (l ++ [r]) = Some r.
Proof.
  intros H Hr. induction H as [|x l Hx _ IH]; simpl.
  - rewrite Hr, Z.eqb_refl. reflexivity.
  - destruct (Recipe.id x =? rid) eqn:E; [apply Z.eqb_eq in E; lia|exact IH].
Qed.

Lemma count_from_length (idx : Z) (n : nat) : List.length (count_from idx n) = n.
Proof.
  revert idx. induction n as [|n IH]; intros idx; simpl; [reflexivity|].
  rewrite IH. reflexivity.
Qed.

Lemma recreated_recipe_id (d : DB) (f : CreateForm.t) (p : option string) (cu : User.t) :
  Recipe.id (created_recipe d f p cu)
    = Z.max (next_rowid (map Recipe.id (recipes d))) (recipe_seq d + 1).
Proof. reflexivity. Qed.

Lemma recipe_create_rows (w : World) (sess : Session) (f : CreateForm.t) (cu : User.t) :
  get_current_user (db w) sess = Some cu ->
  verify_csrf sess (CreateForm.csrf_token f) = Ok tt ->
  let r := created_recipe (db w) f (snd (create_main_image w f)) cu in
  exists w' irows srows,
    recipe_create w sess f
      = (w', sess,
         TemplateResponse
           (recipe_detail_html r (select_ingredients (db w') (Recipe.id r))
              (select_steps (db w') (Recipe.id r))
              (select_tags (db w') (Recipe.id r)) (Some cu) None))
    /\ recipes (db w') = (recipes (db w) ++ [r])%list
    /\ recipe_seq (db w') = Recipe.id r
    /\ users (db w') = users (db w)
    /\ ingredients (db w') = (ingredients (db w) ++ irows)%list
    /\ Forall (fun i => Ingredient.recipe_id i = Recipe.id r) irows
    /\ map Ingredient.name irows
       = filter truthy (map strip (CreateForm.ingredients_name f))
    /\ map Ingredient.order_no irows
       = kept_positions 0 (map (fun n => truthy (strip n))
                               (CreateForm.ingredients_name f))
    /\ steps (db w') = (steps (db w) ++ srows)%list
    /\ Forall (fun s => Step.recipe_id s = Recipe.id r) srows
    /\ map Step.order_no srows
       = kept_positions 0
           (map (step_kept f)
                (count_from 0 (Nat.max (List.length (CreateForm.steps_body f))
                                       (List.length (CreateForm.steps_image f)))))
    /\ map Step.body srows
       = map (step_body_at f)
           (kept_positions 0
              (map (step_kept f)
                   (count_from 0 (Nat.max (List.length (CreateForm.steps_body f))
                                          (List.length (CreateForm.steps_image f)))))).
Proof.
  intros Hu Hv r.
  destruct (recipe_create_runs w sess f cu Hu Hv)
    as [w' [Heq [Hrec [Hing [Hst [Husers Hseq]]]]]].
  fold r in Heq, Hrec, Hing, Hst, Hseq.
  match type of Hst with
  | _ = steps (db (create_steps (set_db ?W1 (create_ingredients ?D ?R ?A ?U ?I ?N))
                                ?R ?F ?I ?M)) =>
      destruct (create_steps_rows (set_db W1 (create_ingredients D R A U I N))
                                  R F I M) as [srows [Hs [Fs [Os Bs]]]];
      destruct (create_ingredients_frame D R A U N I) as [_ [_ [_ [Hsteps _]]]];
      destruct (create_ingredients_rows D R A U N I) as [irows [Hi [Fi [Ni Oi]]]]
  end.
  exists w', irows, srows.
  split; [exact Heq|]. split; [exact Hrec|]. split; [exact Hseq|].
  split; [exact Husers|].
  split; [rewrite Hing; exact Hi|].
  split; [exact Fi|]. split; [exact Ni|]. split; [exact Oi|].
  split; [rewrite Hst, Hs; f_equal; exact Hsteps|].
  split; [exact Fs|]. split; [exact Os|exact Bs].
Qed.

(** C7 (as amended).  For a create by a logged-in user with a valid token,
    on a database whose rows refer to no recipe id above the AUTOINCREMENT
    counter and whose counter is not exhausted (it is below 2^63 - 1, so
    the new id is one SQLite can store and bind), the page returned, and
    the detail page fetched right after, list the ingredients whose name is not blank and the steps that have a
    body or an uploaded file, in the order submitted; each row's order_no
    is the position of its entry in the submitted list, so the order_no
    values are strictly increasing, and they are 0, 1, 2, ... when no
    submitted entry is dropped. *)
Theorem create_then_fetch_keeps_submitted_order :
  forall (w : World) (sess : Session) (f : CreateForm.t) (cu : User.t),
    get_current_user (db w) sess = Some cu ->
    verify_csrf sess (CreateForm.csrf_token f) = Ok tt ->
    db_wf (db w) ->
    recipe_seq (db w) < 9223372036854775807 ->
    let names := CreateForm.ingredients_name f in
    let ing_keep := map (fun n => truthy (strip n)) names in
    let max_len := Nat.max (List.length (CreateForm.steps_body f))
                           (List.length (CreateForm.steps_image f)) in
    let step_keep := map (step_kept f) (count_from 0 max_len) in
    exists w' r ings steps tags,
      recipe_create w sess f
        = (w', sess,
           TemplateResponse (recipe_detail_html r ings steps tags (Some cu) None))
      /\ map Ingredient.name ings = filter truthy (map strip names)
      /\ map Ingredient.order_no ings = kept_positions 0 ing_keep
      /\ map Step.body steps = map (step_body_at f) (kept_positions 0 step_keep)
      /\ map Step.order_no steps = kept_positions 0 step_keep
      /\ StronglySorted Z.lt (map Ingredient.order_no ings)
      /\ StronglySorted Z.lt (map Step.order_no steps)
      /\ (forallb (fun b => b) ing_keep = true ->
          map Ingredient.order_no ings = count_from 0 (List.length names))
      /\ (forallb (fun b => b) step_keep = true ->
          map Step.order_no steps = count_from 0 max_len)
      /\ option_map Recipe.id (page_recipe (snd (recipe_detail w' sess (Recipe.id r))))
         = Some (Recipe.id r)
      /\ page_ingredients (snd (recipe_detail w' sess (Recipe.id r))) = ings
      /\ page_steps (snd (recipe_detail w' sess (Recipe.id r))) = steps.
Proof.
  intros w sess f cu Hu Hv [Hwr [Hwi Hws]] Hfull names ing_keep max_len step_keep.
  subst step_keep max_len ing_keep names.
  destruct (recipe_create_rows w sess f cu Hu Hv)
    as [w' [irows [srows [Heq [Hrec [Hseq [Husers
         [Hi [Fi [Ni [Oi [Hs [Fs [Os Bs]]]]]]]]]]]]]].
  set (r := created_recipe (db w) f (snd (create_main_image w f)) cu) in *.
  assert (Hrid : recipe_seq (db w) < Recipe.id r).
  { subst r. rewrite recreated_recipe_id. lia. }
  assert (Hrid2 : next_rowid (map Recipe.id (recipes (db w))) <= Recipe.id r).
  { subst r. rewrite recreated_recipe_id. lia. }
  assert (Eing : select_ingredients (db w') (Recipe.id r) = irows).
  { unfold select_ingredients. rewrite Hi.
    rewrite (filter_new_rows Ingredient.recipe_id).
    - apply order_by_sorted. rewrite Oi. apply kept_positions_sorted.
    - eapply Forall_impl; [|exact Hwi]. simpl. intros; lia.
    - exact Fi. }
  assert (Est : select_steps (db w') (Recipe.id r) = srows).
  { unfold select_steps. rewrite Hs.
    rewrite (filter_new_rows Step.recipe_id).
    - apply order_by_sorted. rewrite Os. apply kept_positions_sorted.
    - eapply Forall_impl; [|exact Hws]. simpl. intros; lia.
    - exact Fs. }
  exists w', r, irows, srows, (select_tags (db w') (Recipe.id r)).
  rewrite <- Eing at 1. rewrite <- Est at 1.
  split; [exact Heq|].
  split; [exact Ni|]. split; [exact Oi|]. split; [exact Bs|]. split; [exact Os|].
  split; [rewrite Oi; apply kept_positions_sorted|].
  split; [rewrite Os; apply kept_positions_sorted|].
  split.
  { intros Hall. rewrite Oi, (kept_positions_all 0 _ Hall).
    rewrite length_map. reflexivity. }
  split.
  { intros Hall. rewrite Os, (kept_positions_all 0 _ Hall).
    rewrite length_map, count_from_length. reflexivity. }
  (* the detail page fetched next *)
  assert (Hrange : in_int64 (Recipe.id r) = true).
  { pose proof (next_rowid_le (map Recipe.id (recipes (db w))) (recipe_seq (db w)))
      as Hle.
    rewrite Forall_map in Hle. specialize (Hle Hwr).
    pose proof (next_rowid_pos (map Recipe.id (recipes (db w)))) as Hpos.
    assert (Hid : Recipe.id r
                  = Z.max (next_rowid (map Recipe.id (recipes (db w))))
                          (recipe_seq (db w) + 1))
      by (subst r; apply recreated_recipe_id).
    unfold in_int64. apply andb_true_intro. split.
    - apply Z.leb_le. lia.
    - apply Z.leb_le. lia. }
  assert (Hget : get_recipe (db w') (Recipe.id r) = Ok (Some r)).
  { rewrite (get_recipe_in_range _ _ Hrange). f_equal.
    rewrite Hrec. apply find_appended; [|reflexivity].
    pose proof (next_rowid_gt (map Recipe.id (recipes (db w)))) as Hn.
    rewrite Forall_map in Hn. eapply Forall_impl; [|exact Hn].
    cbv beta. intros a Ha. lia. }
  destruct (verify_csrf_Ok_inv sess _ tt Hv) as [Htok [Hne _]].
  unfold recipe_detail, _ensure_csrf. rewrite Htok. simpl truthy_opt.
  apply truthy_true_iff in Hne. rewrite Hne. rewrite Hget.
  simpl. split; [reflexivity|]. split.
  - exact Eing.
  - exact Est.
Qed.

(* ----------------------------------------------------------------- *)
(** *** The database stays well formed *)

Lemma db_wf_empty : db_wf empty_db.
Proof. unfold db_wf. simpl. repeat split; constructor. Qed.

Lemma db_wf_same_tables (d d' : DB) :
  recipes d' = recipes d -> recipe_seq d' = recipe_seq d ->
  ingredients d' = ingredients d -> steps d' = steps d ->
  db_wf d -> db_wf d'.
Proof.
  unfold db_wf. intros -> -> -> ->. auto.
Qed.

Lemma Forall_filter {A : Type} (Q : A -> Prop) (g : A -> bool) (l : list A) :
  Forall Q l -> Forall Q (filter g l).
Proof.
  intros H. apply Forall_forall. intros x Hx. apply filter_In in Hx.
  destruct Hx as [Hx _]. rewrite Forall_forall in H. apply H. exact Hx.
Qed.

Lemma update_recipe_bound (d : DB) (r : Recipe.t) (B : Z) :
  Recipe.id r <= B ->
  Forall (fun x => Recipe.id x <= B) (recipes d) ->
  Forall (fun x => Recipe.id x <= B) (recipes (update_recipe d r)).
Proof.
  intros Hr H. unfold update_recipe. simpl.
  apply Forall_forall. intros x Hx. apply in_map_iff in Hx.
  destruct Hx as [x0 [Hx0 Hin]].
  destruct (Recipe.id x0 =? Recipe.id r); subst x; [exact Hr|].
  rewrite Forall_forall in H. apply H. exact Hin.
Qed.

Lemma get_recipe_bound (d : DB) (rid : Z) (r0 : Recipe.t) :
  db_wf d -> get_recipe d rid = Ok (Some r0) -> rid <= recipe_seq d.
Proof.
  intros [Hw _] Hr. pose proof (get_recipe_id d rid r0 Hr) as Hid.
  apply get_recipe_Ok_inv in Hr. destruct Hr as [_ Hr].
  apply find_some in Hr. destruct Hr as [Hin _].
  rewrite Forall_forall in Hw. specialize (Hw r0 Hin). lia.
Qed.

Lemma recipe_create_wf (w : World) (sess : Session) (f : CreateForm.t) :
  db_wf (db w) -> db_wf (db (fst (fst (recipe_create w sess f)))).
Proof.
  intros Hwf.
  destruct (get_current_user (db w) sess) as [cu|] eqn:Hu.
  2:{ unfold recipe_create. rewrite Hu. exact Hwf. }
  destruct (verify_csrf sess (CreateForm.csrf_token f)) as [[]|e] eqn:Hv.
  2:{ unfold recipe_create. rewrite Hu, Hv. exact Hwf. }
  destruct (recipe_create_rows w sess f cu Hu Hv)
    as [w' [irows [srows [Heq [Hrec [Hseq [_ [Hi [Fi [_ [_ [Hs [Fs _]]]]]]]]]]]]].
  rewrite Heq. simpl fst.
  set (r := created_recipe (db w) f (snd (create_main_image w f)) cu) in *.
  assert (Hrid : recipe_seq (db w) < Recipe.id r).
  { subst r. rewrite recreated_recipe_id. lia. }
  destruct Hwf as [Hwr [Hwi Hws]].
  unfold db_wf. rewrite Hrec, Hseq, Hi, Hs. repeat split.
  - apply Forall_app. split.
    + eapply Forall_impl; [|exact Hwr]. cbv beta. intros; lia.
    + constructor; [lia|constructor].
  - apply Forall_app. split.
    + eapply Forall_impl; [|exact Hwi]. cbv beta. intros; lia.
    + eapply Forall_impl; [|exact Fi]. cbv beta. intros; lia.
  - apply Forall_app. split.
    + eapply Forall_impl; [|exact Hws]. cbv beta. intros; lia.
    + eapply Forall_impl; [|exact Fs]. cbv beta. intros; lia.
Qed.

Lemma recipe_update_wf (w : World) (sess : Session) (rid : Z) (f : UpdateForm.t) :
  db_wf (db w) -> db_wf (db (fst (fst (recipe_update w sess rid f)))).
Proof.
  intros Hwf.
  destruct (get_current_user (db w) sess) as [cu|] eqn:Hu.
  2:{ unfold recipe_update. rewrite Hu. exact Hwf. }
  destruct (verify_csrf sess (UpdateForm.csrf_token f)) as [[]|e] eqn:Hv.
  2:{ unfold recipe_update. rewrite Hu, Hv. exact Hwf. }
  destruct (get_recipe (db w) rid) as [[r0|]|e] eqn:Hr.
  2:{ unfold recipe_update. rewrite Hu, Hv, Hr. exact Hwf. }
  2:{ unfold recipe_update. rewrite Hu, Hv, Hr. exact Hwf. }
  destruct (opt_Z_eqb (Recipe.author_id r0) (User.id cu)) eqn:Ho.
  2:{ unfold recipe_update. rewrite Hu, Hv, Hr, Ho. exact Hwf. }
  pose proof (get_recipe_bound (db w) rid r0 Hwf Hr) as Hb.
  pose proof (get_recipe_id (db w) rid r0 Hr) as Hid.
  destruct (recipe_update_runs w sess rid f cu r0 Hu Hv Hr Ho)
    as [w' [Heq [Hrec [Hing [Hseq [srows [Hs Fs]]]]]]].
  rewrite Heq. simpl fst.
  match type of Hing with _ = ingredients (update_ingredients ?D ?R ?A ?I ?N) =>
    destruct (update_ingredients_rows D R A N I) as [irows [Hi Fi]]
  end.
  rewrite Hi in Hing. simpl in Hing.
  destruct Hwf as [Hwr [Hwi Hws]].
  unfold db_wf. rewrite Hrec, Hseq, Hing, Hs. repeat split.
  - apply update_recipe_bound; [simpl; lia|exact Hwr].
  - apply Forall_app. split.
    + apply Forall_filter. exact Hwi.
    + eapply Forall_impl; [|exact Fi]. cbv beta. intros; lia.
  - apply Forall_app. split.
    + apply Forall_filter. exact Hws.
    + eapply Forall_impl; [|exact Fs]. cbv beta. intros; lia.
Qed.

Lemma recipe_delete_wf (w : World) (sess : Session) (rid : Z) (tok : string) :
  db_wf (db w) -> db_wf (db (fst (fst (recipe_delete w sess rid tok)))).
Proof.
  intros Hwf. unfold recipe_delete.
  destruct (verify_csrf sess tok); [|exact Hwf].
  destruct (_require_owner (db w) sess rid) as [[r user]|e]; [|exact Hwf].
  destruct Hwf as [Hwr [Hwi Hws]].
  unfold db_wf. simpl. repeat split; apply Forall_filter; assumption.
Qed.

(** Every mutating request, and every view of a recipe, keeps the database
    well formed; the empty database is well formed. *)
Lemma dispatch_keeps_db_wf (w : World) (sess : Session) (m : Mutation) :
  db_wf (db w) -> db_wf (db (fst (fst (dispatch w sess m)))).
Proof.
  intros Hwf. destruct m; simpl.
  - unfold signup. destruct (verify_csrf sess csrf_token); [|exact Hwf].
    destruct (find_user_by_email (db w) email).
    + pose proof (ensure_csrf_db w sess) as [Hd _].
      destruct (_ensure_csrf w sess) as [w1 s1]. simpl in *. rewrite Hd. exact Hwf.
    + simpl. exact Hwf.
  - unfold login. destruct (verify_csrf sess csrf_token); [|exact Hwf].
    pose proof (ensure_csrf_db w sess) as [Hd _].
    destruct (find_user_by_email (db w) email) as [u|].
    + destruct (negb (pwd_verify password (User.password_hash u))); [|exact Hwf].
      destruct (_ensure_csrf w sess) as [w1 s1]. simpl in *. rewrite Hd. exact Hwf.
    + destruct (_ensure_csrf w sess) as [w1 s1]. simpl in *. rewrite Hd. exact Hwf.
  - unfold logout. destruct (verify_csrf sess csrf_token); exact Hwf.
  - apply recipe_create_wf. exact Hwf.
  - apply recipe_update_wf. exact Hwf.
  - apply recipe_delete_wf. exact Hwf.
  - unfold favorite_recipe.
    destruct (get_current_user (db w) sess) as [u|]; [|exact Hwf].
    destruct (verify_csrf sess csrf_token); [|exact Hwf].
    destruct (sqlite_bind rid); [|exact Hwf].
    simpl. destruct (_is_favorited (db w) (User.id u) rid); exact Hwf.
  - unfold unfavorite_recipe.
    destruct (get_current_user (db w) sess) as [u|]; [|exact Hwf].
    destruct (verify_csrf sess csrf_token); [|exact Hwf].
    destruct (sqlite_bind rid); exact Hwf.
Qed.

Lemma recipe_detail_keeps_db_wf (w : World) (sess : Session) (rid : Z) :
  db_wf (db w) -> db_wf (db (fst (fst (recipe_detail w sess rid)))).
Proof.
  intros Hwf. unfold recipe_detail.
  pose proof (ensure_csrf_db w sess) as [Hd _].
  destruct (_ensure_csrf w sess) as [w1 s1]. simpl in Hd.
  destruct (get_recipe (db w1) rid) as [[r0|]|e] eqn:Hr; simpl; rewrite Hd in *;
    [|exact Hwf|exact Hwf].
  pose proof (get_recipe_bound (db w) rid r0 Hwf Hr) as Hb.
  pose proof (get_recipe_id (db w) rid r0 Hr) as Hid.
  destruct Hwf as [Hwr [Hwi Hws]]. unfold db_wf. simpl. repeat split; try assumption.
  apply (update_recipe_bound (db w)
           (Recipe.mk (Recipe.id r0) (Recipe.title r0) (Recipe.description r0)
                      (Recipe.main_image r0) (Recipe.author_id r0)
                      (Recipe.view_count r0 + 1))); [simpl; lia|exact Hwr].
Qed.

(* ----------------------------------------------------------------- *)
(** *** Cropping inside the image *)

Context {L : PillowLaws P}.

Lemma crop_resize_inside (im : image) (x y w h : Z) :
  rect_inside (im_width im) (im_height im) (x, y, w, h) ->
  exists out, crop_resize im x y w h = Some out
              /\ im_width out = 1200 /\ im_height out = 675.
Proof.
  unfold rect_inside. intros [Hx [Hy [Hw [Hh [Hxw Hyh]]]]].
  assert (Hcrop : exists im1, crop im (x, y, x + w, y + h) = Some im1
                    /\ im_width im1 = x + w - x /\ im_height im1 = y + h - y)
    by (apply crop_inside; lia).
  destruct Hcrop as [im1 [Hc [Hw1 Hh1]]].
  assert (Hres : exists out, resize im1 (1200, 675) = Some out
                   /\ im_width out = 1200 /\ im_height out = 675)
    by (apply resize_size; lia).
  destruct Hres as [out [Hr [Hwo Hho]]].
  exists out. unfold crop_resize. rewrite Hc, Hr. auto.
Qed.

(** C5 (as amended).  For an image that decodes and a crop rectangle whose
    four components are finite numbers and whose origin, truncated and
    floored at 0, lies inside the downscaled image (x < width, y < height):
    the rectangle the code crops to has x, y >= 0 and
    w = max(1, min(w, width - x)), h = max(1, min(h, height - y)), it lies
    entirely within the image, the crop-and-resize raises nothing and the
    image it yields is exactly 1200 x 675; that image, encoded, is the file
    stored, and [save_step_image] yields the same image from the tuple of
    [_crop_tuple_at].  (Pillow is taken to crop a box inside the image to the box's
    size and to resize a non-empty image to the size asked for.) *)
Theorem crop_with_origin_inside_gives_1200x675 :
  forall (data : bytes) (im : image) (fx fy fw fh : pyfloat) (ix iy iw ih : Z),
    open_downscaled data = Some im ->
    py_int fx = Some ix -> py_int fy = Some iy ->
    py_int fw = Some iw -> py_int fh = Some ih ->
    Z.max 0 ix < im_width im -> Z.max 0 iy < im_height im ->
    main_crop_rect (im_width im) (im_height im) ix iy iw ih
      = (Z.max 0 ix, Z.max 0 iy,
         Z.max 1 (Z.min iw (im_width im - Z.max 0 ix)),
         Z.max 1 (Z.min ih (im_height im - Z.max 0 iy)))
    /\ rect_inside (im_width im) (im_height im)
                   (main_crop_rect (im_width im) (im_height im) ix iy iw ih)
    /\ exists out,
         main_image_try data (Some fx) (Some fy) (Some fw) (Some fh) = Some out
         /\ step_image_try data (Some (Z.max 0 ix)) (Some (Z.max 0 iy))
                           (Some (Z.max 1 iw)) (Some (Z.max 1 ih)) = Some out
         /\ im_width out = 1200 /\ im_height out = 675
         /\ (forall (w : World) (up : UploadFile) (enc : bytes),
               content up = data -> save_webp out = Some enc ->
               read_media
                 (fst (save_main_image w up (Some fx) (Some fy) (Some fw) (Some fh)))
                 (uuid4_hex (entropy w) ++ ".webp") = Some enc).
Proof.
  intros data im fx fy fw fh ix iy iw ih Hopen Hx Hy Hw Hh Hox Hoy.
  destruct (main_crop_rect_inside (im_width im) (im_height im) ix iy iw ih Hox Hoy)
    as [Hrect Hin].
  split; [exact Hrect|]. split; [exact Hin|].
  assert (Htry : exists out,
             main_image_try data (Some fx) (Some fy) (Some fw) (Some fh) = Some out
             /\ im_width out = 1200 /\ im_height out = 675).
  { unfold main_image_try. rewrite Hopen, Hx, Hy, Hw, Hh.
    destruct (main_crop_rect (im_width im) (im_height im) ix iy iw ih)
      as [[[x y] w] h].
    apply crop_resize_inside. exact Hin. }
  destruct Htry as [out [Ht [Hwo Hho]]].
  exists out. split; [exact Ht|].
  split; [rewrite (step_try_agrees_with_main data fx fy fw fh ix iy iw ih
                     Hx Hy Hw Hh); exact Ht|].
  split; [exact Hwo|]. split; [exact Hho|].
  intros w up enc Hc Hs. unfold save_main_image. rewrite Hc, Ht.
  unfold save_or_keep. rewrite Hs. apply read_media_written.
Qed.

End Properties.

(* ================================================================= *)
(** ** Further properties of the handlers *)

Section MoreProperties.

Context {P : Platform}.

(* ----------------------------------------------------------------- *)
(** *** ORDER BY *)

Lemma insert_by_In {A : Type} (before : A -> A -> bool) (x y : A) (l : list A) :
  In y (insert_by before x l) <-> y = x \/ In y l.
Proof.
  induction l as [|z l IH]; simpl.
  - intuition.
  - destruct (before x z); simpl; [intuition|]. rewrite IH. intuition.
Qed.

Lemma insert_by_perm {A : Type} (before : A -> A -> bool) (x : A) (l : list A) :
  Permutation (insert_by before x l) (x :: l).
Proof.
  induction l as [|z l IH]; simpl.
  - apply Permutation_refl.
  - destruct (before x z); [apply Permutation_refl|].
    eapply Permutation_trans; [apply perm_skip; exact IH|apply perm_swap].
Qed.

Lemma sort_by_perm {A : Type} (before : A -> A -> bool) (l : list A) :
  Permutation (fold_right (insert_by before) [] l) l.
Proof.
  induction l as [|x l IH]; simpl; [constructor|].
  eapply Permutation_trans; [apply insert_by_perm|].
  apply perm_skip. exact IH.
Qed.

Lemma insert_by_sorted {A : Type} (before : A -> A -> bool) (x : A) (l : list A) :
  (forall a b, before a b = false -> before b a = true) ->
  (forall a b c, before a b = true -> before b c = true -> before a c = true) ->
  StronglySorted (fun a b => before a b = true) l ->
  StronglySorted (fun a b => before a b = true) (insert_by before x l).
Proof.
  intros Htot Htrans. induction l as [|z l IH]; simpl; intros Hs.
  - constructor; constructor.
  - inversion Hs as [|? ? Hs' Hall]; subst.
    destruct (before x z) eqn:E.
    + constructor; [exact Hs|]. constructor; [exact E|].
      eapply Forall_impl; [|exact Hall]. cbv beta. intros b Hb.
      eapply Htrans; eassumption.
    + constructor; [apply IH; exact Hs'|].
      apply Forall_forall. intros b Hb. apply insert_by_In in Hb.
      destruct Hb as [->|Hb]; [apply Htot; exact E|].
      rewrite Forall_forall in Hall. apply Hall. exact Hb.
Qed.

Lemma sort_by_sorted {A : Type} (before : A -> A -> bool) (l : list A) :
  (forall a b, before a b = false -> before b a = true) ->
  (forall a b c, before a b = true -> before b c = true -> before a c = true) ->
  StronglySorted (fun a b => before a b = true) (fold_right (insert_by before) [] l).
Proof.
  intros Htot Htrans. induction l as [|x l IH]; simpl; [constructor|].
  apply insert_by_sorted; assumption.
Qed.

Lemma StronglySorted_weaken {A : Type} (R Q : A -> A -> Prop) (l : list A) :
  (forall a b, R a b -> Q a b) -> StronglySorted R l -> StronglySorted Q l.
Proof.
  intros H Hs. induction Hs as [|a l Hs IH Hall]; constructor; [exact IH|].
  eapply Forall_impl; [|exact Hall]. cbv beta. intros b. apply H.
Qed.

Lemma order_by_ascending {A : Type} (key : A -> Z) (l : list A) :
  ascending key (order_by key l).
Proof.
  unfold ascending, order_by.
  apply StronglySorted_weaken
    with (R := fun a b => (fun a b => key a <=? key b) a b = true).
  - cbv beta. intros a b H. apply Z.leb_le. exact H.
  - apply sort_by_sorted; cbv beta.
    + intros a b H. apply Z.leb_gt in H. apply Z.leb_le. lia.
    + intros a b c H1 H2. apply Z.leb_le in H1, H2. apply Z.leb_le. lia.
Qed.

Lemma order_by_desc_descending {A : Type} (key : A -> Z) (l : list A) :
  descending key (order_by_desc key l).
Proof.
  unfold descending, order_by_desc.
  apply StronglySorted_weaken
    with (R := fun a b => (fun a b => key b <=? key a) a b = true).
  - cbv beta. intros a b H. apply Z.leb_le. exact H.
  - apply sort_by_sorted; cbv beta.
    + intros a b H. apply Z.leb_gt in H. apply Z.leb_le. lia.
    + intros a b c H1 H2. apply Z.leb_le in H1, H2. apply Z.leb_le. lia.
Qed.

Lemma order_by_perm {A : Type} (key : A -> Z) (l : list A) :
  Permutation (order_by key l) l.
Proof. apply sort_by_perm. Qed.

Lemma order_by_desc_perm {A : Type} (key : A -> Z) (l : list A) :
  Permutation (order_by_desc key l) l.
Proof. apply sort_by_perm. Qed.

(** X1.  Whatever the database holds, the ingredients and the steps that
    the detail page of a recipe shows, and those its edit form shows, are
    exactly the Ingredient and Step rows of that recipe (each once, as a
    permutation) in ascending order of order_no; the detail page of a
    recipe that exists is rendered, and the edit form is rendered for its
    author. *)
Theorem fetched_rows_are_the_recipe_rows_in_order :
  forall (w : World) (sess : Session) (rid : Z),
    (forall r ings stps tags cu fav,
        snd (recipe_detail w sess rid)
          = TemplateResponse (recipe_detail_html r ings stps tags cu fav) ->
        Permutation ings
          (filter (fun i => Ingredient.recipe_id i =? rid) (ingredients (db w)))
        /\ ascending Ingredient.order_no ings
        /\ Permutation stps
             (filter (fun s => Step.recipe_id s =? rid) (steps (db w)))
        /\ ascending Step.order_no stps)
    /\ (forall r ings stps tags_csv tok user,
        snd (recipe_edit_form w sess rid)
          = TemplateResponse (recipe_edit_html r ings stps tags_csv tok user) ->
        Permutation ings
          (filter (fun i => Ingredient.recipe_id i =? rid) (ingredients (db w)))
        /\ ascending Ingredient.order_no ings
        /\ Permutation stps
             (filter (fun s => Step.recipe_id s =? rid) (steps (db w)))
        /\ ascending Step.order_no stps)
    /\ (forall r0,
        get_recipe (db w) rid = Ok (Some r0) ->
        (exists r ings stps tags cu fav,
            snd (recipe_detail w sess rid)
              = TemplateResponse (recipe_detail_html r ings stps tags cu fav))
        /\ (forall user,
              get_current_user (db w) sess = Some user ->
              opt_Z_eqb (Recipe.author_id r0) (User.id user) = true ->
              exists ings stps tags_csv tok,
                snd (recipe_edit_form w sess rid)
                  = TemplateResponse
                      (recipe_edit_html r0 ings stps tags_csv tok user))).
Proof.
  intros w sess rid.
  pose proof (ensure_csrf_db w sess) as [Hd Hid].
  split; [|split].
  - intros r ings stps tags cu fav. unfold recipe_detail.
    destruct (_ensure_csrf w sess) as [w1 s1]. simpl in Hd.
    destruct (get_recipe (db w1) rid) as [[r0|]|e]; simpl; try discriminate.
    intros H. injection H as _ Hi Hs _ _ _. subst ings stps.
    unfold select_ingredients, select_steps. simpl. rewrite Hd.
    split; [apply order_by_perm|]. split; [apply order_by_ascending|].
    split; [apply order_by_perm|apply order_by_ascending].
  - intros r ings stps tags_csv tok user. unfold recipe_edit_form.
    destruct (_ensure_csrf w sess) as [w1 s1]. simpl in Hd.
    destruct (_require_owner (db w1) s1 rid) as [[r0 u]|e]; simpl;
      try discriminate.
    intros H. injection H as _ Hi Hs _ _ _. subst ings stps.
    unfold select_ingredients, select_steps. rewrite Hd.
    split; [apply order_by_perm|]. split; [apply order_by_ascending|].
    split; [apply order_by_perm|apply order_by_ascending].
  - intros r0 Hr. split.
    + unfold recipe_detail.
      destruct (_ensure_csrf w sess) as [w1 s1]. simpl in Hd. rewrite Hd, Hr.
      simpl. repeat eexists.
    + intros user Hu Ho. unfold recipe_edit_form.
      assert (Hu1 : get_current_user (db (fst (_ensure_csrf w sess)))
                                     (snd (_ensure_csrf w sess)) = Some user).
      { unfold get_current_user in *. rewrite Hid, Hd. exact Hu. }
      destruct (_ensure_csrf w sess) as [w1 s1]. simpl in Hd, Hu1.
      unfold _require_owner, _require_login, _get_recipe_or_404.
      rewrite Hu1, Hd, Hr, Ho. simpl. repeat eexists.
Qed.

(* ----------------------------------------------------------------- *)
(** *** Favorites *)

Lemma is_favorited_app (d : DB) (uid rid u r : Z) :
  _is_favorited (add_favorite d uid rid) u r
  = _is_favorited d u r || ((uid =? u) && (rid =? r)).
Proof.
  unfold _is_favorited, add_favorite. simpl. rewrite existsb_app. simpl.
  rewrite orb_false_r. reflexivity.
Qed.

Lemma fav_count_app (d : DB) (uid rid r : Z) :
  _fav_count (add_favorite d uid rid) r
  = _fav_count d r + (if rid =? r then 1 else 0).
Proof.
  unfold _fav_count, add_favorite, len. simpl. rewrite filter_app, length_app.
  simpl. destruct (rid =? r); simpl; lia.
Qed.

(** X2.  For a logged-in user with the session's token and a recipe id
    within 64 bits, favoriting a recipe leaves it favorited, raises the recipe's favorite count by one when it
    was not favorited and by nothing when it was, changes the favorite
    state of no other (user, recipe) pair, and favoriting a second time
    changes nothing. *)
Theorem favoriting_twice_is_favoriting_once :
  forall (w : World) (sess : Session) (rid : Z) (tok : string) (user : User.t),
    get_current_user (db w) sess = Some user ->
    sess_csrf_token sess = Some tok -> tok <> "" -> is_ascii tok = true ->
    in_int64 rid = true ->
    let w1 := fst (fst (favorite_recipe w sess rid tok)) in
    _is_favorited (db w1) (User.id user) rid = true
    /\ _fav_count (db w1) rid
       = _fav_count (db w) rid
         + (if _is_favorited (db w) (User.id user) rid then 0 else 1)
    /\ (forall u r : Z, u <> User.id user \/ r <> rid ->
          _is_favorited (db w1) u r = _is_favorited (db w) u r)
    /\ favorite_recipe w1 sess rid tok
       = (w1, sess, RedirectResponse ("/recipes/" ++ str_of_int rid) 303).
Proof.
  intros w sess rid tok user Hu Hs Hne Ha Hrid w1.
  pose proof (verify_csrf_accepts sess tok Hs Hne Ha) as Hv.
  pose proof (sqlite_bind_in_range rid Hrid) as Hb.
  assert (E1 : w1 = set_db w (if _is_favorited (db w) (User.id user) rid
                              then db w
                              else add_favorite (db w) (User.id user) rid)).
  { subst w1. unfold favorite_recipe. rewrite Hu, Hv, Hb. reflexivity. }
  assert (Hfav : _is_favorited (db w1) (User.id user) rid = true).
  { rewrite E1. simpl.
    destruct (_is_favorited (db w) (User.id user) rid) eqn:E; [exact E|].
    rewrite is_favorited_app, !Z.eqb_refl. apply orb_true_r. }
  split; [exact Hfav|]. split; [|split].
  - rewrite E1. simpl.
    destruct (_is_favorited (db w) (User.id user) rid); [lia|].
    rewrite fav_count_app, Z.eqb_refl. reflexivity.
  - intros u r Hd. rewrite E1. simpl.
    destruct (_is_favorited (db w) (User.id user) rid); [reflexivity|].
    rewrite is_favorited_app.
    destruct (User.id user =? u) eqn:Eu; destruct (rid =? r) eqn:Er; simpl;
      rewrite ?orb_false_r; try reflexivity.
    apply Z.eqb_eq in Eu, Er. lia.
  - assert (Hu1 : get_current_user (db w1) sess = Some user).
    { rewrite E1. destruct (_is_favorited (db w) (User.id user) rid); exact Hu. }
    unfold favorite_recipe. rewrite Hu1, Hv, Hb, Hfav. rewrite set_db_same.
    reflexivity.
Qed.

Lemma filter_not_favorited (d : DB) (uid rid : Z) :
  _is_favorited d uid rid = false ->
  filter (fun fv => negb ((Favorite.user_id fv =? uid)
                          && (Favorite.recipe_id fv =? rid)))
         (favorites d) = favorites d.
Proof.
  unfold _is_favorited. induction (favorites d) as [|f l IH]; simpl;
    [reflexivity|].
  intros H. apply orb_false_elim in H. destruct H as [H1 H2].
  rewrite H1. simpl. rewrite (IH H2). reflexivity.
Qed.

Lemma is_favorited_filter (l : list Favorite.t) (uid rid u r : Z) :
  existsb (fun f => (Favorite.user_id f =? u) && (Favorite.recipe_id f =? r))
    (filter (fun fv => negb ((Favorite.user_id fv =? uid)
                             && (Favorite.recipe_id fv =? rid))) l)
  = existsb (fun f => (Favorite.user_id f =? u) && (Favorite.recipe_id f =? r)) l
    && negb ((uid =? u) && (rid =? r)).
Proof.
  apply eq_iff_eq_true.
  rewrite andb_true_iff, negb_true_iff, !existsb_exists. split.
  - intros [f [Hin Hp]]. apply filter_In in Hin. destruct Hin as [Hin Hq].
    apply andb_prop in Hp. destruct Hp as [H1 H2].
    apply Z.eqb_eq in H1, H2. split.
    + exists f. split; [exact Hin|]. rewrite H1, H2, !Z.eqb_refl. reflexivity.
    + apply negb_true_iff in Hq. rewrite H1, H2 in Hq.
      rewrite (Z.eqb_sym uid u), (Z.eqb_sym rid r). exact Hq.
  - intros [[f [Hin Hp]] Hn]. exists f. split; [|exact Hp].
    apply filter_In. split; [exact Hin|].
    apply andb_prop in Hp. destruct Hp as [H1 H2].
    apply Z.eqb_eq in H1, H2. rewrite H1, H2.
    rewrite (Z.eqb_sym u uid), (Z.eqb_sym r rid), Hn. reflexivity.
Qed.

Lemma db_eta (d : DB) :
  mkDB (users d) (recipes d) (recipe_seq d) (ingredients d) (steps d) (tags d)
       (recipe_tags d) (favorites d) = d.
Proof. destruct d; reflexivity. Qed.

(** X3.  For a logged-in user with the session's token and a recipe id
    within 64 bits, unfavoriting redirects to the recipe with 303, leaves no Favorite row for that (user, recipe) pair and changes
    the favorite state of no other pair; favoriting a recipe that was not
    favorited and then unfavoriting it gives back the database as it was. *)
Theorem unfavorite_removes_the_pair :
  forall (w : World) (sess : Session) (rid : Z) (tok : string) (user : User.t),
    get_current_user (db w) sess = Some user ->
    sess_csrf_token sess = Some tok -> tok <> "" -> is_ascii tok = true ->
    in_int64 rid = true ->
    let w2 := fst (fst (unfavorite_recipe w sess rid tok)) in
    snd (unfavorite_recipe w sess rid tok)
      = RedirectResponse ("/recipes/" ++ str_of_int rid) 303
    /\ _is_favorited (db w2) (User.id user) rid = false
    /\ (forall u r : Z, u <> User.id user \/ r <> rid ->
          _is_favorited (db w2) u r = _is_favorited (db w) u r)
    /\ (_is_favorited (db w) (User.id user) rid = false ->
        fst (fst (unfavorite_recipe (fst (fst (favorite_recipe w sess rid tok)))
                                    sess rid tok)) = w).
Proof.
  intros w sess rid tok user Hu Hs Hne Ha Hrid w2.
  pose proof (verify_csrf_accepts sess tok Hs Hne Ha) as Hv.
  pose proof (sqlite_bind_in_range rid Hrid) as Hb.
  assert (E2 : unfavorite_recipe w sess rid tok
               = (set_db w (set_favorites (db w)
                    (filter (fun fv => negb ((Favorite.user_id fv =? User.id user)
                                             && (Favorite.recipe_id fv =? rid)))
                            (favorites (db w)))),
                  sess, RedirectResponse ("/recipes/" ++ str_of_int rid) 303)).
  { unfold unfavorite_recipe. rewrite Hu, Hv, Hb. reflexivity. }
  subst w2. rewrite E2. simpl fst; simpl snd.
  split; [reflexivity|]. split; [|split].
  - unfold _is_favorited. simpl. rewrite is_favorited_filter, !Z.eqb_refl.
    apply andb_false_r.
  - intros u r Hd. unfold _is_favorited. simpl. rewrite is_favorited_filter.
    destruct (User.id user =? u) eqn:Eu; destruct (rid =? r) eqn:Er; simpl;
      rewrite ?andb_true_r; try reflexivity.
    apply Z.eqb_eq in Eu, Er. lia.
  - intros Hnot.
    assert (E1 : fst (fst (favorite_recipe w sess rid tok))
                 = set_db w (add_favorite (db w) (User.id user) rid)).
    { unfold favorite_recipe. rewrite Hu, Hv, Hb, Hnot. reflexivity. }
    rewrite E1. unfold unfavorite_recipe. simpl db.
    assert (Hu1 : get_current_user (add_favorite (db w) (User.id user) rid) sess
                  = Some user) by exact Hu.
    rewrite Hu1, Hv, Hb. simpl fst.
    unfold set_db, set_favorites, add_favorite. simpl.
    rewrite filter_app. simpl. rewrite !Z.eqb_refl. simpl.
    rewrite (filter_not_favorited (db w) (User.id user) rid Hnot), app_nil_r.
    rewrite db_eta. destruct w; reflexivity.
Qed.


(* ----------------------------------------------------------------- *)
(** *** Delete, ownership, anonymous requests *)

Lemma find_filtered_out (rid : Z) (l : list Recipe.t) :
  find (fun x => Recipe.id x =? rid)
       (filter (fun x => negb (Recipe.id x =? rid)) l) = None.
Proof.
  induction l as [|x l IH]; simpl; [reflexivity|].
  destruct (Recipe.id x =? rid) eqn:E; simpl; [exact IH|].
  rewrite E. exact IH.
Qed.

Lemma ensure_csrf_with_token (w : World) (sess : Session) (tok : string) :
  sess_csrf_token sess = Some tok -> tok <> "" ->
  _ensure_csrf w sess = (w, sess).
Proof.
  intros Hs Hne. unfold _ensure_csrf. rewrite Hs. simpl.
  apply truthy_true_iff in Hne. rewrite Hne. reflexivity.
Qed.

Lemma require_owner_ok (d : DB) (sess : Session) (rid : Z) (user : User.t)
    (r : Recipe.t) :
  get_current_user d sess = Some user -> get_recipe d rid = Ok (Some r) ->
  _require_owner d sess rid
  = if opt_Z_eqb (Recipe.author_id r) (User.id user) then Ok (r, user)
    else Raise (HTTPException 403 "Forbidden").
Proof.
  intros Hu Hr. unfold _require_owner, _require_login, _get_recipe_or_404.
  rewrite Hu, Hr. destruct (opt_Z_eqb _ _); reflexivity.
Qed.

(** X4.  When the owner deletes a recipe with the session's token, the
    handler redirects to "/" with 303; afterwards no Recipe row has that id,
    the Ingredient, Step, RecipeTag and Favorite tables hold exactly their
    former rows of the other recipes, users and tags are untouched, and
    fetching the recipe answers 404 "Not found". *)
Theorem delete_removes_recipe_and_children :
  forall (w : World) (sess : Session) (rid : Z) (tok : string)
         (user : User.t) (r : Recipe.t),
    get_current_user (db w) sess = Some user ->
    sess_csrf_token sess = Some tok -> tok <> "" -> is_ascii tok = true ->
    get_recipe (db w) rid = Ok (Some r) ->
    opt_Z_eqb (Recipe.author_id r) (User.id user) = true ->
    let w' := fst (fst (recipe_delete w sess rid tok)) in
    recipe_delete w sess rid tok = (w', sess, RedirectResponse "/" 303)
    /\ get_recipe (db w') rid = Ok None
    /\ (forall x, In x (recipes (db w'))
                  <-> In x (recipes (db w)) /\ Recipe.id x <> rid)
    /\ (forall i, In i (ingredients (db w'))
                  <-> In i (ingredients (db w)) /\ Ingredient.recipe_id i <> rid)
    /\ (forall s, In s (steps (db w'))
                  <-> In s (steps (db w)) /\ Step.recipe_id s <> rid)
    /\ (forall rt, In rt (recipe_tags (db w'))
                   <-> In rt (recipe_tags (db w)) /\ RecipeTag.recipe_id rt <> rid)
    /\ (forall fv, In fv (favorites (db w'))
                   <-> In fv (favorites (db w)) /\ Favorite.recipe_id fv <> rid)
    /\ users (db w') = users (db w) /\ tags (db w') = tags (db w)
    /\ snd (recipe_detail w' sess rid) = HTMLResponse "Not found" 404.
Proof.
  intros w sess rid tok user r Hu Hs Hne Ha Hr Ho w'.
  pose proof (verify_csrf_accepts sess tok Hs Hne Ha) as Hv.
  pose proof (get_recipe_id (db w) rid r Hr) as Hid.
  destruct (get_recipe_Ok_inv _ _ _ Hr) as [Hrange _].
  assert (E : recipe_delete w sess rid tok
              = (set_db w
                   (mkDB (users (db w))
                      (filter (fun r0 => negb (Recipe.id r0 =? rid)) (recipes (db w)))
                      (recipe_seq (db w))
                      (filter (fun i => negb (Ingredient.recipe_id i =? rid))
                              (ingredients (db w)))
                      (filter (fun s => negb (Step.recipe_id s =? rid)) (steps (db w)))
                      (tags (db w))
                      (filter (fun rt => negb (RecipeTag.recipe_id rt =? rid))
                              (recipe_tags (db w)))
                      (filter (fun fv => negb (Favorite.recipe_id fv =? rid))
                              (favorites (db w)))),
                 sess, RedirectResponse "/" 303)).
  { unfold recipe_delete.
    rewrite Hv, (require_owner_ok (db w) sess rid user r Hu Hr), Ho, Hid.
    reflexivity. }
  assert (Hin : forall (A : Type) (key : A -> Z) (l : list A) (a : A),
             In a (filter (fun x => negb (key x =? rid)) l)
             <-> In a l /\ key a <> rid).
  { intros A key l a. rewrite filter_In, negb_true_iff, Z.eqb_neq. reflexivity. }
  subst w'. rewrite E. simpl.
  split; [reflexivity|].
  split; [rewrite (get_recipe_in_range _ _ Hrange); simpl;
          rewrite find_filtered_out; reflexivity|].
  split; [intros x; apply (Hin _ Recipe.id)|].
  split; [intros x; apply (Hin _ Ingredient.recipe_id)|].
  split; [intros x; apply (Hin _ Step.recipe_id)|].
  split; [intros x; apply (Hin _ RecipeTag.recipe_id)|].
  split; [intros x; apply (Hin _ Favorite.recipe_id)|].
  split; [reflexivity|]. split; [reflexivity|].
  unfold recipe_detail.
  rewrite (ensure_csrf_with_token _ sess tok Hs Hne).
  rewrite (get_recipe_in_range _ _ Hrange). simpl.
  rewrite find_filtered_out. reflexivity.
Qed.

(** X5.  When a logged-in user who is not the author of an existing recipe
    sends the session's token, the edit answers 403 "Forbidden", the delete
    and the edit form raise HTTP 403, and the database is left as it was. *)
Theorem only_the_author_edits_or_deletes :
  forall (w : World) (sess : Session) (rid : Z) (tok : string)
         (user : User.t) (r : Recipe.t),
    get_current_user (db w) sess = Some user ->
    sess_csrf_token sess = Some tok -> tok <> "" -> is_ascii tok = true ->
    get_recipe (db w) rid = Ok (Some r) ->
    opt_Z_eqb (Recipe.author_id r) (User.id user) = false ->
    (forall f : UpdateForm.t,
        UpdateForm.csrf_token f = tok ->
        recipe_update w sess rid f = (w, sess, HTMLResponse "Forbidden" 403))
    /\ recipe_delete w sess rid tok
       = (w, sess, Uncaught (HTTPException 403 "Forbidden"))
    /\ recipe_edit_form w sess rid
       = (w, sess, Uncaught (HTTPException 403 "Forbidden")).
Proof.
  intros w sess rid tok user r Hu Hs Hne Ha Hr Ho.
  pose proof (verify_csrf_accepts sess tok Hs Hne Ha) as Hv.
  split; [|split].
  - intros f Hf. unfold recipe_update. rewrite Hu, Hf, Hv, Hr, Ho. reflexivity.
  - unfold recipe_delete.
    rewrite Hv, (require_owner_ok (db w) sess rid user r Hu Hr), Ho. reflexivity.
  - unfold recipe_edit_form. rewrite (ensure_csrf_with_token _ sess tok Hs Hne).
    rewrite (require_owner_ok (db w) sess rid user r Hu Hr), Ho. reflexivity.
Qed.

(** X6.  For a recipe id within 64 bits that no row has (the fetch returns
    nothing), a logged-in user with the session's token gets 404 "Not found" from the detail page and from the
    edit, and HTTP 404 from the delete and from the edit form; nothing is
    written. *)
Theorem missing_recipe_is_not_found :
  forall (w : World) (sess : Session) (rid : Z) (tok : string) (user : User.t),
    get_current_user (db w) sess = Some user ->
    sess_csrf_token sess = Some tok -> tok <> "" -> is_ascii tok = true ->
    get_recipe (db w) rid = Ok None ->
    recipe_detail w sess rid = (w, sess, HTMLResponse "Not found" 404)
    /\ (forall f : UpdateForm.t,
          UpdateForm.csrf_token f = tok ->
          recipe_update w sess rid f = (w, sess, HTMLResponse "Not found" 404))
    /\ recipe_delete w sess rid tok
       = (w, sess, Uncaught (HTTPException 404 "Not found"))
    /\ recipe_edit_form w sess rid
       = (w, sess, Uncaught (HTTPException 404 "Not found")).
Proof.
  intros w sess rid tok user Hu Hs Hne Ha Hr.
  pose proof (verify_csrf_accepts sess tok Hs Hne Ha) as Hv.
  split; [|split; [|split]].
  - unfold recipe_detail. rewrite (ensure_csrf_with_token _ sess tok Hs Hne), Hr.
    reflexivity.
  - intros f Hf. unfold recipe_update. rewrite Hu, Hf, Hv, Hr. reflexivity.
  - unfold recipe_delete, _require_owner, _require_login, _get_recipe_or_404.
    rewrite Hv, Hu, Hr. reflexivity.
  - unfold recipe_edit_form, _require_owner, _require_login, _get_recipe_or_404.
    rewrite (ensure_csrf_with_token _ sess tok Hs Hne), Hu, Hr. reflexivity.
Qed.

(** X7.  A request that writes recipe data (create, edit, delete, favorite,
    unfavorite) from a session with no logged-in user writes nothing,
    whatever token it carries: create, edit, favorite and unfavorite
    redirect to /login with 303; delete raises the token error when the
    token is bad and HTTP 401 otherwise. *)
Theorem anonymous_requests_write_nothing :
  forall (w : World) (sess : Session) (m : Mutation),
    get_current_user (db w) sess = None ->
    writes_recipe_data m = true ->
    dispatch w sess m
    = (w, sess,
       if user_checked_first m then RedirectResponse "/login" 303
       else match verify_csrf sess (csrf_token_of m) with
            | Ok _ => Uncaught (HTTPException 401 "Login required")
            | Raise e => Uncaught e
            end).
Proof.
  intros w sess m Hu Hm.
  destruct m; simpl in Hm; try discriminate; simpl;
    unfold recipe_create, recipe_update, recipe_delete, favorite_recipe,
           unfavorite_recipe, _require_owner, _require_login;
    rewrite ?Hu; try reflexivity.
  destruct (verify_csrf sess csrf_token); rewrite ?Hu; reflexivity.
Qed.

(* ----------------------------------------------------------------- *)
(** *** View counts *)

Lemma find_map_other (rid rid' : Z) (r : Recipe.t) (l : list Recipe.t) :
  Recipe.id r = rid -> rid' <> rid ->
  find (fun x => Recipe.id x =? rid')
       (map (fun x => if Recipe.id x =? Recipe.id r then r else x) l)
  = find (fun x => Recipe.id x =? rid') l.
Proof.
  intros Hid Hne. induction l as [|x l IH]; simpl; [reflexivity|].
  rewrite Hid. destruct (Recipe.id x =? rid) eqn:E.
  - apply Z.eqb_eq in E. rewrite Hid.
    assert (E1 : (rid =? rid') = false) by (apply Z.eqb_neq; lia).
    assert (E2 : (Recipe.id x =? rid') = false) by (apply Z.eqb_neq; lia).
    rewrite E1, E2. rewrite Hid in IH. exact IH.
  - destruct (Recipe.id x =? rid'); [reflexivity|].
    rewrite Hid in IH. exact IH.
Qed.

Lemma recipe_detail_counts (w : World) (sess : Session) (rid : Z) (r : Recipe.t) :
  get_recipe (db w) rid = Ok (Some r) ->
  let r1 := Recipe.mk (Recipe.id r) (Recipe.title r) (Recipe.description r)
              (Recipe.main_image r) (Recipe.author_id r) (Recipe.view_count r + 1) in
  let w1 := fst (fst (recipe_detail w sess rid)) in
  page_recipe (snd (recipe_detail w sess rid)) = Some r1
  /\ get_recipe (db w1) rid = Ok (Some r1)
  /\ (forall rid', rid' <> rid -> get_recipe (db w1) rid' = get_recipe (db w) rid')
  /\ users (db w1) = users (db w) /\ ingredients (db w1) = ingredients (db w)
  /\ steps (db w1) = steps (db w) /\ tags (db w1) = tags (db w)
  /\ recipe_tags (db w1) = recipe_tags (db w)
  /\ favorites (db w1) = favorites (db w).
Proof.
  intros Hr r1 w1.
  pose proof (get_recipe_id (db w) rid r Hr) as Hid.
  destruct (get_recipe_Ok_inv _ _ _ Hr) as [Hrange Hf].
  pose proof (ensure_csrf_db w sess) as [Hd _].
  subst w1. unfold recipe_detail.
  destruct (_ensure_csrf w sess) as [w0 s0]. simpl in Hd.
  rewrite Hd, Hr. simpl. fold r1.
  split; [reflexivity|]. split; [|split].
  - rewrite (get_recipe_in_range _ _ Hrange). f_equal.
    unfold update_recipe. simpl.
    apply (find_map_replace rid r1 (recipes (db w)) r); [exact Hid|exact Hf].
  - intros rid' Hne. unfold get_recipe.
    destruct (sqlite_bind rid'); [|reflexivity]. f_equal.
    unfold update_recipe. simpl.
    apply (find_map_other rid rid' r1 (recipes (db w))); [exact Hid|exact Hne].
  - repeat split; reflexivity.
Qed.

(** X8.  Viewing an existing recipe n times in a row adds exactly n to its
    view_count, whoever the session belongs to; the recipe's other fields,
    the other recipes and all other tables (users, ingredients, steps,
    tags, tag links, favorites) stay as they were, and each view shows the
    count already incremented. *)
Theorem each_view_counts_once :
  forall (n : nat) (w : World) (sess : Session) (rid : Z) (r : Recipe.t),
    get_recipe (db w) rid = Ok (Some r) ->
    let w' := fst (view_times n w sess rid) in
    get_recipe (db w') rid
      = Ok (Some (Recipe.mk (Recipe.id r) (Recipe.title r) (Recipe.description r)
                (Recipe.main_image r) (Recipe.author_id r)
                (Recipe.view_count r + Z.of_nat n)))
    /\ (forall rid', rid' <> rid -> get_recipe (db w') rid' = get_recipe (db w) rid')
    /\ users (db w') = users (db w)
    /\ ingredients (db w') = ingredients (db w)
    /\ steps (db w') = steps (db w)
    /\ tags (db w') = tags (db w)
    /\ recipe_tags (db w') = recipe_tags (db w)
    /\ favorites (db w') = favorites (db w)
    /\ option_map Recipe.view_count (page_recipe (snd (recipe_detail w' sess rid)))
       = Some (Recipe.view_count r + Z.of_nat n + 1).
Proof.
  induction n as [|n IH]; intros w sess rid r Hr w'.
  - subst w'. simpl fst.
    destruct (recipe_detail_counts w sess rid r Hr) as [Hp _].
    rewrite Hp. simpl. rewrite Z.add_0_r.
    repeat split; try reflexivity.
    rewrite Hr. destruct r; reflexivity.
  - subst w'. simpl view_times.
    destruct (recipe_detail_counts w sess rid r Hr)
      as [_ [Hg [Ho [Hus [Hi [Hs [Ht [Hrt Hf]]]]]]]].
    destruct (recipe_detail w sess rid) as [[w1 s1] resp]. simpl fst in *.
    specialize (IH w1 s1 rid _ Hg). simpl in IH.
    destruct IH as [IHg [IHo [IHus [IHi [IHs [IHt [IHrt [IHf IHp]]]]]]]].
    replace (Recipe.view_count r + Z.of_nat (S n))
      with (Recipe.view_count r + 1 + Z.of_nat n) by lia.
    split; [exact IHg|].
    split; [intros rid' Hne; rewrite (IHo rid' Hne); apply Ho; exact Hne|].
    split; [rewrite IHus; exact Hus|].
    split; [rewrite IHi; exact Hi|]. split; [rewrite IHs; exact Hs|].
    split; [rewrite IHt; exact Ht|]. split; [rewrite IHrt; exact Hrt|].
    split; [rewrite IHf; exact Hf|].
    (* the page of the next view, for any session *)
    destruct (recipe_detail_counts (fst (view_times n w1 s1 rid)) sess rid _ IHg)
      as [Hp _].
    rewrite Hp. simpl. f_equal; lia.
Qed.


(* ----------------------------------------------------------------- *)
(** *** Accounts and sessions *)

Lemma find_user_appended (uid : Z) (u : User.t) (l : list User.t) :
  Forall (fun x => User.id x < uid) l -> User.id u = uid ->
  find (fun x => User.id x =? uid) (l ++ [u]) = Some u.
Proof.
  intros H Hu. induction H as [|x l Hx _ IH]; simpl.
  - rewrite Hu, Z.eqb_refl. reflexivity.
  - destruct (User.id x =? uid) eqn:E; [apply Z.eqb_eq in E; lia|exact IH].
Qed.

Lemma find_user_by_email_none (d : DB) (email : string) :
  find_user_by_email d email = None -> ~ In email (map User.email (users d)).
Proof.
  unfold find_user_by_email. intros H Hin. apply in_map_iff in Hin.
  destruct Hin as [u [He Hu]].
  pose proof (find_none _ _ H u Hu) as Hn. cbv beta in Hn.
  rewrite He, String.eqb_refl in Hn. discriminate.
Qed.

Lemma find_user_by_email_appended (email : string) (u : User.t) (l : list User.t) :
  find (fun x => String.eqb (User.email x) email) l = None ->
  User.email u = email ->
  find (fun x => String.eqb (User.email x) email) (l ++ [u]) = Some u.
Proof.
  intros H Hu. induction l as [|x l IH]; simpl in *.
  - rewrite Hu, String.eqb_refl. reflexivity.
  - destruct (String.eqb (User.email x) email); [discriminate|]. apply IH. exact H.
Qed.

Lemma signup_new_email (w : World) (sess : Session)
    (email password tok : string) :
  sess_csrf_token sess = Some tok -> tok <> "" -> is_ascii tok = true ->
  find_user_by_email (db w) email = None ->
  exists u,
    signup w sess email password tok
      = (mkWorld (set_users (db w) (users (db w) ++ [u])) (media w) (stdout w)
                 (S (entropy w)),
         mkSession (Some (User.id u)) (Some tok), RedirectResponse "/" 303)
    /\ User.email u = email
    /\ User.password_hash u = pwd_hash (entropy w) password
    /\ Forall (fun x => User.id x < User.id u) (users (db w))
    /\ get_current_user (set_users (db w) (users (db w) ++ [u]))
                        (mkSession (Some (User.id u)) (Some tok)) = Some u.
Proof.
  intros Hs Hne Ha Hnone.
  pose proof (verify_csrf_accepts sess tok Hs Hne Ha) as Hv.
  set (u := User.mk (next_rowid (map User.id (users (db w)))) email
                    (pwd_hash (entropy w) password)).
  exists u.
  assert (Hlt : Forall (fun x => User.id x < User.id u) (users (db w))).
  { pose proof (next_rowid_gt (map User.id (users (db w)))) as H.
    rewrite Forall_map in H. exact H. }
  split; [unfold signup; rewrite Hv, Hnone, Hs; reflexivity|].
  split; [reflexivity|]. split; [reflexivity|]. split; [exact Hlt|].
  unfold get_current_user, get_user. simpl.
  assert (Hz : (next_rowid (map User.id (users (db w))) =? 0) = false).
  { apply Z.eqb_neq.
    pose proof (next_rowid_pos (map User.id (users (db w)))). lia. }
  rewrite Hz. apply find_user_appended; [exact Hlt|reflexivity].
Qed.

(** X9.  A signup with the session's token and an email no user has adds
    one User row with that email, the hash of the password and an id above
    every id in use, logs the session in as that user and redirects to "/"
    with 303; emails that were unique stay unique.  A signup with an email
    some user has adds no row and leaves the session's user as it was. *)
Theorem signup_adds_one_account_per_email :
  forall (w : World) (sess : Session) (email password tok : string),
    sess_csrf_token sess = Some tok -> tok <> "" -> is_ascii tok = true ->
    (find_user_by_email (db w) email = None ->
     exists u,
       signup w sess email password tok
         = (mkWorld (set_users (db w) (users (db w) ++ [u])) (media w) (stdout w)
                    (S (entropy w)),
            mkSession (Some (User.id u)) (Some tok), RedirectResponse "/" 303)
       /\ User.email u = email
       /\ User.password_hash u = pwd_hash (entropy w) password
       /\ Forall (fun x => User.id x < User.id u) (users (db w))
       /\ get_current_user (set_users (db w) (users (db w) ++ [u]))
                           (mkSession (Some (User.id u)) (Some tok)) = Some u
       /\ (NoDup (map User.email (users (db w))) ->
           NoDup (map User.email (users (db w) ++ [u]))))
    /\ (forall x, find_user_by_email (db w) email = Some x ->
        signup w sess email password tok
          = (w, sess,
             TemplateResponse
               (signup_html (Some msg_email_taken) (Some tok)
                            (get_current_user (db w) sess)))).
Proof.
  intros w sess email password tok Hs Hne Ha.
  pose proof (verify_csrf_accepts sess tok Hs Hne Ha) as Hv.
  split.
  - intros Hnone.
    destruct (signup_new_email w sess email password tok
                Hs Hne Ha Hnone) as [u [Hsig [He [Hh [Hlt Hcur]]]]].
    exists u. split; [exact Hsig|]. split; [exact He|]. split; [exact Hh|].
    split; [exact Hlt|]. split; [exact Hcur|].
    intros Hnd. rewrite map_app. simpl. rewrite He.
    apply (Permutation_NoDup (l := email :: map User.email (users (db w)))).
    + apply Permutation_cons_append.
    + constructor; [apply find_user_by_email_none; exact Hnone|exact Hnd].
  - intros x Hx. unfold signup. rewrite Hv, Hx.
    rewrite (ensure_csrf_with_token w sess tok Hs Hne). rewrite Hs. reflexivity.
Qed.

(** X10.  After a signup with a new email, a login with the same email and
    password (from any session with a valid token) succeeds: it redirects to
    "/" with 303 and the session's current user is the new account.  This
    rests on passlib verifying a password against its own hash. *)
Theorem login_after_signup_succeeds :
  forall (w : World) (sess : Session) (email password tok : string),
    sess_csrf_token sess = Some tok -> tok <> "" -> is_ascii tok = true ->
    find_user_by_email (db w) email = None ->
    (forall n : nat, pwd_verify password (pwd_hash n password) = true) ->
    let w1 := fst (fst (signup w sess email password tok)) in
    forall (sess2 : Session) (tok2 : string),
      sess_csrf_token sess2 = Some tok2 -> tok2 <> "" -> is_ascii tok2 = true ->
      exists u,
        login w1 sess2 email password tok2
          = (w1, mkSession (Some (User.id u)) (Some tok2), RedirectResponse "/" 303)
        /\ get_current_user (db w1) (mkSession (Some (User.id u)) (Some tok2))
           = Some u
        /\ User.email u = email.
Proof.
  intros w sess email password tok Hs Hne Ha Hnone Hbcrypt w1 sess2 tok2 Hs2 Hne2 Ha2.
  destruct (signup_new_email w sess email password tok Hs Hne Ha Hnone)
    as [u [Hsig [He [Hh [Hlt Hcur]]]]].
  subst w1. rewrite Hsig. simpl fst.
  exists u.
  pose proof (verify_csrf_accepts sess2 tok2 Hs2 Hne2 Ha2) as Hv2.
  assert (Hfind : find_user_by_email (set_users (db w) (users (db w) ++ [u])) email
                  = Some u).
  { unfold find_user_by_email. simpl.
    apply find_user_by_email_appended; [exact Hnone|exact He]. }
  split; [|split; [|exact He]].
  - unfold login. rewrite Hv2. simpl db. rewrite Hfind, Hh, Hbcrypt, Hs2.
    reflexivity.
  - unfold get_current_user in *. simpl in *. exact Hcur.
Qed.


(** X11.  A login with the session's token that names no user, or gives a
    password that does not verify against the stored hash, changes neither
    the database nor the session (the user logged in stays logged in) and
    renders the login page with the error. *)
Theorem failed_login_changes_nothing :
  forall (w : World) (sess : Session) (email password tok : string),
    sess_csrf_token sess = Some tok -> tok <> "" -> is_ascii tok = true ->
    (find_user_by_email (db w) email = None
     \/ exists u, find_user_by_email (db w) email = Some u
                  /\ pwd_verify password (User.password_hash u) = false) ->
    login w sess email password tok
    = (w, sess,
       TemplateResponse
         (login_html (Some msg_bad_login) (Some tok) (get_current_user (db w) sess))).
Proof.
  intros w sess email password tok Hs Hne Ha H.
  pose proof (verify_csrf_accepts sess tok Hs Hne Ha) as Hv.
  unfold login. rewrite Hv, (ensure_csrf_with_token w sess tok Hs Hne), Hs.
  destruct H as [H|[u [H Hp]]]; rewrite H; [reflexivity|].
  rewrite Hp. reflexivity.
Qed.

(** X12.  A logout with the session's token empties the session and
    redirects to "/" with 303.  From the emptied session nobody is logged
    in, and every mutating request is refused without a write, whatever
    token it carries, until a page gives the session a new token: signup,
    login, logout and delete raise HTTP 400, the others redirect to
    /login. *)
Theorem logout_ends_the_session :
  forall (w : World) (sess : Session) (tok : string),
    sess_csrf_token sess = Some tok -> tok <> "" -> is_ascii tok = true ->
    logout w sess tok = (w, empty_session, RedirectResponse "/" 303)
    /\ get_current_user (db w) empty_session = None
    /\ (forall m : Mutation,
          dispatch w empty_session m
          = (w, empty_session,
             if user_checked_first m then RedirectResponse "/login" 303
             else Uncaught (HTTPException 400 "Invalid CSRF token"))).
Proof.
  intros w sess tok Hs Hne Ha.
  pose proof (verify_csrf_accepts sess tok Hs Hne Ha) as Hv.
  split; [unfold logout; rewrite Hv; reflexivity|].
  split; [reflexivity|].
  intros m. destruct m; reflexivity.
Qed.

(** X13.  When the tokens the platform draws are non-empty ASCII text, a
    form page (signup, login) leaves the session with a token, shows that
    token, and the token passes [verify_csrf] for the session the page
    leaves; a session that had a token keeps it, the logged-in user is not
    changed, and asking again draws no new token. *)
Theorem form_token_is_accepted :
  (forall n : nat, token_urlsafe n <> "" /\ is_ascii (token_urlsafe n) = true) ->
  forall (w : World) (sess : Session),
    (forall t, sess_csrf_token sess = Some t -> is_ascii t = true) ->
    let w1 := fst (_ensure_csrf w sess) in
    let s1 := snd (_ensure_csrf w sess) in
    exists tok,
      sess_csrf_token s1 = Some tok
      /\ verify_csrf s1 tok = Ok tt
      /\ signup_form w sess
         = (w1, s1,
            TemplateResponse
              (signup_html None (Some tok) (get_current_user (db w) sess)))
      /\ login_form w sess
         = (w1, s1,
            TemplateResponse
              (login_html None (Some tok) (get_current_user (db w) sess)))
      /\ _ensure_csrf w1 s1 = (w1, s1)
      /\ sess_user_id s1 = sess_user_id sess
      /\ db w1 = db w
      /\ (forall t, sess_csrf_token sess = Some t -> t <> "" -> tok = t).
Proof.
  intros Hplat w sess Hascii w1 s1.
  assert (H : exists tok, sess_csrf_token s1 = Some tok /\ tok <> ""
                          /\ is_ascii tok = true
                          /\ (forall t, sess_csrf_token sess = Some t -> t <> ""
                                         -> tok = t)
                          /\ sess_user_id s1 = sess_user_id sess /\ db w1 = db w).
  { subst w1 s1. unfold _ensure_csrf.
    destruct (sess_csrf_token sess) as [t|] eqn:Ht; simpl.
    - destruct (truthy t) eqn:Et; simpl.
      + exists t. rewrite Ht. apply truthy_true_iff in Et.
        repeat split; try assumption; try reflexivity.
        * apply Hascii. reflexivity.
        * intros t0 H0 _. congruence.
      + destruct (Hplat (entropy w)) as [H1 H2].
        exists (token_urlsafe (entropy w)).
        repeat split; try assumption.
        intros t0 H0 Hn. apply truthy_false_iff in Et. congruence.
    - destruct (Hplat (entropy w)) as [H1 H2].
      exists (token_urlsafe (entropy w)).
      repeat split; try assumption. intros t0 H0. discriminate. }
  destruct H as [tok [Hs1 [Hne [Ha [Hkeep [Hu Hd]]]]]].
  exists tok.
  split; [exact Hs1|].
  split; [apply verify_csrf_accepts; assumption|].
  assert (Hcur : get_current_user (db w1) s1 = get_current_user (db w) sess).
  { unfold get_current_user. rewrite Hu, Hd. reflexivity. }
  split; [|split].
  - unfold signup_form. subst w1 s1.
    destruct (_ensure_csrf w sess) as [w0 s0]. simpl in *.
    rewrite Hs1, Hcur. reflexivity.
  - unfold login_form. subst w1 s1.
    destruct (_ensure_csrf w sess) as [w0 s0]. simpl in *.
    rewrite Hs1, Hcur. reflexivity.
  - split; [apply (ensure_csrf_with_token w1 s1 tok Hs1 Hne)|].
    split; [exact Hu|]. split; [exact Hd|exact Hkeep].
Qed.


(* ----------------------------------------------------------------- *)
(** *** Tags *)

Lemma find_app_some {A : Type} (g : A -> bool) (l l' : list A) (a : A) :
  find g l = Some a -> find g (l ++ l') = Some a.
Proof.
  induction l as [|x l IH]; simpl; [discriminate|].
  destruct (g x); [auto|exact IH].
Qed.

Lemma find_snoc_new {A : Type} (g : A -> bool) (l : list A) (a : A) :
  find g l = None -> g a = true -> find g (l ++ [a]) = Some a.
Proof.
  intros H Ha. induction l as [|x l IH]; simpl in *.
  - rewrite Ha. reflexivity.
  - destruct (g x); [discriminate|]. apply IH. exact H.
Qed.

Lemma find_tag_none (d : DB) (name : string) :
  find_tag d name = None -> ~ In name (map Tag.name (tags d)).
Proof.
  unfold find_tag. intros H Hin. apply in_map_iff in Hin.
  destruct Hin as [t [He Ht]].
  pose proof (find_none _ _ H t Ht) as Hn. cbv beta in Hn.
  rewrite He, String.eqb_refl in Hn. discriminate.
Qed.

Lemma has_recipe_tag_In (d : DB) (rid tid : Z) :
  has_recipe_tag d rid tid = true <-> In (RecipeTag.mk rid tid) (recipe_tags d).
Proof.
  unfold has_recipe_tag. rewrite existsb_exists. split.
  - intros [[r t] [Hin H]]. simpl in H. apply andb_prop in H.
    destruct H as [H1 H2]. apply Z.eqb_eq in H1, H2. subst. exact Hin.
  - intros H. exists (RecipeTag.mk rid tid). split; [exact H|].
    simpl. rewrite !Z.eqb_refl. reflexivity.
Qed.

Lemma NoDup_snoc {A : Type} (l : list A) (a : A) :
  NoDup l -> ~ In a l -> NoDup (l ++ [a]).
Proof.
  intros Hl Ha. apply (Permutation_NoDup (l := a :: l)).
  - apply Permutation_cons_append.
  - constructor; assumption.
Qed.

(** What the tag loop does to the two tables it writes. *)
Lemma attach_tags_spec (d : DB) (rid : Z) (raws : list string) :
  let d' := attach_tags d rid raws in
  (exists nt, tags d' = (tags d ++ nt)%list)
  /\ (exists nl, recipe_tags d' = (recipe_tags d ++ nl)%list
                 /\ Forall (fun rt => RecipeTag.recipe_id rt = rid) nl)
  /\ (NoDup (map Tag.name (tags d)) -> NoDup (map Tag.name (tags d')))
  /\ (NoDup (recipe_tags d) -> NoDup (recipe_tags d'))
  /\ (forall name, In name (filter truthy (map strip raws)) ->
        exists t, find_tag d' name = Some t
                  /\ In (RecipeTag.mk rid (Tag.id t)) (recipe_tags d')).
Proof.
  revert d. induction raws as [|raw rest IH]; intros d; simpl.
  - split; [exists []; rewrite app_nil_r; reflexivity|].
    split; [exists []; rewrite app_nil_r; split; [reflexivity|constructor]|].
    split; [auto|]. split; [auto|]. intros name [].
  - destruct (truthy (strip raw)) eqn:Et; simpl; [|apply IH].
    (* the database after this name, and what is known of it *)
    set (d1 := match find_tag d (strip raw) with
               | Some t => (d, t)
               | None => add_tag d (strip raw)
               end).
    assert (H1 : (exists nt, tags (fst d1) = (tags d ++ nt)%list)
                 /\ recipe_tags (fst d1) = recipe_tags d
                 /\ (NoDup (map Tag.name (tags d)) ->
                     NoDup (map Tag.name (tags (fst d1))))
                 /\ find_tag (fst d1) (strip raw) = Some (snd d1)).
    { subst d1. destruct (find_tag d (strip raw)) as [t|] eqn:Ef; simpl.
      - split; [exists []; rewrite app_nil_r; reflexivity|].
        split; [reflexivity|]. split; [auto|exact Ef].
      - split; [eexists; reflexivity|]. split; [reflexivity|]. split.
        + intros Hnd. rewrite map_app. simpl.
          apply NoDup_snoc; [exact Hnd|apply find_tag_none; exact Ef].
        + unfold find_tag. simpl. apply find_snoc_new; [exact Ef|].
          simpl. apply String.eqb_refl. }
    destruct d1 as [d0 t]. simpl in H1.
    destruct H1 as [[nt0 Ht0] [Hl0 [Hn0 Hf0]]].
    set (d2 := if has_recipe_tag d0 rid (Tag.id t) then d0
               else add_recipe_tag d0 rid (Tag.id t)).
    assert (H2 : tags d2 = tags d0
                 /\ (exists nl, recipe_tags d2 = (recipe_tags d0 ++ nl)%list
                                /\ Forall (fun rt => RecipeTag.recipe_id rt = rid) nl)
                 /\ (NoDup (recipe_tags d0) -> NoDup (recipe_tags d2))
                 /\ In (RecipeTag.mk rid (Tag.id t)) (recipe_tags d2)).
    { subst d2. destruct (has_recipe_tag d0 rid (Tag.id t)) eqn:Eh; simpl.
      - split; [reflexivity|].
        split; [exists []; rewrite app_nil_r; split; [reflexivity|constructor]|].
        split; [auto|]. apply has_recipe_tag_In. exact Eh.
      - split; [reflexivity|].
        split; [eexists; split; [reflexivity|constructor; [reflexivity|constructor]]|].
        split.
        + intros Hnd. apply NoDup_snoc; [exact Hnd|].
          intros Hin. apply has_recipe_tag_In in Hin. congruence.
        + apply in_or_app. right. left. reflexivity. }
    destruct H2 as [Ht2 [[nl2 [Hl2 Fl2]] [Hn2 Hin2]]].
    destruct (IH d2) as [[nt3 Ht3] [[nl3 [Hl3 Fl3]] [Hn3 [Hnl3 Hall3]]]].
    fold d2.
    split; [exists (nt0 ++ nt3)%list; rewrite Ht3, Ht2, Ht0, app_assoc; reflexivity|].
    split.
    { exists (nl2 ++ nl3)%list. rewrite Hl3, Hl2, Hl0, app_assoc.
      split; [reflexivity|]. apply Forall_app. split; assumption. }
    split; [intros Hnd; apply Hn3; rewrite Ht2; apply Hn0; exact Hnd|].
    split; [intros Hnd; apply Hnl3, Hn2; rewrite Hl0; exact Hnd|].
    intros name [Hname|Hname].
    + subst name. exists t. split.
      * unfold find_tag. rewrite Ht3. apply find_app_some.
        rewrite Ht2. exact Hf0.
      * rewrite Hl3. apply in_or_app. left. exact Hin2.
    + apply Hall3. exact Hname.
Qed.

Lemma select_tags_In (d : DB) (rid : Z) (t : Tag.t) :
  In t (select_tags d rid)
  <-> In t (tags d) /\ In (RecipeTag.mk rid (Tag.id t)) (recipe_tags d).
Proof.
  unfold select_tags. rewrite in_flat_map. split.
  - intros [t0 [Hin H]]. apply in_map_iff in H. destruct H as [rt [He Hrt]].
    subst t0. apply filter_In in Hrt. destruct Hrt as [Hrt H].
    apply andb_prop in H. destruct H as [H1 H2]. apply Z.eqb_eq in H1, H2.
    split; [exact Hin|]. destruct rt as [r0 t0]. simpl in *. subst. exact Hrt.
  - intros [Hin Hrt]. exists t. split; [exact Hin|].
    apply in_map_iff. exists (RecipeTag.mk rid (Tag.id t)). split; [reflexivity|].
    apply filter_In. split; [exact Hrt|]. simpl. rewrite !Z.eqb_refl. reflexivity.
Qed.

Lemma find_tag_In (d : DB) (name : string) (t : Tag.t) :
  find_tag d name = Some t -> In t (tags d) /\ Tag.name t = name.
Proof.
  unfold find_tag. intros H. apply find_some in H. destruct H as [Hin H].
  apply String.eqb_eq in H. auto.
Qed.


(** The last step of a successful create: the tag loop, run on a database
    whose tag tables are still those of the start. *)
Lemma recipe_create_ends_with_tags (w : World) (sess : Session) (f : CreateForm.t)
    (cu : User.t) :
  get_current_user (db w) sess = Some cu ->
  verify_csrf sess (CreateForm.csrf_token f) = Ok tt ->
  let r := created_recipe (db w) f (snd (create_main_image w f)) cu in
  exists W,
    tags (db W) = tags (db w) /\ recipe_tags (db W) = recipe_tags (db w)
    /\ let d' := attach_tags (db W) (Recipe.id r)
                    (split_comma (CreateForm.tags_csv f)) in
       recipe_create w sess f
       = (set_db W d', sess,
          TemplateResponse
            (recipe_detail_html r (select_ingredients d' (Recipe.id r))
               (select_steps d' (Recipe.id r)) (select_tags d' (Recipe.id r))
               (Some cu) None)).
Proof.
  intros Hu Hv r.
  pose proof (create_main_image_db w f) as Hdb.
  assert (Heq : recipe_create w sess f =
    let '(w1, saved_path) := create_main_image w f in
    let '(d, r) :=
      add_recipe (db w1) (CreateForm.title f) (CreateForm.description f)
                 saved_path (Some (User.id cu)) in
    let d := create_ingredients d (Recipe.id r)
               (CreateForm.ingredients_amount f)
               (CreateForm.ingredients_unit f) 0
               (CreateForm.ingredients_name f) in
    let w := create_steps (set_db w1 d) (Recipe.id r) f 0
               (Nat.max (List.length (CreateForm.steps_body f))
                        (List.length (CreateForm.steps_image f))) in
    let d := attach_tags (db w) (Recipe.id r)
               (split_comma (CreateForm.tags_csv f)) in
    (set_db w d, sess,
     TemplateResponse
       (recipe_detail_html r (select_ingredients d (Recipe.id r))
          (select_steps d (Recipe.id r)) (select_tags d (Recipe.id r))
          (Some cu) None))).
  { unfold recipe_create, create_main_image. rewrite Hu, Hv. reflexivity. }
  rewrite Heq. clear Heq. subst r. unfold created_recipe.
  destruct (create_main_image w f) as [w1 p].
  simpl in Hdb. simpl fst; simpl snd. rewrite Hdb.
  unfold add_recipe. cbv beta zeta iota. simpl fst; simpl snd.
  eexists. split; [|split; [|reflexivity]].
  - match goal with |- tags (db (create_steps ?W0 ?R ?F ?I ?N)) = _ =>
      destruct (create_steps_frame W0 R F I N) as [_ [_ [_ [_ [Ht _]]]]];
      rewrite Ht
    end.
    simpl db.
    match goal with |- tags (create_ingredients ?D ?R ?A ?U ?I ?N) = _ =>
      destruct (create_ingredients_frame D R A U N I) as [_ [_ [_ [_ [Ht2 _]]]]];
      rewrite Ht2
    end.
    reflexivity.
  - match goal with |- recipe_tags (db (create_steps ?W0 ?R ?F ?I ?N)) = _ =>
      destruct (create_steps_frame W0 R F I N) as [_ [_ [_ [_ [_ [Ht _]]]]]];
      rewrite Ht
    end.
    simpl db.
    match goal with |- recipe_tags (create_ingredients ?D ?R ?A ?U ?I ?N) = _ =>
      destruct (create_ingredients_frame D R A U N I) as [_ [_ [_ [_ [_ [Ht2 _]]]]]];
      rewrite Ht2
    end.
    reflexivity.
Qed.

(** The same for a successful edit; the world before the tag loop is given
    in full. *)
Lemma recipe_update_ends_with_tags (w : World) (sess : Session) (rid : Z)
    (f : UpdateForm.t) (cu : User.t) (r0 : Recipe.t) :
  get_current_user (db w) sess = Some cu ->
  verify_csrf sess (UpdateForm.csrf_token f) = Ok tt ->
  get_recipe (db w) rid = Ok (Some r0) ->
  opt_Z_eqb (Recipe.author_id r0) (User.id cu) = true ->
  let w1 := fst (update_main_image w f r0) in
  let r := updated_recipe f r0 (snd (update_main_image w f r0)) in
  let d2 := update_ingredients
              (set_ingredients (update_recipe (db w) r)
                 (filter (fun i => negb (Ingredient.recipe_id i =? rid))
                         (ingredients (db w))))
              rid (or_empty (UpdateForm.ingredients_amount f)) 0
              (or_empty (UpdateForm.ingredients_name f)) in
  let d3 := set_steps d2 (filter (fun s => negb (Step.recipe_id s =? rid)) (steps d2)) in
  let bodies := or_empty (UpdateForm.steps_body f) in
  let olds := or_empty (UpdateForm.steps_existing_image f) in
  let imgs := or_empty (UpdateForm.steps_image f) in
  let W := update_steps (set_db w1 d3) rid bodies olds imgs 0
             (Nat.max (List.length bodies)
                      (Nat.max (List.length olds) (List.length imgs))) in
  recipe_update w sess rid f
  = (set_db W (attach_tags (db W) rid (split_comma (UpdateForm.tags_csv f))),
     sess, RedirectResponse ("/recipes/" ++ str_of_int rid) 303)
  /\ tags (db W) = tags (db w) /\ recipe_tags (db W) = recipe_tags (db w)
  /\ users (db W) = users (db w) /\ favorites (db W) = favorites (db w)
  /\ steps d2 = steps (db w).
Proof.
  intros Hu Hv Hr Ho w1 r d2 d3 bodies olds imgs W.
  pose proof (update_main_image_db w f r0) as Hdb.
  split.
  - subst W imgs olds bodies d3 d2 r w1.
    unfold recipe_update, update_main_image, updated_recipe in *.
    rewrite Hu, Hv, Hr, Ho.
    destruct (match UpdateForm.image f with
              | Some up => _
              | None => _
              end) as [w1 p] eqn:E.
    simpl in Hdb. simpl fst; simpl snd.
    cbv beta zeta. unfold update_recipe. simpl db. rewrite Hdb. reflexivity.
  - destruct (update_steps_frame (set_db w1 d3) rid bodies olds imgs 0
                (Nat.max (List.length bodies)
                         (Nat.max (List.length olds) (List.length imgs))))
      as [Fu [_ [_ [_ [Ft [Frt Ffv]]]]]].
    fold W in Fu, Ft, Frt, Ffv.
    destruct (update_ingredients_frame
                (set_ingredients (update_recipe (db w) r)
                   (filter (fun i => negb (Ingredient.recipe_id i =? rid))
                           (ingredients (db w))))
                rid (or_empty (UpdateForm.ingredients_amount f))
                (or_empty (UpdateForm.ingredients_name f)) 0)
      as [Iu [_ [_ [Is [It [Irt Ifv]]]]]].
    fold d2 in Iu, Is, It, Irt, Ifv.
    rewrite Ft, Frt, Fu, Ffv. simpl.
    rewrite It, Irt, Iu, Ifv, Is. repeat split; reflexivity.
Qed.

(** X14.  A successful edit never removes a tag or a tag link: the Tag and
    RecipeTag tables keep their rows and only grow, by links of the edited
    recipe.  Tag names that were unique and links that were unique stay so,
    and after the edit the recipe is linked to a tag of every name
    submitted in tags_csv. *)
Theorem edit_adds_tags_and_never_removes :
  forall (w : World) (sess : Session) (rid : Z) (f : UpdateForm.t)
         (cu : User.t) (r0 : Recipe.t),
    get_current_user (db w) sess = Some cu ->
    verify_csrf sess (UpdateForm.csrf_token f) = Ok tt ->
    get_recipe (db w) rid = Ok (Some r0) ->
    opt_Z_eqb (Recipe.author_id r0) (User.id cu) = true ->
    let w' := fst (fst (recipe_update w sess rid f)) in
    (exists nt, tags (db w') = (tags (db w) ++ nt)%list)
    /\ (exists nl, recipe_tags (db w') = (recipe_tags (db w) ++ nl)%list
                   /\ Forall (fun rt => RecipeTag.recipe_id rt = rid) nl)
    /\ (NoDup (map Tag.name (tags (db w))) -> NoDup (map Tag.name (tags (db w'))))
    /\ (NoDup (recipe_tags (db w)) -> NoDup (recipe_tags (db w')))
    /\ (forall name, In name (submitted_tag_names (UpdateForm.tags_csv f)) ->
          exists t, In t (select_tags (db w') rid) /\ Tag.name t = name).
Proof.
  intros w sess rid f cu r0 Hu Hv Hr Ho w'.
  destruct (recipe_update_ends_with_tags w sess rid f cu r0 Hu Hv Hr Ho)
    as [Heq [Ht [Hrt _]]].
  subst w'. rewrite Heq. simpl fst. simpl db.
  match goal with |- context [attach_tags (db ?W) ?R ?L] =>
    destruct (attach_tags_spec (db W) R L) as [A1 [A2 [A3 [A4 A5]]]];
    set (d' := attach_tags (db W) R L) in *
  end.
  rewrite Ht in A1, A3. rewrite Hrt in A2, A4.
  split; [exact A1|]. split; [exact A2|]. split; [exact A3|]. split; [exact A4|].
  intros name Hname. destruct (A5 name Hname) as [t [Hf Hin]].
  destruct (find_tag_In d' name t Hf) as [Hint Hn].
  exists t. split; [|exact Hn]. apply select_tags_In. split; assumption.
Qed.

(** X15.  The page a successful create returns shows a tag of every name
    submitted in tags_csv; the create removes no tag and no tag link, and
    tag names and links that were unique stay unique. *)
Theorem created_recipe_shows_its_tags :
  forall (w : World) (sess : Session) (f : CreateForm.t) (cu : User.t),
    get_current_user (db w) sess = Some cu ->
    verify_csrf sess (CreateForm.csrf_token f) = Ok tt ->
    let w' := fst (fst (recipe_create w sess f)) in
    (forall name, In name (submitted_tag_names (CreateForm.tags_csv f)) ->
       exists t, In t (page_tags (snd (recipe_create w sess f)))
                 /\ Tag.name t = name)
    /\ (exists nt, tags (db w') = (tags (db w) ++ nt)%list)
    /\ (exists nl, recipe_tags (db w') = (recipe_tags (db w) ++ nl)%list)
    /\ (NoDup (map Tag.name (tags (db w))) -> NoDup (map Tag.name (tags (db w'))))
    /\ (NoDup (recipe_tags (db w)) -> NoDup (recipe_tags (db w'))).
Proof.
  intros w sess f cu Hu Hv w'.
  destruct (recipe_create_ends_with_tags w sess f cu Hu Hv)
    as [W [Ht [Hrt Heq]]].
  subst w'. cbv zeta in Heq. rewrite Heq. simpl fst. simpl snd. simpl db.
  match goal with |- context [attach_tags (db ?W) ?R ?L] =>
    destruct (attach_tags_spec (db W) R L) as [A1 [A2 [A3 [A4 A5]]]];
    set (d' := attach_tags (db W) R L) in *
  end.
  rewrite Ht in A1, A3. rewrite Hrt in A2, A4.
  split.
  - intros name Hname. destruct (A5 name Hname) as [t [Hf Hin]].
    destruct (find_tag_In d' name t Hf) as [Hint Hn].
    exists t. split; [|exact Hn]. simpl. apply select_tags_In. split; assumption.
  - split; [exact A1|]. split.
    + destruct A2 as [nl [Hnl _]]. exists nl. exact Hnl.
    + split; [exact A3|exact A4].
Qed.


(* ----------------------------------------------------------------- *)
(** *** What an edit replaces *)

Lemma filter_others_of_replaced {A : Type} (key : A -> Z) (rid : Z)
    (old rows : list A) :
  Forall (fun a => key a = rid) rows ->
  filter (fun a => negb (key a =? rid))
         (filter (fun a => negb (key a =? rid)) old ++ rows)
  = filter (fun a => negb (key a =? rid)) old.
Proof.
  intros Hr. rewrite filter_app.
  assert (E1 : filter (fun a => negb (key a =? rid))
                      (filter (fun a => negb (key a =? rid)) old)
               = filter (fun a => negb (key a =? rid)) old).
  { induction old as [|a l IH]; simpl; [reflexivity|].
    destruct (negb (key a =? rid)) eqn:E; simpl; [rewrite E, IH|]; auto. }
  assert (E2 : filter (fun a => negb (key a =? rid)) rows = []).
  { induction Hr as [|a l Ha _ IH]; simpl; [reflexivity|].
    rewrite Ha, Z.eqb_refl. simpl. exact IH. }
  rewrite E1, E2, app_nil_r. reflexivity.
Qed.

Lemma filtered_rows_differ {A : Type} (key : A -> Z) (rid : Z) (l : list A) :
  Forall (fun a => key a <> rid) (filter (fun a => negb (key a =? rid)) l).
Proof.
  apply Forall_forall. intros a Ha. apply filter_In in Ha.
  destruct Ha as [_ Ha]. apply negb_true_iff, Z.eqb_neq in Ha. exact Ha.
Qed.

(** X16.  A successful edit of a recipe leaves the Ingredient and Step rows
    of every other recipe, the other Recipe rows, the users and the
    favorites as they were.  With no ingredient names submitted the recipe
    is left without Ingredient rows, and with no step bodies, kept images
    or step files submitted it is left without Step rows. *)
Theorem edit_replaces_only_the_rows_of_its_recipe :
  forall (w : World) (sess : Session) (rid : Z) (f : UpdateForm.t)
         (cu : User.t) (r0 : Recipe.t),
    get_current_user (db w) sess = Some cu ->
    verify_csrf sess (UpdateForm.csrf_token f) = Ok tt ->
    get_recipe (db w) rid = Ok (Some r0) ->
    opt_Z_eqb (Recipe.author_id r0) (User.id cu) = true ->
    let w' := fst (fst (recipe_update w sess rid f)) in
    filter (fun i => negb (Ingredient.recipe_id i =? rid)) (ingredients (db w'))
      = filter (fun i => negb (Ingredient.recipe_id i =? rid)) (ingredients (db w))
    /\ filter (fun s => negb (Step.recipe_id s =? rid)) (steps (db w'))
       = filter (fun s => negb (Step.recipe_id s =? rid)) (steps (db w))
    /\ (forall rid', rid' <> rid -> get_recipe (db w') rid' = get_recipe (db w) rid')
    /\ users (db w') = users (db w)
    /\ favorites (db w') = favorites (db w)
    /\ (or_empty (UpdateForm.ingredients_name f) = [] ->
        Forall (fun i => Ingredient.recipe_id i <> rid) (ingredients (db w')))
    /\ (or_empty (UpdateForm.steps_body f) = [] ->
        or_empty (UpdateForm.steps_existing_image f) = [] ->
        or_empty (UpdateForm.steps_image f) = [] ->
        Forall (fun s => Step.recipe_id s <> rid) (steps (db w'))).
Proof.
  intros w sess rid f cu r0 Hu Hv Hr Ho w'.
  pose proof (get_recipe_id (db w) rid r0 Hr) as Hid.
  destruct (recipe_update_ends_with_tags w sess rid f cu r0 Hu Hv Hr Ho)
    as [Heq [_ [_ [Husers [Hfav Hsteps2]]]]].
  subst w'. rewrite Heq. simpl fst. simpl db.
  set (w1 := fst (update_main_image w f r0)) in *.
  set (r := updated_recipe f r0 (snd (update_main_image w f r0))) in *.
  set (d2 := update_ingredients _ rid _ 0 _) in *.
  set (d3 := set_steps d2 _) in *.
  set (W := update_steps (set_db w1 d3) rid _ _ _ 0 _) in *.
  destruct (attach_tags_frame (db W) rid (split_comma (UpdateForm.tags_csv f)))
    as [Tu [Tr [_ [Ti [Ts Tf]]]]].
  rewrite Ti, Ts, Tu, Tf. unfold get_recipe. rewrite Tr.
  assert (Hing : ingredients (db W) = ingredients d2).
  { subst W. match goal with |- ingredients (db (update_steps ?W0 ?R ?B ?O ?I ?X ?N)) = _ =>
      destruct (update_steps_frame W0 R B O I X N) as [_ [_ [_ [Hx _]]]]; rewrite Hx
    end. reflexivity. }
  assert (Hrec : recipes (db W) = recipes (update_recipe (db w) r)).
  { subst W. match goal with |- recipes (db (update_steps ?W0 ?R ?B ?O ?I ?X ?N)) = _ =>
      destruct (update_steps_frame W0 R B O I X N) as [_ [Hx _]]; rewrite Hx
    end. simpl. subst d2.
    match goal with |- recipes (update_ingredients ?D ?R ?A ?I ?N) = _ =>
      destruct (update_ingredients_frame D R A N I) as [_ [Hy _]]; rewrite Hy
    end. reflexivity. }
  assert (Hirows : exists irows,
             ingredients d2
             = (filter (fun i => negb (Ingredient.recipe_id i =? rid))
                       (ingredients (db w)) ++ irows)%list
             /\ Forall (fun i => Ingredient.recipe_id i = rid) irows).
  { subst d2. match goal with |- context [update_ingredients ?D ?R ?A ?I ?N] =>
      destruct (update_ingredients_rows D R A N I) as [irows [Hi Fi]]
    end. exists irows. split; [exact Hi|exact Fi]. }
  assert (Hsrows : exists srows,
             steps (db W)
             = (filter (fun s => negb (Step.recipe_id s =? rid)) (steps (db w))
                ++ srows)%list
             /\ Forall (fun s => Step.recipe_id s = rid) srows).
  { subst W. match goal with |- context [update_steps ?W0 ?R ?B ?O ?I ?X ?N] =>
      destruct (update_steps_rows W0 R B O I X N) as [srows [Hs Fs]]
    end. exists srows. split; [|exact Fs]. rewrite Hs. simpl.
    rewrite Hsteps2. reflexivity. }
  destruct Hirows as [irows [Hi Fi]]. destruct Hsrows as [srows [Hs Fs]].
  split; [rewrite Hing, Hi; apply (filter_others_of_replaced Ingredient.recipe_id);
          exact Fi|].
  split; [rewrite Hs; apply (filter_others_of_replaced Step.recipe_id); exact Fs|].
  split.
  { intros rid' Hne. destruct (sqlite_bind rid'); [|reflexivity]. f_equal.
    rewrite Hrec. unfold update_recipe. simpl.
    apply (find_map_other rid rid' r (recipes (db w))); [exact Hid|exact Hne]. }
  split; [exact Husers|]. split; [exact Hfav|]. split.
  - intros Hnames. rewrite Hing. subst d2. rewrite Hnames. simpl.
    apply (filtered_rows_differ Ingredient.recipe_id).
  - intros Hb Hold Himg. subst W. rewrite Hb, Hold, Himg. simpl.
    rewrite Hsteps2. apply (filtered_rows_differ Step.recipe_id).
Qed.


(* ----------------------------------------------------------------- *)
(** *** Listings *)

Lemma sort_by_In {A : Type} (before : A -> A -> bool) (l : list A) (a : A) :
  In a (fold_right (insert_by before) [] l) <-> In a l.
Proof.
  split; intros H.
  - eapply Permutation_in; [apply sort_by_perm|exact H].
  - eapply Permutation_in; [apply Permutation_sym, sort_by_perm|exact H].
Qed.

Lemma order_recipes_In (order : string) (rows : list Recipe.t) (r : Recipe.t) :
  In r (order_recipes order rows) <-> In r rows.
Proof.
  unfold order_recipes, order_by, order_by_desc.
  destruct (String.eqb order "old"); [apply sort_by_In|].
  destruct (String.eqb order "views"); apply sort_by_In.
Qed.

Lemma order_recipes_sorted (order : string) (rows : list Recipe.t) :
  (order = "old" -> ascending Recipe.id (order_recipes order rows))
  /\ (order = "views" -> descending Recipe.view_count (order_recipes order rows))
  /\ (order <> "old" -> order <> "views" ->
      descending Recipe.id (order_recipes order rows)).
Proof.
  unfold order_recipes. split; [|split].
  - intros ->. simpl. apply order_by_ascending.
  - intros ->. simpl. apply order_by_desc_descending.
  - intros H1 H2. apply String.eqb_neq in H1, H2. rewrite H1, H2.
    apply order_by_desc_descending.
Qed.

Lemma favorited_ids (d : DB) (uid : Z) (rid : Z) :
  existsb (Z.eqb rid)
          (map Favorite.recipe_id
               (filter (fun fv => Favorite.user_id fv =? uid) (favorites d)))
  = _is_favorited d uid rid.
Proof.
  unfold _is_favorited. induction (favorites d) as [|fv l IH]; simpl;
    [reflexivity|].
  destruct (Favorite.user_id fv =? uid); simpl; rewrite IH;
    [rewrite (Z.eqb_sym rid)|]; reflexivity.
Qed.

(** X17.  For a logged-in user the favorites page lists exactly the Recipe
    rows the user has favorited, in ascending id for order "old", in
    descending view_count for "views" and in descending id for any other
    order; the database is not written. *)
Theorem favorites_page_lists_the_favorites :
  forall (w : World) (sess : Session) (order : string) (user : User.t),
    get_current_user (db w) sess = Some user ->
    exists listed,
      snd (favorites_page w sess order)
        = TemplateResponse (favorites_html listed user order)
      /\ (forall r, In r listed
                    <-> In r (recipes (db w))
                        /\ _is_favorited (db w) (User.id user) (Recipe.id r) = true)
      /\ (order = "old" -> ascending Recipe.id listed)
      /\ (order = "views" -> descending Recipe.view_count listed)
      /\ (order <> "old" -> order <> "views" -> descending Recipe.id listed)
      /\ db (fst (fst (favorites_page w sess order))) = db w.
Proof.
  intros w sess order user Hu.
  pose proof (ensure_csrf_db w sess) as [Hd Hid].
  set (rows := filter (fun r => _is_favorited (db w) (User.id user) (Recipe.id r))
                      (recipes (db w))).
  exists (order_recipes order rows).
  assert (E : favorites_page w sess order
              = (fst (_ensure_csrf w sess), snd (_ensure_csrf w sess),
                 TemplateResponse
                   (favorites_html (order_recipes order rows) user order))).
  { unfold favorites_page.
    destruct (_ensure_csrf w sess) as [w1 s1]. simpl in *.
    assert (Hu1 : get_current_user (db w1) s1 = Some user).
    { unfold get_current_user in *. rewrite Hid, Hd. exact Hu. }
    unfold _require_login. rewrite Hu1, Hd. unfold order_recipes.
    replace (filter
               (fun r => existsb (Z.eqb (Recipe.id r))
                  (map Favorite.recipe_id
                     (filter (fun fv => Favorite.user_id fv =? User.id user)
                             (favorites (db w)))))
               (recipes (db w))) with rows; [reflexivity|].
    subst rows. apply filter_ext. intros r. symmetry. apply favorited_ids. }
  rewrite E. simpl fst; simpl snd.
  split; [reflexivity|]. split.
  - intros r. rewrite order_recipes_In. subst rows. apply filter_In.
  - destruct (order_recipes_sorted order rows) as [S1 [S2 S3]].
    split; [exact S1|]. split; [exact S2|]. split; [exact S3|exact Hd].
Qed.


Lemma recipe_ids_of_tag_In (d : DB) (tid rid : Z) :
  existsb (Z.eqb rid) (recipe_ids_of_tag d tid) = true
  <-> In (RecipeTag.mk rid tid) (recipe_tags d).
Proof.
  unfold recipe_ids_of_tag. rewrite existsb_exists. split.
  - intros [x [Hin Hx]]. apply Z.eqb_eq in Hx. subst x.
    apply in_map_iff in Hin. destruct Hin as [[r t] [He Hin]].
    apply filter_In in Hin. destruct Hin as [Hin Ht]. simpl in *.
    apply Z.eqb_eq in Ht. subst. exact Hin.
  - intros H. exists rid. split; [|apply Z.eqb_refl].
    apply in_map_iff. exists (RecipeTag.mk rid tid). split; [reflexivity|].
    apply filter_In. split; [exact H|]. simpl. apply Z.eqb_refl.
Qed.

(** X18.  The index page lists exactly the Recipe rows that match q (when q
    is given and not empty: the title or the description contains it) and,
    when a non-empty tag is given, are linked to the first Tag row of the
    stripped tag name; so a tag name that no Tag row has gives an empty
    list, not an error.  The list is in ascending id for order "old", in
    descending view_count for "views" and in descending id otherwise, and
    the database is not written. *)
Theorem index_lists_the_matching_recipes :
  forall (contains : string -> string -> bool) (w : World) (sess : Session)
         (q tag : option string) (order : string),
    exists listed q_shown tag_shown cu,
      snd (index contains w sess q tag order)
        = index_html listed q_shown tag_shown order cu
      /\ (forall r, In r listed
                    <-> In r (recipes (db w))
                        /\ matches_q contains q r = true
                        /\ (forall tg, tag = Some tg -> tg <> "" ->
                              tagged_with (db w) (strip tg) r))
      /\ (forall tg, tag = Some tg -> tg <> "" ->
            find_tag (db w) (strip tg) = None -> listed = [])
      /\ (order = "old" -> ascending Recipe.id listed)
      /\ (order = "views" -> descending Recipe.view_count listed)
      /\ (order <> "old" -> order <> "views" -> descending Recipe.id listed)
      /\ db (fst (fst (index contains w sess q tag order))) = db w.
Proof.
  intros contains w sess q tag order.
  pose proof (ensure_csrf_db w sess) as [Hd _].
  unfold index. destruct (_ensure_csrf w sess) as [w1 s1]. simpl in Hd.
  rewrite Hd.
  assert (Hempty : (order = "old" -> ascending Recipe.id (@nil Recipe.t))
                   /\ (order = "views" -> descending Recipe.view_count (@nil Recipe.t))
                   /\ (order <> "old" -> order <> "views" ->
                       descending Recipe.id (@nil Recipe.t))).
  { repeat split; intros; constructor. }
  (* the listing without a tag *)
  assert (Hplain : forall tg_shown,
             (tag = None \/ tag = Some "") ->
             exists listed q_shown tag_shown cu,
               snd (w1, s1,
                    index_html
                      (order_recipes order
                         (filter (matches_q contains q) (recipes (db w))))
                      match q with Some s => s | None => "" end tg_shown order
                      (get_current_user (db w) s1))
               = index_html listed q_shown tag_shown order cu
               /\ (forall r, In r listed
                             <-> In r (recipes (db w))
                                 /\ matches_q contains q r = true
                                 /\ (forall tg, tag = Some tg -> tg <> "" ->
                                       tagged_with (db w) (strip tg) r))
               /\ (forall tg, tag = Some tg -> tg <> "" ->
                     find_tag (db w) (strip tg) = None -> listed = [])
               /\ (order = "old" -> ascending Recipe.id listed)
               /\ (order = "views" -> descending Recipe.view_count listed)
               /\ (order <> "old" -> order <> "views" ->
                   descending Recipe.id listed)
               /\ db (fst (fst (w1, s1,
                    index_html
                      (order_recipes order
                         (filter (matches_q contains q) (recipes (db w))))
                      match q with Some s => s | None => "" end tg_shown order
                      (get_current_user (db w) s1)))) = db w).
  { intros tg_shown Htag. do 4 eexists. split; [reflexivity|]. split.
    - intros r. rewrite order_recipes_In, filter_In. split.
      + intros [H1 H2]. split; [exact H1|]. split; [exact H2|].
        intros tg Ht Hne. destruct Htag as [Htag|Htag]; congruence.
      + intros [H1 [H2 _]]. split; assumption.
    - split.
      + intros tg Ht Hne. destruct Htag as [Htag|Htag]; congruence.
      + destruct (order_recipes_sorted order
                    (filter (matches_q contains q) (recipes (db w))))
          as [S1 [S2 S3]].
        split; [exact S1|]. split; [exact S2|]. split; [exact S3|exact Hd]. }
  destruct tag as [tg|]; [|apply Hplain; left; reflexivity].
  destruct (truthy tg) eqn:Etg.
  2:{ apply truthy_false_iff in Etg. subst tg. apply Hplain. right. reflexivity. }
  apply truthy_true_iff in Etg.
  destruct (find_tag (db w) (strip tg)) as [t|] eqn:Ef.
  2:{ do 4 eexists. split; [reflexivity|]. split.
      - intros r. split; [intros []|].
        intros [_ [_ H]]. destruct (H tg eq_refl Etg) as [t [Ht _]]. congruence.
      - split; [reflexivity|].
        destruct Hempty as [S1 [S2 S3]]. repeat split; assumption. }
  destruct (recipe_ids_of_tag (db w) (Tag.id t)) as [|rid0 rids] eqn:Er.
  - do 4 eexists. split; [reflexivity|]. split.
    + intros r. split; [intros []|].
      intros [_ [_ H]]. destruct (H tg eq_refl Etg) as [t' [Ht' Hin]].
      assert (t' = t) by congruence. subst t'.
      apply recipe_ids_of_tag_In in Hin. rewrite Er in Hin. discriminate.
    + split; [reflexivity|].
      destruct Hempty as [S1 [S2 S3]]. repeat split; assumption.
  - rewrite <- Er. do 4 eexists. split; [reflexivity|]. split.
    + intros r. rewrite order_recipes_In, filter_In, andb_true_iff.
      rewrite recipe_ids_of_tag_In. split.
      * intros [H1 [H2 H3]]. split; [exact H1|]. split; [exact H2|].
        intros tg' Ht' _. injection Ht' as <-. exists t. split; assumption.
      * intros [H1 [H2 H3]]. split; [exact H1|]. split; [exact H2|].
        destruct (H3 tg eq_refl Etg) as [t' [Ht' Hin]].
        assert (t' = t) by congruence. subst t'. exact Hin.
    + split.
      * intros tg' Ht' _ Hnone. injection Ht' as <-. congruence.
      * destruct (order_recipes_sorted order
                    (filter (fun r => matches_q contains q r
                                      && existsb (Z.eqb (Recipe.id r))
                                           (recipe_ids_of_tag (db w) (Tag.id t)))
                            (recipes (db w))))
          as [S1 [S2 S3]].
        split; [exact S1|]. split; [exact S2|]. split; [exact S3|exact Hd].
Qed.


(* ----------------------------------------------------------------- *)
(** *** Crop tuples *)

Lemma to_int_or_none_Some (v : option string) (z : Z) :
  _to_int_or_none v = Some z ->
  exists s f, v = Some s /\ s <> "" /\ py_float s = Some f /\ py_int f = Some z.
Proof.
  unfold _to_int_or_none. destruct v as [s|]; [|discriminate].
  destruct (truthy s) eqn:Et; [|discriminate].
  destruct (py_float s) as [f|] eqn:Ef; [|discriminate].
  intros H. exists s, f. apply truthy_true_iff in Et. auto.
Qed.

(** X19.  When [_crop_tuple_at] returns a rectangle for a step, each of the
    four lists was submitted and holds a non-empty text at that step's
    index, and the rectangle has x, y >= 0 and w, h >= 1. *)
Theorem crop_tuple_needs_all_four_and_is_clamped :
  forall (idx : Z) (xs ys ws hs : option (list string)) (x y w h : Z),
    _crop_tuple_at idx xs ys ws hs = Some (x, y, w, h) ->
    0 <= x /\ 0 <= y /\ 1 <= w /\ 1 <= h
    /\ has_entry xs idx /\ has_entry ys idx /\ has_entry ws idx /\ has_entry hs idx.
Proof.
  intros idx xs ys ws hs x y w h. unfold _crop_tuple_at.
  assert (G : forall arr z,
             _to_int_or_none (match arr with
                              | Some l => at_index l idx
                              | None => None
                              end) = Some z -> has_entry arr idx).
  { intros arr z H. apply to_int_or_none_Some in H.
    destruct H as [s [f [Hs [Hne _]]]]. destruct arr as [l|]; [|discriminate].
    exists l, s. auto. }
  destruct (_to_int_or_none match xs with Some l => at_index l idx | None => None end)
    as [ix|] eqn:Ex; [|discriminate].
  destruct (_to_int_or_none match ys with Some l => at_index l idx | None => None end)
    as [iy|] eqn:Ey; [|discriminate].
  destruct (_to_int_or_none match ws with Some l => at_index l idx | None => None end)
    as [iw|] eqn:Ew; [|discriminate].
  destruct (_to_int_or_none match hs with Some l => at_index l idx | None => None end)
    as [ih|] eqn:Eh; [|discriminate].
  intros H. injection H as <- <- <- <-.
  repeat split; try lia; eapply G; eassumption.
Qed.

(** X20.  Whenever [_parse_crop] accepts four form values it returns the
    rectangle [_crop_tuple_at] returns for the same four texts, so with
    x, y >= 0 and w, h >= 1; it accepts no missing or blank value. *)
Theorem parse_crop_agrees_with_crop_tuple :
  forall (vx vy vw vh : option string) (x y w h : Z),
    _parse_crop vx vy vw vh = Some (x, y, w, h) ->
    exists sx sy sw sh,
      vx = Some sx /\ vy = Some sy /\ vw = Some sw /\ vh = Some sh
      /\ strip sx <> "" /\ strip sy <> "" /\ strip sw <> "" /\ strip sh <> ""
      /\ _crop_tuple_at 0 (Some [sx]) (Some [sy]) (Some [sw]) (Some [sh])
         = Some (x, y, w, h)
      /\ 0 <= x /\ 0 <= y /\ 1 <= w /\ 1 <= h.
Proof.
  intros vx vy vw vh x y w h. unfold _parse_crop.
  assert (Hblank : forall s, negb (truthy (strip s)) = false ->
                             strip s <> "" /\ truthy s = true).
  { intros s H. apply negb_false_iff in H. split.
    - apply truthy_true_iff. exact H.
    - destruct s; [discriminate H|reflexivity]. }
  destruct vx as [sx|]; [|discriminate].
  destruct vy as [sy|]; [|simpl; rewrite orb_true_r; discriminate].
  destruct vw as [sw|]; [|simpl; rewrite !orb_true_r; discriminate].
  destruct vh as [sh|]; [|simpl; rewrite !orb_true_r; discriminate].
  destruct (negb (truthy (strip sx))) eqn:Bx; [discriminate|].
  destruct (negb (truthy (strip sy))) eqn:By; [discriminate|].
  destruct (negb (truthy (strip sw))) eqn:Bw; [discriminate|].
  destruct (negb (truthy (strip sh))) eqn:Bh; [discriminate|].
  simpl.
  destruct (Hblank sx Bx) as [Nx Tx]. destruct (Hblank sy By) as [Ny Ty].
  destruct (Hblank sw Bw) as [Nw Tw]. destruct (Hblank sh Bh) as [Nh Th].
  destruct (py_float sx) as [fx|] eqn:Fx; [|discriminate].
  destruct (py_int fx) as [ix|] eqn:Ix; [|discriminate].
  destruct (py_float sy) as [fy|] eqn:Fy; [|discriminate].
  destruct (py_int fy) as [iy|] eqn:Iy; [|discriminate].
  destruct (py_float sw) as [fw|] eqn:Fw; [|discriminate].
  destruct (py_int fw) as [iw|] eqn:Iw; [|discriminate].
  destruct (py_float sh) as [fh|] eqn:Fh; [|discriminate].
  destruct (py_int fh) as [ih|] eqn:Ih; [|discriminate].
  intros H. injection H as <- <- <- <-.
  exists sx, sy, sw, sh. repeat split; try assumption; try lia.
  unfold _crop_tuple_at, _to_int_or_none, at_index. simpl.
  rewrite Tx, Ty, Tw, Th, Fx, Fy, Fw, Fh, Ix, Iy, Iw, Ih. reflexivity.
Qed.

(* ----------------------------------------------------------------- *)
(** *** Order of ingredients and steps after an edit *)

Lemma update_step_rows_full (w : World) (rid : Z) (bodies olds : list string)
    (imgs : list UploadFile) (idx : Z) :
  exists rows,
    steps (db (update_step w rid bodies olds imgs idx)) = (steps (db w) ++ rows)%list
    /\ Forall (fun s => Step.recipe_id s = rid) rows
    /\ Forall (fun s => uploaded_at imgs (Step.order_no s) = false ->
                        Step.image_path s = or_None (at_index olds (Step.order_no s)))
              rows
    /\ map Step.order_no rows
       = (if edit_step_kept bodies olds imgs idx then [idx] else [])
    /\ map Step.body rows
       = (if edit_step_kept bodies olds imgs idx then [edit_body_at bodies idx]
          else []).
Proof.
  unfold update_step, edit_step_kept, uploaded_at, edit_body_at.
  set (body := strip match at_index bodies idx with Some b => b | None => "" end).
  set (keep := or_None (at_index olds idx)).
  assert (G : forall (w1 : World) (p : option string) (k : bool),
             db w1 = db w -> truthy_opt p = k ->
             exists rows,
               steps (db (let img_path := if negb (truthy_opt p) then keep else p in
                          if negb (truthy body) && negb (truthy_opt img_path) then w1
                          else set_db w1 (add_step (db w1) rid body idx img_path)))
                 = (steps (db w) ++ rows)%list
               /\ Forall (fun s => Step.recipe_id s = rid) rows
               /\ Forall (fun s => k = false -> Step.order_no s = idx ->
                                   Step.image_path s = keep) rows
               /\ map Step.order_no rows
                  = (if truthy body || k || truthy_opt keep then [idx] else [])
               /\ map Step.body rows
                  = (if truthy body || k || truthy_opt keep then [body] else [])).
  { intros w1 p k Hd Hk. cbv zeta. rewrite Hk.
    destruct k; simpl negb; cbv iota.
    - rewrite Hk. rewrite andb_false_r, orb_true_r. simpl. rewrite Hd.
      eexists [_]. split; [reflexivity|].
      split; [constructor; [reflexivity|constructor]|].
      split; [constructor; [discriminate|constructor]|]. split; reflexivity.
    - rewrite orb_false_r.
      destruct (truthy body); destruct (truthy_opt keep); simpl; rewrite ?Hd.
      + eexists [_]. split; [reflexivity|].
        split; [constructor; [reflexivity|constructor]|].
        split; [constructor; [reflexivity|constructor]|]. split; reflexivity.
      + eexists [_]. split; [reflexivity|].
        split; [constructor; [reflexivity|constructor]|].
        split; [constructor; [reflexivity|constructor]|]. split; reflexivity.
      + eexists [_]. split; [reflexivity|].
        split; [constructor; [reflexivity|constructor]|].
        split; [constructor; [reflexivity|constructor]|]. split; reflexivity.
      + exists []. rewrite app_nil_r. repeat split; constructor. }
  assert (Fin : forall (k : bool) (rows : list Step.t),
             (match at_index imgs idx with
              | Some up => truthy (filename up)
              | None => false
              end) = k ->
             map Step.order_no rows = (if truthy body || k || truthy_opt keep
                                       then [idx] else []) ->
             Forall (fun s => k = false -> Step.order_no s = idx ->
                              Step.image_path s = keep) rows ->
             Forall (fun s => match at_index imgs (Step.order_no s) with
                              | Some up => truthy (filename up)
                              | None => false
                              end = false ->
                              Step.image_path s
                              = or_None (at_index olds (Step.order_no s))) rows).
  { intros k rows Hk Ho HF. apply Forall_forall. intros s0 Hs0.
    assert (Hidx : Step.order_no s0 = idx).
    { assert (Hin : In (Step.order_no s0) (map Step.order_no rows))
        by (apply in_map; exact Hs0).
      rewrite Ho in Hin. destruct (truthy body || k || truthy_opt keep);
        simpl in Hin; intuition. }
    rewrite Hidx. intros Hup. rewrite Forall_forall in HF.
    apply (HF s0 Hs0); [congruence|exact Hidx]. }
  destruct (at_index imgs idx) as [up|] eqn:Eat.
  - pose proof (save_step_image_truthy w up None None None None) as Ht.
    destruct (truthy (filename up)) eqn:Hfn.
    + pose proof (save_step_image_db w (Some up) None None None None) as Hd.
      destruct (save_step_image w (Some up) None None None None) as [w1 p].
      destruct (G w1 p true Hd Ht) as [rows [H1 [H2 [H3 [H4 H5]]]]].
      exists rows. split; [exact H1|]. split; [exact H2|].
      split; [apply (Fin true rows eq_refl H4 H3)|]. split; assumption.
    + destruct (G w None false eq_refl eq_refl) as [rows [H1 [H2 [H3 [H4 H5]]]]].
      exists rows. split; [exact H1|]. split; [exact H2|].
      split; [apply (Fin false rows eq_refl H4 H3)|]. split; assumption.
  - destruct (G w None false eq_refl eq_refl) as [rows [H1 [H2 [H3 [H4 H5]]]]].
    exists rows. split; [exact H1|]. split; [exact H2|].
    split; [apply (Fin false rows eq_refl H4 H3)|]. split; assumption.
Qed.

Lemma update_steps_rows_full (w : World) (rid : Z) (bodies olds : list string)
    (imgs : list UploadFile) (idx : Z) (n : nat) :
  exists rows,
    steps (db (update_steps w rid bodies olds imgs idx n))
      = (steps (db w) ++ rows)%list
    /\ Forall (fun s => Step.recipe_id s = rid) rows
    /\ Forall (fun s => uploaded_at imgs (Step.order_no s) = false ->
                        Step.image_path s = or_None (at_index olds (Step.order_no s)))
              rows
    /\ map Step.order_no rows
       = kept_positions idx (map (edit_step_kept bodies olds imgs) (count_from idx n))
    /\ map Step.body rows
       = map (edit_body_at bodies)
             (kept_positions idx
                (map (edit_step_kept bodies olds imgs) (count_from idx n))).
Proof.
  revert w idx. induction n as [|n IH]; intros w idx; simpl.
  - exists []. rewrite app_nil_r. repeat split; constructor.
  - destruct (update_step_rows_full w rid bodies olds imgs idx)
      as [r1 [H1 [F1 [U1 [O1 B1]]]]].
    destruct (IH (update_step w rid bodies olds imgs idx) (idx + 1))
      as [r2 [H2 [F2 [U2 [O2 B2]]]]].
    exists (r1 ++ r2)%list. rewrite H2, H1, <- app_assoc.
    split; [reflexivity|]. split; [apply Forall_app; split; assumption|].
    split; [apply Forall_app; split; assumption|].
    rewrite !map_app, O1, O2, B1, B2.
    destruct (edit_step_kept bodies olds imgs idx); split; reflexivity.
Qed.

Lemma filter_replaced_rows {A : Type} (key : A -> Z) (rid : Z) (old rows : list A) :
  Forall (fun a => key a = rid) rows ->
  filter (fun a => key a =? rid)
         (filter (fun a => negb (key a =? rid)) old ++ rows) = rows.
Proof.
  intros Hr. rewrite filter_app.
  assert (E1 : filter (fun a => key a =? rid)
                      (filter (fun a => negb (key a =? rid)) old) = []).
  { induction old as [|a l IH]; simpl; [reflexivity|].
    destruct (key a =? rid) eqn:E; simpl; [exact IH|]. rewrite E. exact IH. }
  assert (E2 : filter (fun a => key a =? rid) rows = rows).
  { induction Hr as [|a l Ha _ IH]; simpl; [reflexivity|].
    rewrite Ha, Z.eqb_refl, IH. reflexivity. }
  rewrite E1, E2. reflexivity.
Qed.

(** X24.  After a successful edit, fetching the recipe returns the
    ingredients whose submitted name is not blank, in the order submitted,
    each with its submitted position as order_no and no unit, and the steps
    that have a body, an uploaded file or an existing image, in the order
    submitted with their positions as order_no; a step for which no file is
    uploaded keeps the existing image path submitted for it. *)
Theorem edit_then_fetch_keeps_submitted_order :
  forall (w : World) (sess : Session) (rid : Z) (f : UpdateForm.t)
         (cu : User.t) (r0 : Recipe.t),
    get_current_user (db w) sess = Some cu ->
    verify_csrf sess (UpdateForm.csrf_token f) = Ok tt ->
    get_recipe (db w) rid = Ok (Some r0) ->
    opt_Z_eqb (Recipe.author_id r0) (User.id cu) = true ->
    let w' := fst (fst (recipe_update w sess rid f)) in
    let names := or_empty (UpdateForm.ingredients_name f) in
    let bodies := or_empty (UpdateForm.steps_body f) in
    let olds := or_empty (UpdateForm.steps_existing_image f) in
    let imgs := or_empty (UpdateForm.steps_image f) in
    let kept :=
      kept_positions 0
        (map (edit_step_kept bodies olds imgs)
             (count_from 0 (Nat.max (List.length bodies)
                                    (Nat.max (List.length olds) (List.length imgs))))) in
    map Ingredient.name (select_ingredients (db w') rid)
      = filter truthy (map strip names)
    /\ map Ingredient.order_no (select_ingredients (db w') rid)
       = kept_positions 0 (map (fun n => truthy (strip n)) names)
    /\ Forall (fun i => Ingredient.unit i = None) (select_ingredients (db w') rid)
    /\ map Step.body (select_steps (db w') rid) = map (edit_body_at bodies) kept
    /\ map Step.order_no (select_steps (db w') rid) = kept
    /\ Forall (fun s => uploaded_at imgs (Step.order_no s) = false ->
                        Step.image_path s = or_None (at_index olds (Step.order_no s)))
              (select_steps (db w') rid)
    /\ page_ingredients (snd (recipe_detail w' sess rid))
       = select_ingredients (db w') rid
    /\ page_steps (snd (recipe_detail w' sess rid)) = select_steps (db w') rid.
Proof.
  intros w sess rid f cu r0 Hu Hv Hr Ho w' names bodies olds imgs kept.
  pose proof (get_recipe_id (db w) rid r0 Hr) as Hid.
  destruct (recipe_update_ends_with_tags w sess rid f cu r0 Hu Hv Hr Ho)
    as [Heq [_ [_ [_ [_ Hsteps2]]]]].
  assert (Ew : w' = fst (fst (recipe_update w sess rid f))) by reflexivity.
  rewrite Heq in Ew. simpl fst in Ew.
  set (w1 := fst (update_main_image w f r0)) in *.
  set (r := updated_recipe f r0 (snd (update_main_image w f r0))) in *.
  set (d2 := update_ingredients _ rid _ 0 _) in *.
  set (d3 := set_steps d2 _) in *.
  set (W := update_steps (set_db w1 d3) rid _ _ _ 0 _) in *.
  destruct (attach_tags_frame (db W) rid (split_comma (UpdateForm.tags_csv f)))
    as [_ [Tr [_ [Ti [Ts _]]]]].
  assert (Hi' : ingredients (db w') = ingredients (db W)) by (rewrite Ew; exact Ti).
  assert (Hs' : steps (db w') = steps (db W)) by (rewrite Ew; exact Ts).
  assert (Hr' : recipes (db w') = recipes (db W)) by (rewrite Ew; exact Tr).
  assert (Hing : ingredients (db W) = ingredients d2).
  { subst W. match goal with |- ingredients (db (update_steps ?W0 ?R ?B ?O ?I ?X ?N)) = _ =>
      destruct (update_steps_frame W0 R B O I X N) as [_ [_ [_ [Hx _]]]]; rewrite Hx
    end. reflexivity. }
  assert (Hrec : recipes (db W) = recipes (update_recipe (db w) r)).
  { subst W. match goal with |- recipes (db (update_steps ?W0 ?R ?B ?O ?I ?X ?N)) = _ =>
      destruct (update_steps_frame W0 R B O I X N) as [_ [Hx _]]; rewrite Hx
    end. simpl. subst d2.
    match goal with |- recipes (update_ingredients ?D ?R ?A ?I ?N) = _ =>
      destruct (update_ingredients_frame D R A N I) as [_ [Hy _]]; rewrite Hy
    end. reflexivity. }
  assert (Hirows : exists irows,
             ingredients d2
             = (filter (fun i => negb (Ingredient.recipe_id i =? rid))
                       (ingredients (db w)) ++ irows)%list
             /\ Forall (fun i => Ingredient.recipe_id i = rid) irows
             /\ Forall (fun i => Ingredient.unit i = None) irows
             /\ map Ingredient.name irows = filter truthy (map strip names)
             /\ map Ingredient.order_no irows
                = kept_positions 0 (map (fun n => truthy (strip n)) names)).
  { subst d2. match goal with |- context [update_ingredients ?D ?R ?A ?I ?N] =>
      destruct (update_ingredients_rows_full D R A N I) as [irows HH]
    end. exists irows. exact HH. }
  assert (Hsrows : exists srows,
             steps (db W)
             = (filter (fun s => negb (Step.recipe_id s =? rid)) (steps (db w))
                ++ srows)%list
             /\ Forall (fun s => Step.recipe_id s = rid) srows
             /\ Forall (fun s => uploaded_at imgs (Step.order_no s) = false ->
                                 Step.image_path s
                                 = or_None (at_index olds (Step.order_no s))) srows
             /\ map Step.order_no srows = kept
             /\ map Step.body srows = map (edit_body_at bodies) kept).
  { subst W. match goal with |- context [update_steps ?W0 ?R ?B ?O ?I ?X ?N] =>
      destruct (update_steps_rows_full W0 R B O I X N)
        as [srows [Hs [Fs [Us [Os Bs]]]]]
    end. exists srows. split; [|repeat split; assumption]. rewrite Hs. simpl.
    rewrite Hsteps2. reflexivity. }
  destruct Hirows as [irows [Hi [Fi [Ui [Ni Oi]]]]].
  destruct Hsrows as [srows [Hs [Fs [Us [Os Bs]]]]].
  assert (Eing : select_ingredients (db w') rid = irows).
  { unfold select_ingredients. rewrite Hi', Hing, Hi.
    rewrite (filter_replaced_rows Ingredient.recipe_id rid _ irows Fi).
    apply order_by_sorted. rewrite Oi. apply kept_positions_sorted. }
  assert (Est : select_steps (db w') rid = srows).
  { unfold select_steps. rewrite Hs', Hs.
    rewrite (filter_replaced_rows Step.recipe_id rid _ srows Fs).
    apply order_by_sorted. rewrite Os. apply kept_positions_sorted. }
  rewrite Eing, Est.
  split; [exact Ni|]. split; [exact Oi|]. split; [exact Ui|].
  split; [exact Bs|]. split; [exact Os|]. split; [exact Us|].
  assert (Hget : exists r', get_recipe (db w') rid = Ok (Some r')).
  { exists r. destruct (get_recipe_Ok_inv _ _ _ Hr) as [Hrange Hf].
    rewrite (get_recipe_in_range _ _ Hrange). f_equal.
    rewrite Hr', Hrec. unfold update_recipe. simpl.
    apply (find_map_replace rid r (recipes (db w)) r0); [exact Hid|exact Hf]. }
  destruct Hget as [r' Hget].
  destruct (verify_csrf_Ok_inv sess _ tt Hv) as [Htok [Hne _]].
  unfold recipe_detail. rewrite (ensure_csrf_with_token w' sess _ Htok Hne), Hget.
  simpl. split; [exact Eing|exact Est].
Qed.

(* ----------------------------------------------------------------- *)
(** *** Tag names *)

Lemma split_comma_not_nil (s : string) : split_comma s <> [].
Proof.
  induction s as [|c s IH]; simpl; [discriminate|].
  destruct (Ascii.eqb c ","); [discriminate|].
  destruct (split_comma s); discriminate.
Qed.

Lemma split_comma_no_comma (s : string) :
  Forall (fun p => has_comma p = false) (split_comma s).
Proof.
  induction s as [|c s IH]; simpl.
  - constructor; [reflexivity|constructor].
  - destruct (Ascii.eqb c ",") eqn:E.
    + constructor; [reflexivity|exact IH].
    + destruct (split_comma s) as [|x xs].
      * constructor; [simpl; rewrite E; reflexivity|constructor].
      * inversion IH; subst.
        constructor; [simpl; rewrite E; assumption|assumption].
Qed.

Lemma split_comma_whole (s : string) :
  has_comma s = false -> split_comma s = [s].
Proof.
  induction s as [|c s IH]; simpl; [reflexivity|].
  destruct (Ascii.eqb c ","); simpl; [discriminate|].
  intros H. rewrite (IH H). reflexivity.
Qed.

Lemma split_comma_app (x s : string) :
  has_comma x = false ->
  split_comma (x ++ String "," s) = x :: split_comma s.
Proof.
  induction x as [|c x IH]; simpl.
  - intros _. reflexivity.
  - destruct (Ascii.eqb c ","); simpl; [discriminate|].
    intros H. rewrite (IH H). reflexivity.
Qed.

Lemma strip_space (s : string) : strip (String " " s) = strip s.
Proof. reflexivity. Qed.

(** What [split(",")] makes of a [", ".join] of names without commas. *)
Lemma split_join_pieces (names : list string) :
  Forall (fun n => has_comma n = false /\ strip n = n) names ->
  Forall (fun raw => strip raw = "" \/ In (strip raw) names)
         (split_comma (join_comma_space names)).
Proof.
  induction names as [|x rest IH]; intros H.
  - simpl. constructor; [left; reflexivity|constructor].
  - inversion H as [|? ? [Hc Hs] Hrest]; subst.
    destruct rest as [|y rest'].
    + simpl. rewrite (split_comma_whole x Hc).
      constructor; [right; rewrite Hs; left; reflexivity|constructor].
    + specialize (IH Hrest).
      remember (join_comma_space (y :: rest')) as j eqn:Ej.
      assert (E : join_comma_space (x :: y :: rest')
                  = (x ++ String "," (String " " j))%string)
        by (rewrite Ej; reflexivity).
      rewrite E, (split_comma_app x _ Hc).
      constructor; [right; rewrite Hs; left; reflexivity|].
      simpl split_comma.
      destruct (split_comma j) as [|p ps] eqn:Ep;
        [exfalso; exact (split_comma_not_nil j Ep)|].
      inversion IH as [|? ? Hp Hps]; subst.
      constructor.
      * rewrite strip_space. destruct Hp as [Hp|Hp]; [left; exact Hp|].
        right. right. exact Hp.
      * apply (Forall_impl _ (P := fun raw => strip raw = "" \/ In (strip raw) (y :: rest')));
          [|exact Hps].
        intros a [Ha|Ha]; [left; exact Ha|right; right; exact Ha].
Qed.

Lemma attach_known_tags (d : DB) (rid : Z) (raws : list string) :
  Forall (fun raw => strip raw = ""
                     \/ exists t, find_tag d (strip raw) = Some t
                                  /\ has_recipe_tag d rid (Tag.id t) = true) raws ->
  attach_tags d rid raws = d.
Proof.
  induction 1 as [|raw rest Hraw _ IH]; simpl; [reflexivity|].
  destruct Hraw as [He | [t [Hf Hh]]].
  - rewrite He. simpl. exact IH.
  - destruct (truthy (strip raw)); simpl; [|exact IH].
    rewrite Hf, Hh. exact IH.
Qed.

Lemma find_unique_name (l : list Tag.t) (t : Tag.t) :
  NoDup (map Tag.name l) -> In t l ->
  find (fun t0 => String.eqb (Tag.name t0) (Tag.name t)) l = Some t.
Proof.
  induction l as [|a l IH]; simpl; intros Hnd Hin; [contradiction|].
  inversion Hnd as [|? ? Hna Hl]; subst.
  destruct Hin as [->|Hin].
  - rewrite String.eqb_refl. reflexivity.
  - destruct (String.eqb (Tag.name a) (Tag.name t)) eqn:E.
    + apply String.eqb_eq in E. exfalso. apply Hna. rewrite E.
      apply in_map. exact Hin.
    + apply IH; assumption.
Qed.

Lemma tag_name_ok_inv (n : string) :
  tag_name_ok n = true -> n <> "" /\ has_comma n = false /\ strip n = n.
Proof.
  unfold tag_name_ok. intros H.
  apply andb_prop in H. destruct H as [H H3].
  apply andb_prop in H. destruct H as [H1 H2].
  split; [apply truthy_true_iff; exact H1|].
  split; [destruct (has_comma n); [discriminate|reflexivity]|].
  apply String.eqb_eq. exact H3.
Qed.

(** X25.  The edit form of a recipe shows its tag names joined by ", ".
    When the names in the Tag table are distinct, stripped, non-empty and
    without a comma, submitting the form's tags_csv unchanged in an edit
    adds no Tag row and no RecipeTag row. *)
Theorem edit_form_tags_resubmitted_change_nothing :
  forall (w : World) (sess : Session) (rid : Z) (f : UpdateForm.t)
         (cu : User.t) (r0 : Recipe.t),
    get_current_user (db w) sess = Some cu ->
    verify_csrf sess (UpdateForm.csrf_token f) = Ok tt ->
    get_recipe (db w) rid = Ok (Some r0) ->
    opt_Z_eqb (Recipe.author_id r0) (User.id cu) = true ->
    tags_wf (db w) ->
    UpdateForm.tags_csv f = page_tags_csv (snd (recipe_edit_form w sess rid)) ->
    let w' := fst (fst (recipe_update w sess rid f)) in
    page_tags_csv (snd (recipe_edit_form w sess rid))
      = join_comma_space (map Tag.name (select_tags (db w) rid))
    /\ tags (db w') = tags (db w)
    /\ recipe_tags (db w') = recipe_tags (db w).
Proof.
  intros w sess rid f cu r0 Hu Hv Hr Ho [Hnd Hok] Hcsv w'.
  destruct (verify_csrf_Ok_inv sess _ tt Hv) as [Htok [Hne _]].
  assert (Hform : page_tags_csv (snd (recipe_edit_form w sess rid))
                  = join_comma_space (map Tag.name (select_tags (db w) rid))).
  { unfold recipe_edit_form.
    rewrite (ensure_csrf_with_token w sess _ Htok Hne).
    rewrite (require_owner_ok (db w) sess rid cu r0 Hu Hr), Ho. reflexivity. }
  split; [exact Hform|].
  rewrite Hform in Hcsv.
  destruct (recipe_update_ends_with_tags w sess rid f cu r0 Hu Hv Hr Ho)
    as [Heq [Ht [Hrt _]]].
  subst w'. rewrite Heq. simpl fst.
  match type of Heq with
  | _ = (set_db ?W0 _, _, _) => set (W := W0) in *
  end.
  assert (Hsame : attach_tags (db W) rid (split_comma (UpdateForm.tags_csv f))
                  = db W).
  { apply attach_known_tags. rewrite Hcsv.
    apply (Forall_impl _ (P := fun raw =>
             strip raw = ""
             \/ In (strip raw) (map Tag.name (select_tags (db w) rid)))).
    - intros raw [He|Hin]; [left; exact He|right].
      apply in_map_iff in Hin. destruct Hin as [t [Hn Hin]].
      apply select_tags_In in Hin. destruct Hin as [Hin Hlink].
      exists t. split.
      + unfold find_tag. rewrite Ht, <- Hn.
        apply find_unique_name; assumption.
      + apply has_recipe_tag_In. rewrite Hrt. exact Hlink.
    - apply split_join_pieces. apply Forall_forall. intros n Hin.
      apply in_map_iff in Hin. destruct Hin as [t [Hn Hin]].
      apply select_tags_In in Hin. destruct Hin as [Hin _].
      rewrite Forall_forall in Hok. specialize (Hok t Hin).
      apply tag_name_ok_inv in Hok. rewrite Hn in Hok. tauto. }
  rewrite Hsame. simpl. split; assumption.
Qed.

Lemma lstrip_no_comma (s : string) :
  has_comma s = false -> has_comma (lstrip s) = false.
Proof.
  induction s as [|c s IH]; simpl; [auto|].
  intros H. destruct (is_space c); [|exact H].
  apply orb_false_elim in H. apply IH. apply H.
Qed.

Lemma rstrip_cons (c : ascii) (s : string) :
  rstrip (String c s)
  = match rstrip s with
    | EmptyString => if is_space c then EmptyString else String c EmptyString
    | String a r => String c (String a r)
    end.
Proof. reflexivity. Qed.

Lemma rstrip_no_comma (s : string) :
  has_comma s = false -> has_comma (rstrip s) = false.
Proof.
  induction s as [|c s IH]; [auto|].
  intros H. simpl in H. apply orb_false_elim in H. destruct H as [Hc Hs].
  specialize (IH Hs). rewrite rstrip_cons.
  destruct (rstrip s) as [|a r].
  - destruct (is_space c); simpl; [reflexivity|rewrite Hc; reflexivity].
  - simpl in *. rewrite Hc. exact IH.
Qed.

Lemma rstrip_idem (s : string) : rstrip (rstrip s) = rstrip s.
Proof.
  induction s as [|c s IH]; [reflexivity|].
  rewrite rstrip_cons. destruct (rstrip s) as [|a r] eqn:E.
  - destruct (is_space c) eqn:Hc; [reflexivity|].
    rewrite rstrip_cons. simpl rstrip. rewrite Hc. reflexivity.
  - rewrite rstrip_cons, IH. reflexivity.
Qed.

Lemma lstrip_rstrip (s : string) : lstrip (rstrip (lstrip s)) = rstrip (lstrip s).
Proof.
  induction s as [|c s IH]; simpl lstrip; [reflexivity|].
  destruct (is_space c) eqn:Hc; [exact IH|].
  rewrite rstrip_cons. destruct (rstrip s); [rewrite Hc|]; simpl; rewrite Hc;
    reflexivity.
Qed.

Lemma strip_idem (s : string) : strip (strip s) = strip s.
Proof. unfold strip. rewrite lstrip_rstrip, rstrip_idem. reflexivity. Qed.

Lemma strip_name_ok (raw : string) :
  has_comma raw = false -> truthy (strip raw) = true ->
  tag_name_ok (strip raw) = true.
Proof.
  intros Hc Ht. unfold tag_name_ok. rewrite Ht, strip_idem, String.eqb_refl.
  unfold strip. rewrite (rstrip_no_comma _ (lstrip_no_comma _ Hc)). reflexivity.
Qed.

Lemma attach_tags_names_ok (d : DB) (rid : Z) (raws : list string) :
  Forall (fun p => has_comma p = false) raws ->
  Forall (fun t => tag_name_ok (Tag.name t) = true) (tags d) ->
  Forall (fun t => tag_name_ok (Tag.name t) = true) (tags (attach_tags d rid raws)).
Proof.
  intros Hr. revert d.
  induction Hr as [|raw rest Hraw _ IH]; intros d Hd; simpl; [exact Hd|].
  destruct (truthy (strip raw)) eqn:Ht; simpl; [|apply IH; exact Hd].
  destruct (find_tag d (strip raw)) as [t|]; simpl.
  - destruct (has_recipe_tag d rid (Tag.id t)); apply IH; exact Hd.
  - destruct (has_recipe_tag _ rid _); apply IH; simpl;
      (apply Forall_app; split; [exact Hd|]);
      (constructor; [|constructor]); simpl; apply strip_name_ok; assumption.
Qed.

Lemma attach_tags_wf (D d : DB) (rid : Z) (tags_csv : string) :
  tags D = tags d -> tags_wf d ->
  tags_wf (attach_tags D rid (split_comma tags_csv)).
Proof.
  intros Ht [Hnd Hok]. rewrite <- Ht in Hnd, Hok. split.
  - apply (attach_tags_spec D rid (split_comma tags_csv)). exact Hnd.
  - apply attach_tags_names_ok; [apply split_comma_no_comma|exact Hok].
Qed.

(** X26.  Every mutating request keeps the names of the Tag table distinct,
    non-empty, stripped and free of commas: the application itself prevents
    duplicate tag names, as the comment on the Tag model says. *)
Theorem tag_names_stay_distinct :
  forall (w : World) (sess : Session) (m : Mutation),
    tags_wf (db w) -> tags_wf (db (fst (fst (dispatch w sess m)))).
Proof.
  intros w sess m Hwf. destruct m; simpl.
  - unfold signup. destruct (verify_csrf sess csrf_token); [|exact Hwf].
    destruct (find_user_by_email (db w) email).
    + pose proof (ensure_csrf_db w sess) as [Hd _].
      destruct (_ensure_csrf w sess) as [w1 s1]. simpl in *. rewrite Hd. exact Hwf.
    + simpl. exact Hwf.
  - unfold login. destruct (verify_csrf sess csrf_token); [|exact Hwf].
    pose proof (ensure_csrf_db w sess) as [Hd _].
    destruct (find_user_by_email (db w) email) as [u|].
    + destruct (negb (pwd_verify password (User.password_hash u))); [|exact Hwf].
      destruct (_ensure_csrf w sess) as [w1 s1]. simpl in *. rewrite Hd. exact Hwf.
    + destruct (_ensure_csrf w sess) as [w1 s1]. simpl in *. rewrite Hd. exact Hwf.
  - unfold logout. destruct (verify_csrf sess csrf_token); exact Hwf.
  - destruct (get_current_user (db w) sess) as [cu|] eqn:Hu.
    2:{ unfold recipe_create. rewrite Hu. exact Hwf. }
    destruct (verify_csrf sess (CreateForm.csrf_token f)) as [[]|e] eqn:Hv.
    2:{ unfold recipe_create. rewrite Hu, Hv. exact Hwf. }
    destruct (recipe_create_ends_with_tags w sess f cu Hu Hv) as [W [Ht [_ Heq]]].
    cbv zeta in Heq. rewrite Heq. simpl fst.
    apply (attach_tags_wf (db W) (db w)); assumption.
  - destruct (get_current_user (db w) sess) as [cu|] eqn:Hu.
    2:{ unfold recipe_update. rewrite Hu. exact Hwf. }
    destruct (verify_csrf sess (UpdateForm.csrf_token f)) as [[]|e] eqn:Hv.
    2:{ unfold recipe_update. rewrite Hu, Hv. exact Hwf. }
    destruct (get_recipe (db w) rid) as [[r0|]|e] eqn:Hr.
    2:{ unfold recipe_update. rewrite Hu, Hv, Hr. exact Hwf. }
    2:{ unfold recipe_update. rewrite Hu, Hv, Hr. exact Hwf. }
    destruct (opt_Z_eqb (Recipe.author_id r0) (User.id cu)) eqn:Ho.
    2:{ unfold recipe_update. rewrite Hu, Hv, Hr, Ho. exact Hwf. }
    destruct (recipe_update_ends_with_tags w sess rid f cu r0 Hu Hv Hr Ho)
      as [Heq [Ht _]].
    rewrite Heq. simpl fst.
    match type of Heq with
    | _ = (set_db ?W0 _, _, _) => apply (attach_tags_wf (db W0) (db w))
    end; assumption.
  - unfold recipe_delete.
    destruct (verify_csrf sess csrf_token); [|exact Hwf].
    destruct (_require_owner (db w) sess rid) as [[r user]|e]; exact Hwf.
  - unfold favorite_recipe.
    destruct (get_current_user (db w) sess) as [u|]; [|exact Hwf].
    destruct (verify_csrf sess csrf_token); [|exact Hwf].
    destruct (sqlite_bind rid); [|exact Hwf].
    simpl. destruct (_is_favorited (db w) (User.id u) rid); exact Hwf.
  - unfold unfavorite_recipe.
    destruct (get_current_user (db w) sess) as [u|]; [|exact Hwf].
    destruct (verify_csrf sess csrf_token); [|exact Hwf].
    destruct (sqlite_bind rid); exact Hwf.
Qed.

End MoreProperties.

(* ----------------------------------------------------------------- *)
(** *** The "+" repair script and the column migrations *)

Lemma append_not_empty (s : string) (c : ascii) (t : string) :
  s ++ String c t <> "".
Proof. destruct s; discriminate. Qed.

Lemma endswith_plus_snoc (p : string) : endswith_plus (p ++ "+") = true.
Proof.
  induction p as [|c p IH]; simpl; [reflexivity|].
  destruct (p ++ "+") eqn:E; [|exact IH].
  exfalso. exact (append_not_empty p _ _ E).
Qed.

Lemma drop_last_snoc (p : string) : drop_last (p ++ "+") = p.
Proof.
  induction p as [|c p IH]; simpl; [reflexivity|].
  destruct (p ++ "+") eqn:E; [exfalso; exact (append_not_empty p _ _ E)|].
  rewrite IH. reflexivity.
Qed.

Lemma endswith_plus_drop_last (s : string) :
  endswith_plus s = true -> s = drop_last s ++ "+".
Proof.
  induction s as [|c s IH]; simpl; [discriminate|].
  destruct s as [|c' s'].
  - intros H. apply Ascii.eqb_eq in H. subst c. reflexivity.
  - intros H. simpl. f_equal. apply IH. exact H.
Qed.

Lemma endswith_plus_webp (a : string) : endswith_plus (a ++ ".webp") = false.
Proof.
  induction a as [|c a IH]; simpl; [reflexivity|].
  destruct (a ++ ".webp") eqn:E; [exfalso; exact (append_not_empty a _ _ E)|].
  exact IH.
Qed.

Lemma fix_row_plus_removed (r : Recipe.t) :
  plus_removed r (fst (fix_row r)) /\ snd (fix_row r) = has_plus r.
Proof.
  unfold fix_row, plus_removed, has_plus.
  destruct (Recipe.main_image r) as [p|] eqn:Em.
  - destruct (endswith_plus p) eqn:Ee; simpl.
    + repeat split. left. exists (drop_last p).
      split; [apply endswith_plus_drop_last; exact Ee|reflexivity].
    + rewrite Em. repeat split. right. split; reflexivity.
  - simpl. rewrite Em. repeat split.
Qed.

Lemma fixed_count (l : list Recipe.t) :
  List.length (filter snd (map fix_row l)) = List.length (filter has_plus l).
Proof.
  induction l as [|r l IH]; simpl; [reflexivity|].
  destruct (fix_row_plus_removed r) as [_ Hs]. rewrite Hs.
  destruct (has_plus r); simpl; rewrite IH; reflexivity.
Qed.

(** X21.  The repair script takes one trailing "+" off every main image
    path that ends in one and leaves every other row, every other field and
    every other table as it was; it prints "fixed: n" where n is the number
    of rows whose path ended in "+". *)
Theorem fix_plus_removes_one_trailing_plus :
  forall w : World,
    let w' := fix_plus_in_paths w in
    Forall2 plus_removed (recipes (db w)) (recipes (db w'))
    /\ stdout w'
       = (stdout w
          ++ [("fixed: " ++ str_of_int (len (filter has_plus (recipes (db w)))))%string])%list
    /\ users (db w') = users (db w) /\ recipe_seq (db w') = recipe_seq (db w)
    /\ ingredients (db w') = ingredients (db w) /\ steps (db w') = steps (db w)
    /\ tags (db w') = tags (db w) /\ recipe_tags (db w') = recipe_tags (db w)
    /\ favorites (db w') = favorites (db w) /\ media w' = media w.
Proof.
  intros w w'. subst w'. unfold fix_plus_in_paths, print, len.
  rewrite fixed_count. simpl.
  split; [|split; [|repeat split; reflexivity]].
  - rewrite map_map. induction (recipes (db w)) as [|r l IH]; simpl;
      constructor; [apply fix_row_plus_removed|exact IH].
  - reflexivity.
Qed.

(** X22.  After a create that uploads a main image, one run of the repair
    script leaves the new recipe with the path /media/<hex>.webp, without
    the "+", and that path does not end in "+", so a second run leaves it
    alone. *)
Theorem fix_plus_repairs_the_created_path :
  forall (P : Platform) (w : World) (sess : Session) (cu : User.t)
         (up : UploadFile) (f : CreateForm.t),
    get_current_user (db w) sess = Some cu ->
    truthy (filename up) = true ->
    verify_csrf sess (CreateForm.csrf_token f) = Ok tt ->
    CreateForm.image f = Some up ->
    let w1 := fst (fst (recipe_create w sess f)) in
    let path := "/media/" ++ uuid4_hex (entropy w) ++ ".webp" in
    exists r1 r2,
      page_recipe (snd (recipe_create w sess f)) = Some r1
      /\ In r1 (recipes (db w1))
      /\ Recipe.main_image r1 = Some (path ++ "+")
      /\ In r2 (recipes (db (fix_plus_in_paths w1)))
      /\ Recipe.id r2 = Recipe.id r1
      /\ Recipe.main_image r2 = Some path
      /\ fix_row r2 = (r2, false).
Proof.
  intros P w sess cu up f Hu Hfn Hv Himg w1 path.
  destruct (create_with_main_image w sess cu up f Hu Hfn Hv Himg)
    as [w' [r [ings [steps [tags [Heq [Hin Hp]]]]]]].
  rewrite save_main_image_path in Hp.
  assert (Hp1 : Recipe.main_image r = Some (path ++ "+")) by exact Hp.
  subst w1. rewrite Heq. simpl fst; simpl snd.
  exists r, (fst (fix_row r)).
  assert (Hfix : fst (fix_row r)
                 = Recipe.mk (Recipe.id r) (Recipe.title r) (Recipe.description r)
                             (Some path) (Recipe.author_id r) (Recipe.view_count r)).
  { unfold fix_row. rewrite Hp1, endswith_plus_snoc, drop_last_snoc. reflexivity. }
  split; [reflexivity|]. split; [exact Hin|]. split; [exact Hp1|].
  split.
  - unfold fix_plus_in_paths, print. simpl. rewrite map_map.
    apply in_map_iff. exists r. split; [reflexivity|exact Hin].
  - assert (E : endswith_plus path = false).
    { subst path. apply (endswith_plus_webp ("/media/" ++ uuid4_hex (entropy w))). }
    rewrite Hfix. split; [reflexivity|]. split; [reflexivity|].
    unfold fix_row. cbn [Recipe.main_image]. rewrite E. reflexivity.
Qed.

Lemma has_column_add (cols : columns) (name decl n : string) :
  has_column (add_column cols name decl) n
  = has_column cols n || String.eqb name n.
Proof.
  unfold has_column, add_column. rewrite existsb_app. simpl.
  rewrite orb_false_r. reflexivity.
Qed.

(** X23.  The startup migration leaves the recipe table with the columns
    author_id and view_count, keeps every column it found (in place, the
    new ones appended), adds no column that was there, and run again
    changes nothing; the step migration does the same for image_path and
    tells on the second run that the column is there. *)
Theorem column_migrations_are_idempotent :
  forall cols : columns,
    has_column (_migrate_sqlite cols) "author_id" = true
    /\ has_column (_migrate_sqlite cols) "view_count" = true
    /\ (exists added, _migrate_sqlite cols = (cols ++ added)%list
                      /\ Forall (fun c => has_column cols (fst c) = false) added
                      /\ NoDup (map fst added))
    /\ _migrate_sqlite (_migrate_sqlite cols) = _migrate_sqlite cols
    /\ has_column (fst (add_image_path_column cols)) "image_path" = true
    /\ (exists added, fst (add_image_path_column cols) = (cols ++ added)%list
                      /\ Forall (fun c => has_column cols (fst c) = false) added)
    /\ add_image_path_column (fst (add_image_path_column cols))
       = (fst (add_image_path_column cols), "image_path column already there").
Proof.
  intros cols.
  assert (M : has_column (_migrate_sqlite cols) "author_id" = true
              /\ has_column (_migrate_sqlite cols) "view_count" = true).
  { unfold _migrate_sqlite.
    destruct (has_column cols "author_id") eqn:Ea;
      destruct (has_column cols "view_count") eqn:Ev;
      rewrite ?has_column_add, ?Ea, ?Ev; simpl; rewrite ?orb_true_r; auto. }
  assert (I : has_column (fst (add_image_path_column cols)) "image_path" = true).
  { unfold add_image_path_column.
    destruct (has_column cols "image_path") eqn:Ei; simpl; [exact Ei|].
    rewrite has_column_add, Ei. reflexivity. }
  destruct M as [Ma Mv].
  split; [exact Ma|]. split; [exact Mv|]. split; [|split; [|split; [exact I|split]]].
  - unfold _migrate_sqlite.
    destruct (has_column cols "author_id") eqn:Ea;
      destruct (has_column cols "view_count") eqn:Ev.
    + exists []. rewrite app_nil_r. repeat split; constructor.
    + eexists [_]. split; [reflexivity|]. split.
      * constructor; [exact Ev|constructor].
      * constructor; [intros []|constructor].
    + eexists [_]. split; [reflexivity|]. split.
      * constructor; [exact Ea|constructor].
      * constructor; [intros []|constructor].
    + eexists [_; _]. unfold add_column. rewrite <- app_assoc.
      split; [reflexivity|]. split.
      * constructor; [exact Ea|constructor; [exact Ev|constructor]].
      * constructor; [|constructor; [intros []|constructor]].
        simpl. intros [H|[]]. discriminate.
  - unfold _migrate_sqlite at 1. rewrite Ma, Mv. reflexivity.
  - unfold add_image_path_column.
    destruct (has_column cols "image_path") eqn:Ei; simpl.
    + exists []. rewrite app_nil_r. split; [reflexivity|constructor].
    + eexists [_]. split; [reflexivity|]. constructor; [exact Ei|constructor].
  - unfold add_image_path_column at 1. rewrite I. reflexivity.
Qed.

(* ================================================================= *)
(** ** The properties on the reference platform *)

Import Reference Sample.

Lemma reference_laws : PillowLaws Reference.platform.
Proof.
  constructor.
  - intros im x0 y0 x1 y1 Hx0 Hx Hx1 Hy0 Hy Hy1. simpl. unfold ref_crop.
    destruct ((x1 <? x0) || (y1 <? y0)) eqn:E.
    + apply orb_prop in E. destruct E as [E|E]; apply Z.ltb_lt in E; lia.
    + eexists. split; [reflexivity|]. split; reflexivity.
  - intros [iw ih] w h Hiw Hih Hw Hh. simpl in *. 
    apply Z.ltb_lt in Hiw, Hih, Hw, Hh. rewrite Hiw, Hih, Hw, Hh. simpl.
    eexists. split; [reflexivity|]. split; reflexivity.
Qed.

(** C4 (what the code does).  The step crop fields of the create form never
    reach [save_step_image]: the handler returns the same world and response
    whatever they hold.  For a 100 x 80 step picture with the full rectangle
    (0, 0, 50, 50), the crop tuple is computed, the stored file is the
    100 x 80 picture re-encoded, and passing the tuple to [save_step_image]
    would have stored a 1200 x 675 picture. *)
Theorem step_crop_rectangle_is_not_applied :
  (forall (P : Platform) (w : World) (sess : Session) (f : CreateForm.t)
          (xs ys ws hs : option (list string)),
      recipe_create (P := P) w sess (with_steps_crop f xs ys ws hs)
      = recipe_create (P := P) w sess f)
  /\ _crop_tuple_at 0 (CreateForm.steps_crop_x step_with_crop)
       (CreateForm.steps_crop_y step_with_crop)
       (CreateForm.steps_crop_w step_with_crop)
       (CreateForm.steps_crop_h step_with_crop) = Some (0, 0, 50, 50)
  /\ (let w' := fst (fst (recipe_create world1 session1 step_with_crop)) in
      map Step.image_path (steps (db w'))
        = [Some "/media/00000000000000000000000000000000.webp"]
      /\ option_map Image_open
           (read_media w' "00000000000000000000000000000000.webp")
         = Some (Some (100, 80)))
  /\ (let w' := fst (save_step_image world1 (Some photo)
                       (Some 0) (Some 0) (Some 50) (Some 50)) in
      option_map Image_open
        (read_media w' "00000000000000000000000000000000.webp")
      = Some (Some (1200, 675))).
Proof.
  split; [intros; apply recipe_create_ignores_steps_crop|].
  split; [reflexivity|]. split; [split; reflexivity|reflexivity].
Qed.

(** C1, at a sample request: the create and the edit of a recipe with a
    main image store the path with the trailing "+". *)
Lemma main_image_path_has_trailing_plus_witness :
  get_current_user (db world2) session1 = Some alice
  /\ truthy (filename photo) = true
  /\ (exists w' r ings steps tags,
        recipe_create world2 session1 (with_photo photo)
          = (w', session1,
             TemplateResponse
               (recipe_detail_html r ings steps tags (Some alice) None))
        /\ In r (recipes (db w'))
        /\ Recipe.main_image r
           = Some "/media/00000000000000000000000000000000.webp+")
  /\ (exists w' r,
        recipe_update world2 session1 1 (edit_form (Some photo))
          = (w', session1, RedirectResponse "/recipes/1" 303)
        /\ get_recipe (db w') 1 = Ok (Some r)
        /\ Recipe.main_image r
           = Some "/media/00000000000000000000000000000000.webp+").
Proof.
  split; [reflexivity|]. split; [reflexivity|].
  destruct (main_image_path_has_trailing_plus (P := platform)
              world2 session1 alice photo eq_refl eq_refl) as [Hc Hu].
  split.
  - exact (Hc (with_photo photo) eq_refl eq_refl).
  - exact (Hu 1 (edit_form (Some photo)) (Recipe.mk 1 "Omelette" "" None (Some 1) 0)
              eq_refl eq_refl eq_refl eq_refl).
Defined.

(** C2, counterexample to the claim as stated: an anonymous request to
    favorite a recipe with a wrong token is answered with the 303 redirect
    to /login, not with a 400. *)
Lemma csrf_rejection_is_not_always_400 :
  sess_csrf_token empty_session <> Some "wrong"
  /\ dispatch world1 empty_session (POST_favorite 1 "wrong")
     = (world1, empty_session, RedirectResponse "/login" 303)
  /\ status_of (snd (dispatch world1 empty_session (POST_favorite 1 "wrong"))) <> 400.
Proof.
  split; [discriminate|]. split; [reflexivity|]. simpl. discriminate.
Qed.

(** C2, at sample requests: a delete with a wrong token raises 400 and
    changes nothing. *)
Lemma csrf_rejection_changes_nothing_witness :
  (csrf_token_of (POST_recipe_delete 1 "wrong") = ""
   \/ sess_csrf_token session1 <> Some (csrf_token_of (POST_recipe_delete 1 "wrong")))
  /\ is_ascii (csrf_token_of (POST_recipe_delete 1 "wrong")) = true
  /\ (forall st, sess_csrf_token session1 = Some st -> is_ascii st = true)
  /\ dispatch world2 session1 (POST_recipe_delete 1 "wrong")
     = (world2, session1, Uncaught (HTTPException 400 "Invalid CSRF token"))
  /\ status_of (snd (dispatch world2 session1 (POST_recipe_delete 1 "wrong")))
     = 400.
Proof.
  assert (H : csrf_token_of (POST_recipe_delete 1 "wrong") = ""
              \/ sess_csrf_token session1
                 <> Some (csrf_token_of (POST_recipe_delete 1 "wrong"))).
  { right. discriminate. }
  assert (Hs : forall st, sess_csrf_token session1 = Some st -> is_ascii st = true).
  { intros st Hst. injection Hst as <-. reflexivity. }
  split; [exact H|]. split; [reflexivity|]. split; [exact Hs|].
  destruct (csrf_rejection_changes_nothing (P := platform) world2 session1
              (POST_recipe_delete 1 "wrong") H eq_refl Hs) as [_ [Hd Hst]].
  split; [exact Hd|exact Hst].
Defined.

(** C3, counterexample to the claim as stated: bytes that do not decode
    still get a stored path, from [save_step_image] and in the recipe row. *)
Lemma undecodable_upload_still_has_a_path :
  Image_open (content broken) = None
  /\ snd (save_step_image world1 (Some broken) None None None None) <> None
  /\ option_map Recipe.main_image
       (page_recipe (snd (recipe_create world1 session1 (with_photo broken))))
     <> Some None.
Proof.
  split; [reflexivity|]. split; vm_compute; discriminate.
Qed.

(** C3, at a sample upload. *)
Lemma undecodable_upload_keeps_file_and_path_witness :
  truthy (filename broken) = true
  /\ Image_open (content broken) = None
  /\ save_step_image world1 (Some broken) None None None None
     = (mkWorld db1 [("00000000000000000000000000000000.webp", garbage)]
                ["step image save error:"] 1,
        Some "/media/00000000000000000000000000000000.webp")
  /\ fst (save_main_image world1 broken None None None None)
     = mkWorld db1 [("00000000000000000000000000000000.webp", garbage)] [] 1.
Proof.
  split; [reflexivity|]. split; [reflexivity|].
  destruct (undecodable_upload_keeps_file_and_path (P := platform)
              world1 broken eq_refl eq_refl) as [Hs [Hm _]].
  split.
  - exact (Hs None None None None).
  - exact (Hm None None None None).
Defined.

(** C5, counterexample to the claim as stated: for a 100 x 80 image and the
    rectangle (200, 0, 50, 50) the code crops to x = 200 and w = -100, which
    is no rectangle inside the image. *)
Lemma crop_origin_outside_is_not_clamped_inside :
  main_crop_rect 100 80 200 0 50 50 = (200, 0, -100, 50)
  /\ ~ rect_inside 100 80 (main_crop_rect 100 80 200 0 50 50).
Proof.
  split; [reflexivity|]. unfold rect_inside. simpl. lia.
Qed.

(** C5, at a sample picture: the rectangle (90, 70, 50, 50) on the 100 x 80
    picture is clamped to (90, 70, 10, 10) and the result is 1200 x 675. *)
Lemma crop_with_origin_inside_gives_1200x675_witness :
  PillowLaws platform
  /\ open_downscaled picture = Some (100, 80)
  /\ py_int (PFinite (Qmake 90 1)) = Some 90
  /\ py_int (PFinite (Qmake 141 2)) = Some 70
  /\ py_int (PFinite (Qmake 50 1)) = Some 50
  /\ Z.max 0 90 < 100 /\ Z.max 0 70 < 80
  /\ main_crop_rect 100 80 90 70 50 50 = (90, 70, 10, 10)
  /\ rect_inside 100 80 (main_crop_rect 100 80 90 70 50 50)
  /\ exists out,
       main_image_try picture (Some (PFinite (Qmake 90 1)))
                      (Some (PFinite (Qmake 141 2)))
                      (Some (PFinite (Qmake 50 1))) (Some (PFinite (Qmake 50 1)))
         = Some out
       /\ im_width out = 1200 /\ im_height out = 675.
Proof.
  split; [exact reference_laws|].
  split; [reflexivity|]. split; [reflexivity|]. split; [reflexivity|].
  split; [reflexivity|]. split; [reflexivity|]. split; [reflexivity|].
  destruct (crop_with_origin_inside_gives_1200x675 (P := platform)
              (L := reference_laws) picture (100, 80)
              (PFinite (Qmake 90 1)) (PFinite (Qmake 141 2))
              (PFinite (Qmake 50 1)) (PFinite (Qmake 50 1)) 90 70 50 50
              eq_refl eq_refl eq_refl eq_refl eq_refl eq_refl eq_refl)
    as [Hrect [Hin [out [Ht [_ [Hw [Hh _]]]]]]].
  split; [exact Hrect|]. split; [exact Hin|].
  exists out. split; [exact Ht|]. split; assumption.
Defined.

(** C6, at a sample form: crop_h is missing, and the file stored for a
    3200x1600 upload is the encoded 1600x800 picture. *)
Lemma partial_crop_is_no_crop_witness :
  (_to_float_or_none (Some "10") = None \/ _to_float_or_none (Some "5") = None
   \/ _to_float_or_none (Some "20") = None \/ _to_float_or_none None = None)
  /\ main_image_try picture (_to_float_or_none (Some "10"))
       (_to_float_or_none (Some "5")) (_to_float_or_none (Some "20"))
       (_to_float_or_none None) = Some (100, 80)
  /\ recipe_create world1 session1
       (with_crop (with_photo photo) (Some "10") (Some "5") (Some "20") None)
     = recipe_create world1 session1
         (with_crop (with_photo photo) None None None None)
  /\ truthy (filename big_photo) = true
  /\ open_downscaled (content big_photo) = Some (1600, 800)
  /\ save_webp (1600, 800) = Some [Byte.x06; Byte.x40; Byte.x03; Byte.x20]
  /\ get_current_user (db world1) session1 = Some alice
  /\ verify_csrf session1 (CreateForm.csrf_token (with_photo big_photo)) = Ok tt
  /\ CreateForm.image (with_photo big_photo) = Some big_photo
  /\ CreateForm.steps_image (with_photo big_photo) = []
  /\ read_media
       (fst (fst (recipe_create world1 session1
                    (with_crop (with_photo big_photo)
                               (Some "10") (Some "5") (Some "20") None))))
       "00000000000000000000000000000000.webp"
     = Some [Byte.x06; Byte.x40; Byte.x03; Byte.x20].
Proof.
  assert (H : _to_float_or_none (Some "10") = None
              \/ _to_float_or_none (Some "5") = None
              \/ _to_float_or_none (Some "20") = None
              \/ _to_float_or_none None = None).
  { right. right. right. reflexivity. }
  assert (Hopen : open_downscaled (content big_photo) = Some (1600, 800))
    by reflexivity.
  assert (Henc : save_webp (1600, 800)
                 = Some [Byte.x06; Byte.x40; Byte.x03; Byte.x20])
    by reflexivity.
  assert (Hfn : truthy (filename big_photo) = true) by reflexivity.
  assert (Hu : get_current_user (db world1) session1 = Some alice)
    by reflexivity.
  assert (Hv : verify_csrf session1 (CreateForm.csrf_token (with_photo big_photo))
               = Ok tt) by reflexivity.
  split; [exact H|].
  destruct (partial_crop_is_no_crop (P := platform)
              (Some "10") (Some "5") (Some "20") None H) as [Ht [Hc [_ [_ Hst]]]].
  split; [exact (Ht picture)|].
  split; [exact (Hc world1 session1 (with_photo photo))|].
  split; [exact Hfn|]. split; [exact Hopen|]. split; [exact Henc|].
  split; [exact Hu|]. split; [exact Hv|].
  split; [reflexivity|]. split; [reflexivity|].
  destruct (Hst world1 big_photo (1600, 800)
                [Byte.x06; Byte.x40; Byte.x03; Byte.x20] Hfn Hopen Henc)
    as [_ [_ [_ Hcreate]]].
  exact (Hcreate session1 alice (with_photo big_photo) Hu Hv eq_refl eq_refl).
Defined.

(** C7, counterexample to the claim as stated: when the first ingredient
    row is blank, the one ingredient fetched has order_no 1, so the values
    do not start from 0. *)
Lemma order_no_need_not_start_from_0 :
  map Ingredient.name
      (page_ingredients (snd (recipe_create world1 session1 blank_first)))
    = ["egg"]
  /\ map Ingredient.order_no
         (page_ingredients (snd (recipe_create world1 session1 blank_first)))
     = [1]
  /\ map Ingredient.order_no
         (page_ingredients (snd (recipe_create world1 session1 blank_first)))
     <> count_from 0 1.
Proof.
  split; [reflexivity|]. split; [reflexivity|]. vm_compute. discriminate.
Qed.

(** C7, at the sample recipe: two ingredients and two steps come back in the
    order submitted, numbered 0 and 1. *)
Lemma create_then_fetch_keeps_submitted_order_witness :
  get_current_user (db world1) session1 = Some alice
  /\ verify_csrf session1 (CreateForm.csrf_token omelette) = Ok tt
  /\ db_wf (db world1)
  /\ recipe_seq (db world1) < 9223372036854775807
  /\ exists w' r ings steps tags,
       recipe_create world1 session1 omelette
         = (w', session1,
            TemplateResponse
              (recipe_detail_html r ings steps tags (Some alice) None))
       /\ map Ingredient.name ings = ["egg"; "butter"]
       /\ map Ingredient.order_no ings = [0; 1]
       /\ map Step.body steps = ["beat eggs"; "fry"]
       /\ map Step.order_no steps = [0; 1].
Proof.
  assert (Hwf : db_wf (db world1)).
  { unfold db_wf. simpl. repeat split; constructor. }
  assert (Hfull : recipe_seq (db world1) < 9223372036854775807)
    by (simpl; lia).
  split; [reflexivity|]. split; [reflexivity|]. split; [exact Hwf|].
  split; [exact Hfull|].
  destruct (create_then_fetch_keeps_submitted_order (P := platform)
              world1 session1 omelette alice eq_refl eq_refl Hwf Hfull)
    as [w' [r [ings [steps [tags [Heq [Hn [Ho [Hb [Hso _]]]]]]]]]].
  exists w', r, ings, steps, tags.
  split; [exact Heq|]. split; [exact Hn|]. split; [exact Ho|].
  split; [exact Hb|exact Hso].
Defined.

(** C8, at a sample request: an anonymous GET /favorites raises 401. *)
Lemma favorites_page_anonymous_is_401_witness :
  sess_user_id empty_session = None
  /\ snd (favorites_page world1 empty_session "new")
     = Uncaught (HTTPException 401 "Login required").
Proof.
  split; [reflexivity|].
  exact (proj1 (favorites_page_anonymous_is_401 (P := platform)
                  world1 empty_session "new" eq_refl)).
Defined.

(** C9, at a sample edit: the ingredient of recipe 1 had the unit "pcs";
    after the edit the rows of recipe 1 have none. *)
Lemma edit_recreates_ingredients_without_unit_witness :
  recipe_update world2 session1 1 (edit_form None)
    = (fst (fst (recipe_update world2 session1 1 (edit_form None))), session1,
       RedirectResponse ("/recipes/" ++ str_of_int 1) 303)
  /\ map Ingredient.unit (ingredients (db2)) = [Some "pcs"]
  /\ Forall (no_unit_for 1)
       (ingredients (db (fst (fst (recipe_update world2 session1 1 (edit_form None))))))
  /\ map Ingredient.name
         (ingredients (db (fst (fst (recipe_update world2 session1 1
                                       (edit_form None))))))
     = ["egg"; "salt"]
  /\ map Ingredient.unit
         (ingredients (db (fst (fst (recipe_update world2 session1 1
                                       (edit_form None))))))
     = [None; None].
Proof.
  assert (H : recipe_update world2 session1 1 (edit_form None)
              = (fst (fst (recipe_update world2 session1 1 (edit_form None))),
                 session1, RedirectResponse ("/recipes/" ++ str_of_int 1) 303)).
  { vm_compute. reflexivity. }
  split; [exact H|]. split; [reflexivity|].
  destruct (edit_recreates_ingredients_without_unit (P := platform)
              world2 _ session1 session1 1 (edit_form None) H)
    as [Hno [rows [Hi [Hn _]]]].
  split; [exact Hno|]. split.
  - rewrite Hi. exact Hn.
  - reflexivity.
Defined.

(** C10, at a sample request: no recipe has id 42, and the favorite row
    for it is written. *)
Lemma favorite_recipe_inserts_without_recipe_check_witness :
  get_current_user (db world1) session1 = Some alice
  /\ sess_csrf_token session1 = Some "token-0"
  /\ "token-0" <> ""
  /\ is_ascii "token-0" = true
  /\ in_int64 42 = true
  /\ get_recipe (db world1) 42 = Ok None
  /\ exists w',
       favorite_recipe world1 session1 42 "token-0"
         = (w', session1, RedirectResponse "/recipes/42" 303)
       /\ In (Favorite.mk 1 42) (favorites (db w')).
Proof.
  assert (Hne : "token-0" <> "") by discriminate.
  split; [reflexivity|]. split; [reflexivity|]. split; [exact Hne|].
  split; [reflexivity|]. split; [reflexivity|]. split; [reflexivity|].
  destruct (favorite_recipe_inserts_without_recipe_check
              world1 session1 42 "token-0" alice eq_refl eq_refl Hne eq_refl
              eq_refl)
    as [w' [Heq [Hin _]]].
  exists w'. split; [exact Heq|exact Hin].
Defined.

(* ================================================================= *)
(** ** The further properties at sample requests *)

Import Sample2.

Lemma reference_tokens (n : nat) :
  token_urlsafe n <> "" /\ is_ascii (token_urlsafe n) = true.
Proof.
  split; [discriminate|].
  change (is_ascii (hex_digit n) = true). unfold hex_digit.
  assert (H : (n mod 16 < 16)%nat) by (apply Nat.mod_upper_bound; lia).
  remember (n mod 16)%nat as k eqn:Ek. clear Ek.
  do 16 (destruct k as [|k]; [reflexivity|]). lia.
Qed.

(** X1, at a sample request: alice looks at recipe 1 and opens its edit
    form. *)
Lemma fetched_rows_are_the_recipe_rows_in_order_witness :
  snd (recipe_detail world3 session1 1)
    = TemplateResponse
        (recipe_detail_html
           (Recipe.mk 1 "Omelette" "eggs" (Some "/media/a.webp+") (Some 1) 6)
           [Ingredient.mk 1 1 "egg" (Some "2") (Some "pcs") 0]
           [Step.mk 1 1 "beat eggs" 0 None]
           [Tag.mk 1 "breakfast"] (Some alice) (Some (0, false)))
  /\ get_recipe (db world3) 1
     = Ok (Some (Recipe.mk 1 "Omelette" "eggs" (Some "/media/a.webp+") (Some 1) 5))
  /\ get_current_user (db world3) session1 = Some alice
  /\ opt_Z_eqb (Some 1) (User.id alice) = true
  /\ Permutation [Ingredient.mk 1 1 "egg" (Some "2") (Some "pcs") 0]
       (filter (fun i => Ingredient.recipe_id i =? 1) (ingredients (db world3)))
  /\ ascending Step.order_no [Step.mk 1 1 "beat eggs" 0 None]
  /\ exists ings stps tags_csv tok,
       snd (recipe_edit_form world3 session1 1)
         = TemplateResponse
             (recipe_edit_html
                (Recipe.mk 1 "Omelette" "eggs" (Some "/media/a.webp+") (Some 1) 5)
                ings stps tags_csv tok alice).
Proof.
  assert (Hpage : snd (recipe_detail world3 session1 1)
                  = TemplateResponse
                      (recipe_detail_html
                         (Recipe.mk 1 "Omelette" "eggs" (Some "/media/a.webp+")
                                    (Some 1) 6)
                         [Ingredient.mk 1 1 "egg" (Some "2") (Some "pcs") 0]
                         [Step.mk 1 1 "beat eggs" 0 None]
                         [Tag.mk 1 "breakfast"] (Some alice) (Some (0, false))))
    by reflexivity.
  assert (Hr : get_recipe (db world3) 1
               = Ok (Some (Recipe.mk 1 "Omelette" "eggs" (Some "/media/a.webp+")
                                     (Some 1) 5))) by reflexivity.
  assert (Hu : get_current_user (db world3) session1 = Some alice)
    by reflexivity.
  split; [exact Hpage|]. split; [exact Hr|]. split; [exact Hu|].
  split; [reflexivity|].
  destruct (fetched_rows_are_the_recipe_rows_in_order (P := platform)
              world3 session1 1) as [Hd [_ Hex]].
  destruct (Hd _ _ _ _ _ _ Hpage) as [Hp [_ [_ Hs]]].
  split; [exact Hp|]. split; [exact Hs|].
  destruct (Hex _ Hr) as [_ Hform].
  exact (Hform alice Hu eq_refl).
Defined.

(** X2, at a sample request: bob favorites recipe 1, which nobody had
    favorited. *)
Lemma favoriting_twice_is_favoriting_once_witness :
  get_current_user (db world3) session_bob = Some bob
  /\ sess_csrf_token session_bob = Some "token-0"
  /\ "token-0" <> ""
  /\ is_ascii "token-0" = true
  /\ in_int64 1 = true
  /\ _is_favorited
       (db (fst (fst (favorite_recipe world3 session_bob 1 "token-0")))) 2 1 = true
  /\ _fav_count
       (db (fst (fst (favorite_recipe world3 session_bob 1 "token-0")))) 1 = 1.
Proof.
  assert (Hne : "token-0" <> "") by discriminate.
  split; [reflexivity|]. split; [reflexivity|]. split; [exact Hne|].
  split; [reflexivity|]. split; [reflexivity|].
  destruct (favoriting_twice_is_favoriting_once
              world3 session_bob 1 "token-0" bob eq_refl eq_refl Hne eq_refl
              eq_refl)
    as [H1 [H2 _]].
  split; [exact H1|exact H2].
Defined.

(** X3, at a sample request: alice takes recipe 2 off her favorites. *)
Lemma unfavorite_removes_the_pair_witness :
  get_current_user (db world3) session1 = Some alice
  /\ sess_csrf_token session1 = Some "token-0"
  /\ "token-0" <> ""
  /\ is_ascii "token-0" = true
  /\ in_int64 2 = true
  /\ _is_favorited (db world3) 1 2 = true
  /\ _is_favorited
       (db (fst (fst (unfavorite_recipe world3 session1 2 "token-0")))) 1 2 = false.
Proof.
  assert (Hne : "token-0" <> "") by discriminate.
  split; [reflexivity|]. split; [reflexivity|]. split; [exact Hne|].
  split; [reflexivity|]. split; [reflexivity|]. split; [reflexivity|].
  destruct (unfavorite_removes_the_pair
              world3 session1 2 "token-0" alice eq_refl eq_refl Hne eq_refl
              eq_refl)
    as [_ [H2 _]].
  exact H2.
Defined.

(** X4, at a sample request: alice deletes her recipe 1. *)
Lemma delete_removes_recipe_and_children_witness :
  get_current_user (db world3) session1 = Some alice
  /\ sess_csrf_token session1 = Some "token-0"
  /\ "token-0" <> ""
  /\ is_ascii "token-0" = true
  /\ get_recipe (db world3) 1
     = Ok (Some (Recipe.mk 1 "Omelette" "eggs" (Some "/media/a.webp+") (Some 1) 5))
  /\ get_recipe (db (fst (fst (recipe_delete world3 session1 1 "token-0")))) 1 = Ok None
  /\ snd (recipe_detail (fst (fst (recipe_delete world3 session1 1 "token-0")))
                        session1 1)
     = HTMLResponse "Not found" 404.
Proof.
  assert (Hne : "token-0" <> "") by discriminate.
  split; [reflexivity|]. split; [reflexivity|]. split; [exact Hne|].
  split; [reflexivity|]. split; [reflexivity|].
  destruct (delete_removes_recipe_and_children
              world3 session1 1 "token-0" alice
              (Recipe.mk 1 "Omelette" "eggs" (Some "/media/a.webp+") (Some 1) 5)
              eq_refl eq_refl Hne eq_refl eq_refl eq_refl)
    as [_ [H2 [_ [_ [_ [_ [_ [_ [_ H10]]]]]]]]].
  split; [exact H2|exact H10].
Defined.

(** X5, at a sample request: bob tries to delete alice's recipe 1. *)
Lemma only_the_author_edits_or_deletes_witness :
  get_current_user (db world3) session_bob = Some bob
  /\ sess_csrf_token session_bob = Some "token-0"
  /\ "token-0" <> ""
  /\ is_ascii "token-0" = true
  /\ get_recipe (db world3) 1
     = Ok (Some (Recipe.mk 1 "Omelette" "eggs" (Some "/media/a.webp+") (Some 1) 5))
  /\ opt_Z_eqb (Some 1) (User.id bob) = false
  /\ recipe_update world3 session_bob 1 (edit_keep "")
     = (world3, session_bob, HTMLResponse "Forbidden" 403)
  /\ recipe_delete world3 session_bob 1 "token-0"
     = (world3, session_bob, Uncaught (HTTPException 403 "Forbidden")).
Proof.
  assert (Hne : "token-0" <> "") by discriminate.
  split; [reflexivity|]. split; [reflexivity|]. split; [exact Hne|].
  split; [reflexivity|]. split; [reflexivity|]. split; [reflexivity|].
  destruct (only_the_author_edits_or_deletes
              world3 session_bob 1 "token-0" bob
              (Recipe.mk 1 "Omelette" "eggs" (Some "/media/a.webp+") (Some 1) 5)
              eq_refl eq_refl Hne eq_refl eq_refl eq_refl)
    as [H1 [H2 _]].
  split; [exact (H1 (edit_keep "") eq_refl)|exact H2].
Defined.

(** X6, at a sample request: no recipe has id 42. *)
Lemma missing_recipe_is_not_found_witness :
  get_current_user (db world3) session1 = Some alice
  /\ sess_csrf_token session1 = Some "token-0"
  /\ "token-0" <> ""
  /\ is_ascii "token-0" = true
  /\ get_recipe (db world3) 42 = Ok None
  /\ recipe_detail world3 session1 42
     = (world3, session1, HTMLResponse "Not found" 404)
  /\ recipe_delete world3 session1 42 "token-0"
     = (world3, session1, Uncaught (HTTPException 404 "Not found")).
Proof.
  assert (Hne : "token-0" <> "") by discriminate.
  split; [reflexivity|]. split; [reflexivity|]. split; [exact Hne|].
  split; [reflexivity|]. split; [reflexivity|].
  destruct (missing_recipe_is_not_found
              world3 session1 42 "token-0" alice eq_refl eq_refl Hne eq_refl eq_refl)
    as [H1 [_ [H3 _]]].
  split; [exact H1|exact H3].
Defined.

(** X7, at a sample request: a favorite from a session without a user. *)
Lemma anonymous_requests_write_nothing_witness :
  get_current_user (db world3) session_anon = None
  /\ writes_recipe_data (POST_favorite 1 "token-1") = true
  /\ dispatch world3 session_anon (POST_favorite 1 "token-1")
     = (world3, session_anon, RedirectResponse "/login" 303).
Proof.
  split; [reflexivity|]. split; [reflexivity|].
  exact (anonymous_requests_write_nothing
           world3 session_anon (POST_favorite 1 "token-1") eq_refl eq_refl).
Defined.

(** X8, at a sample request: three views of recipe 1, seen 5 times before. *)
Lemma each_view_counts_once_witness :
  get_recipe (db world3) 1
  = Ok (Some (Recipe.mk 1 "Omelette" "eggs" (Some "/media/a.webp+") (Some 1) 5))
  /\ get_recipe (db (fst (view_times 3 world3 session_bob 1))) 1
     = Ok (Some (Recipe.mk 1 "Omelette" "eggs" (Some "/media/a.webp+") (Some 1) 8))
  /\ users (db (fst (view_times 3 world3 session_bob 1))) = [alice; bob]
  /\ tags (db (fst (view_times 3 world3 session_bob 1))) = [Tag.mk 1 "breakfast"]
  /\ recipe_tags (db (fst (view_times 3 world3 session_bob 1)))
     = [RecipeTag.mk 1 1; RecipeTag.mk 2 1].
Proof.
  split; [reflexivity|].
  destruct (each_view_counts_once 3 world3 session_bob 1
              (Recipe.mk 1 "Omelette" "eggs" (Some "/media/a.webp+") (Some 1) 5)
              eq_refl)
    as [H1 [_ [Hus [_ [_ [Ht [Hrt _]]]]]]].
  split; [exact H1|]. split; [exact Hus|]. split; [exact Ht|exact Hrt].
Defined.

(** X9, at a sample request: carol signs up. *)
Lemma signup_adds_one_account_per_email_witness :
  sess_csrf_token session1 = Some "token-0"
  /\ "token-0" <> ""
  /\ is_ascii "token-0" = true
  /\ find_user_by_email (db world1) "carol@example.com" = None
  /\ exists u,
       User.email u = "carol@example.com"
       /\ snd (signup world1 session1 "carol@example.com" "pw" "token-0")
          = RedirectResponse "/" 303
       /\ users (db (fst (fst (signup world1 session1 "carol@example.com" "pw"
                                      "token-0"))))
          = [alice; u].
Proof.
  assert (Hne : "token-0" <> "") by discriminate.
  split; [reflexivity|]. split; [exact Hne|]. split; [reflexivity|].
  split; [reflexivity|].
  destruct (signup_adds_one_account_per_email
              world1 session1 "carol@example.com" "pw" "token-0"
              eq_refl Hne eq_refl)
    as [H1 _].
  destruct (H1 eq_refl) as [u [Heq [He _]]].
  exists u. split; [exact He|]. rewrite Heq. split; reflexivity.
Defined.

(** X10, at a sample request: carol signs up and logs in from another
    session. *)
Lemma login_after_signup_succeeds_witness :
  sess_csrf_token session1 = Some "token-0"
  /\ "token-0" <> ""
  /\ is_ascii "token-0" = true
  /\ find_user_by_email (db world1) "carol@example.com" = None
  /\ (forall n : nat, pwd_verify "pw" (pwd_hash n "pw") = true)
  /\ sess_csrf_token session_anon = Some "token-1"
  /\ "token-1" <> ""
  /\ is_ascii "token-1" = true
  /\ snd (login (fst (fst (signup world1 session1 "carol@example.com" "pw"
                                  "token-0")))
                session_anon "carol@example.com" "pw" "token-1")
     = RedirectResponse "/" 303.
Proof.
  assert (Hne : "token-0" <> "") by discriminate.
  assert (Hne1 : "token-1" <> "") by discriminate.
  assert (Hpw : forall n : nat, pwd_verify "pw" (pwd_hash n "pw") = true)
    by (intros n; reflexivity).
  split; [reflexivity|]. split; [exact Hne|]. split; [reflexivity|].
  split; [reflexivity|]. split; [exact Hpw|]. split; [reflexivity|].
  split; [exact Hne1|]. split; [reflexivity|].
  destruct (login_after_signup_succeeds
              world1 session1 "carol@example.com" "pw" "token-0"
              eq_refl Hne eq_refl eq_refl Hpw
              session_anon "token-1" eq_refl Hne1 eq_refl)
    as [u [Heq _]].
  rewrite Heq. reflexivity.
Defined.

(** X11, at a sample request: a login with an email nobody has. *)
Lemma failed_login_changes_nothing_witness :
  sess_csrf_token session1 = Some "token-0"
  /\ "token-0" <> ""
  /\ is_ascii "token-0" = true
  /\ find_user_by_email (db world1) "nobody@example.com" = None
  /\ fst (login world1 session1 "nobody@example.com" "pw" "token-0")
     = (world1, session1).
Proof.
  assert (Hne : "token-0" <> "") by discriminate.
  split; [reflexivity|]. split; [exact Hne|]. split; [reflexivity|].
  split; [reflexivity|].
  rewrite (failed_login_changes_nothing
             world1 session1 "nobody@example.com" "pw" "token-0"
             eq_refl Hne eq_refl (or_introl eq_refl)).
  reflexivity.
Defined.

(** X12, at a sample request: alice logs out. *)
Lemma logout_ends_the_session_witness :
  sess_csrf_token session1 = Some "token-0"
  /\ "token-0" <> ""
  /\ is_ascii "token-0" = true
  /\ logout world1 session1 "token-0"
     = (world1, empty_session, RedirectResponse "/" 303)
  /\ dispatch world1 empty_session (POST_logout "token-0")
     = (world1, empty_session, Uncaught (HTTPException 400 "Invalid CSRF token")).
Proof.
  assert (Hne : "token-0" <> "") by discriminate.
  split; [reflexivity|]. split; [exact Hne|]. split; [reflexivity|].
  destruct (logout_ends_the_session world1 session1 "token-0" eq_refl Hne eq_refl)
    as [H1 [_ H3]].
  split; [exact H1|exact (H3 (POST_logout "token-0"))].
Defined.

(** X13, on the reference platform: the signup page gives a fresh session
    a token that [verify_csrf] accepts. *)
Lemma form_token_is_accepted_witness :
  (forall n : nat, token_urlsafe n <> "" /\ is_ascii (token_urlsafe n) = true)
  /\ (forall t, sess_csrf_token empty_session = Some t -> is_ascii t = true)
  /\ exists tok,
       sess_csrf_token (snd (_ensure_csrf world1 empty_session)) = Some tok
       /\ verify_csrf (snd (_ensure_csrf world1 empty_session)) tok = Ok tt.
Proof.
  assert (H0 : forall t, sess_csrf_token empty_session = Some t -> is_ascii t = true)
    by (intros t H; discriminate H).
  split; [exact reference_tokens|]. split; [exact H0|].
  destruct (form_token_is_accepted reference_tokens world1 empty_session H0)
    as [tok [H1 [H2 _]]].
  exists tok. split; [exact H1|exact H2].
Defined.

(** X14, at a sample request: alice edits recipe 1 and adds the tag
    quick. *)
Lemma edit_adds_tags_and_never_removes_witness :
  get_current_user (db world3) session1 = Some alice
  /\ verify_csrf session1 (UpdateForm.csrf_token (edit_keep "breakfast, quick"))
     = Ok tt
  /\ get_recipe (db world3) 1
     = Ok (Some (Recipe.mk 1 "Omelette" "eggs" (Some "/media/a.webp+") (Some 1) 5))
  /\ opt_Z_eqb (Some 1) (User.id alice) = true
  /\ exists t,
       In t (select_tags
               (db (fst (fst (recipe_update world3 session1 1
                                (edit_keep "breakfast, quick"))))) 1)
       /\ Tag.name t = "quick".
Proof.
  split; [reflexivity|]. split; [reflexivity|]. split; [reflexivity|].
  split; [reflexivity|].
  destruct (edit_adds_tags_and_never_removes
              world3 session1 1 (edit_keep "breakfast, quick") alice
              (Recipe.mk 1 "Omelette" "eggs" (Some "/media/a.webp+") (Some 1) 5)
              eq_refl eq_refl eq_refl eq_refl)
    as [_ [_ [_ [_ H5]]]].
  apply (H5 "quick"). right. left. reflexivity.
Defined.

(** X15, at a sample request: a create with the tags breakfast and
    quick. *)
Lemma created_recipe_shows_its_tags_witness :
  get_current_user (db world1) session1 = Some alice
  /\ verify_csrf session1 (CreateForm.csrf_token omelette) = Ok tt
  /\ exists t,
       In t (page_tags (snd (recipe_create world1 session1 omelette)))
       /\ Tag.name t = "quick".
Proof.
  split; [reflexivity|]. split; [reflexivity|].
  destruct (created_recipe_shows_its_tags world1 session1 omelette alice
              eq_refl eq_refl)
    as [H1 _].
  apply (H1 "quick"). right. left. reflexivity.
Defined.

(** X16, at a sample request: alice edits recipe 1; the rows of recipe 2
    stay. *)
Lemma edit_replaces_only_the_rows_of_its_recipe_witness :
  get_current_user (db world3) session1 = Some alice
  /\ verify_csrf session1 (UpdateForm.csrf_token (edit_keep "")) = Ok tt
  /\ get_recipe (db world3) 1
     = Ok (Some (Recipe.mk 1 "Omelette" "eggs" (Some "/media/a.webp+") (Some 1) 5))
  /\ opt_Z_eqb (Some 1) (User.id alice) = true
  /\ filter (fun i => negb (Ingredient.recipe_id i =? 1))
            (ingredients (db (fst (fst (recipe_update world3 session1 1
                                          (edit_keep ""))))))
     = [Ingredient.mk 2 2 "bread" None None 0]
  /\ get_recipe (db (fst (fst (recipe_update world3 session1 1 (edit_keep "")))))
                2
     = Ok (Some (Recipe.mk 2 "Toast" "bread" None (Some 2) 9)).
Proof.
  split; [reflexivity|]. split; [reflexivity|]. split; [reflexivity|].
  split; [reflexivity|].
  destruct (edit_replaces_only_the_rows_of_its_recipe
              world3 session1 1 (edit_keep "") alice
              (Recipe.mk 1 "Omelette" "eggs" (Some "/media/a.webp+") (Some 1) 5)
              eq_refl eq_refl eq_refl eq_refl)
    as [H1 [_ [H3 _]]].
  split; [exact H1|].
  rewrite (H3 2); [reflexivity|lia].
Defined.

(** X17, at a sample request: alice's favorites by views. *)
Lemma favorites_page_lists_the_favorites_witness :
  get_current_user (db world3) session1 = Some alice
  /\ exists listed,
       snd (favorites_page world3 session1 "views")
         = TemplateResponse (favorites_html listed alice "views")
       /\ descending Recipe.view_count listed
       /\ (In (Recipe.mk 2 "Toast" "bread" None (Some 2) 9) listed).
Proof.
  split; [reflexivity|].
  destruct (favorites_page_lists_the_favorites world3 session1 "views" alice
              eq_refl)
    as [listed [H1 [H2 [_ [H4 _]]]]].
  exists listed. split; [exact H1|]. split; [exact (H4 eq_refl)|].
  apply H2. split; [right; left; reflexivity|reflexivity].
Defined.

(** X19, at a sample form: a full rectangle for step 0. *)
Lemma crop_tuple_needs_all_four_and_is_clamped_witness :
  _crop_tuple_at 0 (Some ["-3"]) (Some ["0"]) (Some ["50"]) (Some ["0"])
  = Some (0, 0, 50, 1)
  /\ has_entry (Some ["-3"]) 0.
Proof.
  assert (H : _crop_tuple_at 0 (Some ["-3"]) (Some ["0"]) (Some ["50"]) (Some ["0"])
              = Some (0, 0, 50, 1)) by reflexivity.
  split; [exact H|].
  destruct (crop_tuple_needs_all_four_and_is_clamped
              0 (Some ["-3"]) (Some ["0"]) (Some ["50"]) (Some ["0"]) 0 0 50 1 H)
    as [_ [_ [_ [_ [H5 _]]]]].
  exact H5.
Defined.

(** X20, at sample form values. *)
Lemma parse_crop_agrees_with_crop_tuple_witness :
  _parse_crop (Some "-3") (Some "0") (Some "50") (Some "0") = Some (0, 0, 50, 1)
  /\ exists sx sy sw sh,
       _crop_tuple_at 0 (Some [sx]) (Some [sy]) (Some [sw]) (Some [sh])
       = Some (0, 0, 50, 1).
Proof.
  assert (H0 : _parse_crop (Some "-3") (Some "0") (Some "50") (Some "0")
               = Some (0, 0, 50, 1)) by reflexivity.
  split; [exact H0|].
  destruct (parse_crop_agrees_with_crop_tuple
              (Some "-3") (Some "0") (Some "50") (Some "0") 0 0 50 1 H0)
    as [sx [sy [sw [sh [_ [_ [_ [_ [_ [_ [_ [_ [H _]]]]]]]]]]]]].
  exists sx, sy, sw, sh. exact H.
Defined.

(** X22, at a sample request: a create with a main image, then the repair
    script. *)
Lemma fix_plus_repairs_the_created_path_witness :
  get_current_user (db world2) session1 = Some alice
  /\ truthy (filename photo) = true
  /\ verify_csrf session1 (CreateForm.csrf_token (with_photo photo)) = Ok tt
  /\ CreateForm.image (with_photo photo) = Some photo
  /\ exists r2,
       In r2 (recipes (db (fix_plus_in_paths
                             (fst (fst (recipe_create world2 session1
                                          (with_photo photo)))))))
       /\ Recipe.main_image r2
          = Some "/media/00000000000000000000000000000000.webp".
Proof.
  split; [reflexivity|]. split; [reflexivity|]. split; [reflexivity|].
  split; [reflexivity|].
  destruct (fix_plus_repairs_the_created_path
              platform world2 session1 alice photo (with_photo photo)
              eq_refl eq_refl eq_refl eq_refl)
    as [r1 [r2 [_ [_ [_ [H4 [_ [H6 _]]]]]]]].
  exists r2. split; [exact H4|exact H6].
Defined.

(** X24, at a sample request: the blank first ingredient is dropped and
    "egg" keeps position 1; the second step has no body and keeps its
    picture. *)
Lemma edit_then_fetch_keeps_submitted_order_witness :
  get_current_user (db world3) session1 = Some alice
  /\ verify_csrf session1 (UpdateForm.csrf_token (edit_keep "")) = Ok tt
  /\ get_recipe (db world3) 1
     = Ok (Some (Recipe.mk 1 "Omelette" "eggs" (Some "/media/a.webp+") (Some 1) 5))
  /\ opt_Z_eqb (Some 1) (User.id alice) = true
  /\ map Ingredient.name
         (select_ingredients
            (db (fst (fst (recipe_update world3 session1 1 (edit_keep ""))))) 1)
     = ["egg"]
  /\ map Ingredient.order_no
         (select_ingredients
            (db (fst (fst (recipe_update world3 session1 1 (edit_keep ""))))) 1)
     = [1]
  /\ map Step.body
         (select_steps
            (db (fst (fst (recipe_update world3 session1 1 (edit_keep ""))))) 1)
     = ["beat eggs"; ""]
  /\ map Step.order_no
         (select_steps
            (db (fst (fst (recipe_update world3 session1 1 (edit_keep ""))))) 1)
     = [0; 1].
Proof.
  split; [reflexivity|]. split; [reflexivity|]. split; [reflexivity|].
  split; [reflexivity|].
  destruct (edit_then_fetch_keeps_submitted_order
              world3 session1 1 (edit_keep "") alice
              (Recipe.mk 1 "Omelette" "eggs" (Some "/media/a.webp+") (Some 1) 5)
              eq_refl eq_refl eq_refl eq_refl)
    as [H1 [H2 [_ [H4 [H5 _]]]]].
  split; [exact H1|]. split; [exact H2|]. split; [exact H4|exact H5].
Defined.

(** X25, at a sample request: alice opens the edit form of recipe 1 and
    submits its tags_csv. *)
Lemma edit_form_tags_resubmitted_change_nothing_witness :
  get_current_user (db world3) session1 = Some alice
  /\ verify_csrf session1 (UpdateForm.csrf_token (edit_keep "breakfast")) = Ok tt
  /\ get_recipe (db world3) 1
     = Ok (Some (Recipe.mk 1 "Omelette" "eggs" (Some "/media/a.webp+") (Some 1) 5))
  /\ opt_Z_eqb (Some 1) (User.id alice) = true
  /\ tags_wf (db world3)
  /\ UpdateForm.tags_csv (edit_keep "breakfast")
     = page_tags_csv (snd (recipe_edit_form world3 session1 1))
  /\ tags (db (fst (fst (recipe_update world3 session1 1 (edit_keep "breakfast")))))
     = tags (db world3)
  /\ recipe_tags
       (db (fst (fst (recipe_update world3 session1 1 (edit_keep "breakfast")))))
     = recipe_tags (db world3).
Proof.
  assert (Hwf : tags_wf (db world3)).
  { split; simpl.
    - constructor; [simpl; tauto|constructor].
    - constructor; [reflexivity|constructor]. }
  split; [reflexivity|]. split; [reflexivity|]. split; [reflexivity|].
  split; [reflexivity|]. split; [exact Hwf|]. split; [reflexivity|].
  destruct (edit_form_tags_resubmitted_change_nothing
              world3 session1 1 (edit_keep "breakfast") alice
              (Recipe.mk 1 "Omelette" "eggs" (Some "/media/a.webp+") (Some 1) 5)
              eq_refl eq_refl eq_refl eq_refl Hwf eq_refl)
    as [_ [H2 H3]].
  split; [exact H2|exact H3].
Defined.

(** X26, at a sample request: a create that names the tag breakfast
    again. *)
Lemma tag_names_stay_distinct_witness :
  tags_wf (db world3)
  /\ tags_wf (db (fst (fst (dispatch world3 session1 (POST_recipes omelette))))).
Proof.
  assert (Hwf : tags_wf (db world3)).
  { split; simpl.
    - constructor; [simpl; tauto|constructor].
    - constructor; [reflexivity|constructor]. }
  split; [exact Hwf|].
  exact (tag_names_stay_distinct world3 session1 (POST_recipes omelette) Hwf).
Defined.
